(** * RTABuilder: the image-build pipeline, embedded and verified

    A shallow embedding of the Python sources
      - [src/iso_building_utils.py]  (class [ISOBuilder])
      - [rta_builder_app.py]         (class [RTABuilderApp], the build worker)
    Every method that talks to the host (file system, subprocesses, the
    network, the stop flag written by another thread) is a computation in a
    small monad [M]: it threads the mutable part of the host, appends the
    operations it issues to an event trace and ends normally, by a Python
    [return], or by a raised exception.  What the host answers is read from a
    [world] record, so that a statement quantified over [world] speaks about
    every host. *)

From Stdlib Require Import ZArith String Ascii List Bool Lia Arith.
From Stdlib Require Import DecimalString Floats Uint63 Sorted.
Import ListNotations.
Local Open Scope string_scope.
Local Open Scope list_scope.

Set Implicit Arguments.

(* ================================================================== *)
(** * Python values used by the sources *)

Module Py.

(** ** [str] methods *)

(** ASCII characters that [str.strip()] removes. *)
Definition is_space (c : ascii) : bool :=
  let n := nat_of_ascii c in
  ((9 <=? n) && (n <=? 13) || (28 <=? n) && (n <=? 32))%nat.

Fixpoint lstrip (s : string) : string :=
  match s with
  | String c s' => if is_space c then lstrip s' else s
  | EmptyString => EmptyString
  end.

Fixpoint rstrip (s : string) : string :=
  match s with
  | EmptyString => EmptyString
  | String c s' =>
      match rstrip s' with
      | EmptyString => if is_space c then EmptyString else String c EmptyString
      | r => String c r
      end
  end.

Definition strip (s : string) : string := rstrip (lstrip s).

(** [sub in s] *)
Definition contains (sub s : string) : bool :=
  match index 0 sub s with Some _ => true | None => false end.

(** [s.split(c)[0]] for a one-character separator. *)
Fixpoint split_head (c : ascii) (s : string) : string :=
  match s with
  | EmptyString => EmptyString
  | String a s' => if Ascii.eqb a c then EmptyString else String a (split_head c s')
  end.

Definition lower_char (c : ascii) : ascii :=
  let n := nat_of_ascii c in
  if ((65 <=? n) && (n <=? 90))%nat then ascii_of_nat (n + 32) else c.

Fixpoint lower (s : string) : string :=
  match s with
  | EmptyString => EmptyString
  | String c s' => String (lower_char c) (lower s')
  end.

(** [s.replace(a, b)] for one-character [a] and [b]. *)
Fixpoint replace_char (a b : ascii) (s : string) : string :=
  match s with
  | EmptyString => EmptyString
  | String c s' => String (if Ascii.eqb c a then b else c) (replace_char a b s')
  end.

(** Truth value of a string: empty is false. *)
Definition truthy (s : string) : bool :=
  match s with EmptyString => false | _ => true end.

(** ** [int(str)]: an optional sign, then decimal digits, single
    underscores allowed between digits.  [None] is [ValueError]. *)

Definition digit_of (c : ascii) : option Z :=
  let n := nat_of_ascii c in
  if ((48 <=? n) && (n <=? 57))%nat then Some (Z.of_nat (n - 48)) else None.

Fixpoint digits (s : string) (acc : Z) (after_digit : bool) : option Z :=
  match s with
  | EmptyString => if after_digit then Some acc else None
  | String c s' =>
      match digit_of c with
      | Some d => digits s' (10 * acc + d)%Z true
      | None =>
          if Ascii.eqb c "_" && after_digit
          then digits s' acc false
          else None
      end
  end.

Definition int_of_str (s : string) : option Z :=
  match strip s with
  | String "-" r => option_map Z.opp (digits r 0%Z false)
  | String "+" r => digits r 0%Z false
  | r => digits r 0%Z false
  end.

(** ** [str(int)] *)
Definition str_of_Z (z : Z) : string := NilZero.string_of_int (Z.to_int z).
Definition str_of_nat (n : nat) : string := str_of_Z (Z.of_nat n).

(** ** [float] arithmetic: binary64, as in CPython.

    [a / b] on two [int]s is the correctly rounded quotient; for operands
    below 2^53 (every count and byte size met here) that is the IEEE
    division of the two conversions. *)
Definition float_of_Z (z : Z) : float := PrimFloat.of_uint63 (Uint63.of_Z z).

Definition truediv (a b : Z) : float := PrimFloat.div (float_of_Z a) (float_of_Z b).

(** [int(f)]: truncation toward zero of a finite float. *)
Definition int_of_float (f : float) : Z :=
  match Prim2SF f with
  | S754_finite s m e =>
      let v := if (0 <=? e)%Z then (Z.pos m * 2 ^ e)%Z else (Z.pos m / 2 ^ (- e))%Z in
      if s then (- v)%Z else v
  | _ => 0%Z
  end.

(** ** Exceptions: the classes the sources tell apart, and [str(e)]. *)
Inductive exn_class :=
| Exception          (* raised by the sources themselves: [raise Exception(..)] *)
| SubprocessError    (* [subprocess.SubprocessError] and its subclasses *)
| OSError
| ValueError
| NameError          (* includes [UnboundLocalError] *)
| OtherError.

Record exn := mkExn { exn_cls : exn_class; exn_msg : string }.

Definition is_subprocess_error (e : exn) : bool :=
  match exn_cls e with SubprocessError => true | _ => false end.

End Py.
Import Py.

(* ================================================================== *)
(** * The host: events, answers, and the monad of the methods *)

(** A command line: [Popen] and [run] take an argument vector, or one string
    (with or without [shell=True]). *)
Inductive cmdline :=
| Argv (args : list string)
| Line (cmd : string).

(** What a method does to the outside, in the order it does it. *)
Inductive event :=
(* ISOBuilder *)
| ELog (message : string) (progress : option Z)  (* [self.log]: logger.info, then the callback *)
| EPoll (set : bool)                 (* one read of [stop_requested] / [stop_build] *)
| EMakedirs (path : string)          (* [os.makedirs(path, exist_ok=True)] *)
| EPopen (cmd : cmdline)             (* [subprocess.Popen] *)
| ETerminate                         (* [process.terminate()] *)
| EWait                              (* [process.wait()] *)
| ERun (cmd : string)                (* [subprocess.run] *)
| ECopy2 (src dst : string)          (* [shutil.copy2] *)
| EWriteFile (path : string)         (* [open(path, "w"/"wb")] and the write *)
| EZipOpen (path : string)           (* [zipfile.ZipFile(path, 'w', ..)] *)
| EZipWrite (full rel : string)      (* [zipf.write] *)
| EZipClose
| EUnlink (path : string)            (* [os.unlink] *)
| ERename (src dst : string)         (* [os.rename] *)
| EUrlRetrieve (url dst : string)    (* [urllib.request.urlretrieve] *)
| ECallback (percent : Z)            (* the caller's [progress_callback] *)
(* RTABuilderApp *)
| ELogger (level : string) (message : string)   (* module-level [logger] *)
| EProgress (value : Z)              (* [update_progress]: the progress bar *)
| EShowInfo (title message : string) (* [messagebox.showinfo] *)
| EShowError (title message : string)(* [messagebox.showerror] *)
| EButton (button state : string)    (* [button.config(state=..)] *)
| ESleep.                            (* [time.sleep] *)

(** A spawned process as the reading loop sees it: the lines of its standard
    output, an exception the stream may raise once they are read, its exit
    code and its standard error. *)
Record process := mkProcess {
  stdout_lines : list string;
  stdout_error : option exn;
  returncode : Z;
  stderr_text : string
}.

(** The result of [subprocess.run]. *)
Record completed := mkCompleted {
  run_returncode : Z;
  run_stdout : string
}.

(** What [urlretrieve] does between its call and its end: it may fail before
    the destination is opened; otherwise the destination file exists from
    then on, the report hook is called with the listed
    [(count, block_size, total_size)], and the transfer ends normally or
    with an exception. *)
Record transfer := mkTransfer {
  open_error : option exn;
  hook_calls : list (Z * Z * Z);
  transfer_error : option exn
}.

(** The answers of the host. *)
Record world := mkWorld {
  environ : string -> option string;                 (* [os.environ.get] *)
  os_path_join : list string -> string;              (* [os.path.join] *)
  os_path_dirname : string -> string;
  os_path_relpath : string -> string -> exn + string;
  module_dir : string;      (* [os.path.dirname(os.path.abspath(__file__))] *)
  gettempdir : string;                               (* [tempfile.gettempdir()] *)
  os_makedirs : string -> option exn;                (* [None]: no exception *)
  os_walk : string -> list (string * list string * list string);
  shutil_copy2 : string -> string -> option exn;
  subprocess_Popen : cmdline -> exn + process;
  subprocess_run : string -> exn + completed;
  open_write : string -> option exn;
  zip_open : string -> option exn;
  zip_write : string -> string -> option exn;
  os_unlink : string -> option exn;
  os_rename : string -> string -> option exn;
  urlretrieve : string -> string -> transfer;
  format_1f : float -> string;                       (* [f"{x:.1f}"] *)
  stop_flag : nat -> bool   (* value of the stop flag at its n-th read *)
}.

(** The mutable part: how often the stop flag was read, which paths exist,
    and the local [drive_letter] of [_extract_with_windows_mount], which its
    [try] block assigns and its [finally] block reads. *)
Record st := mkSt {
  polls : nat;
  fs : string -> bool;
  drive_letter : option string
}.

(** How a block of statements ends. *)
Inductive outcome (A : Type) :=
| Normal (a : A)         (* ran to its end *)
| Returned (value : option bool)  (* executed [return value]; [None] is Python's [None] *)
| Raised (e : exn).      (* raised [e] *)
Arguments Normal {A} a.
Arguments Returned {A} value.
Arguments Raised {A} e.

Record run (A : Type) := mkRun { res : outcome A; out : list event; fin : st }.

Definition M (A : Type) : Type := st -> run A.

Definition ret {A} (a : A) : M A := fun s => mkRun (Normal a) [] s.

Definition bind {A B} (m : M A) (k : A -> M B) : M B := fun s =>
  let r := m s in
  match res r with
  | Normal a => let r' := k a (fin r) in mkRun (res r') (out r ++ out r') (fin r')
  | Returned b => mkRun (Returned b) (out r) (fin r)
  | Raised e => mkRun (Raised e) (out r) (fin r)
  end.

Declare Scope py_scope.
Delimit Scope py_scope with py.
Notation "x <- m ;; k" := (bind m (fun x => k))
  (at level 61, m at next level, right associativity) : py_scope.
Notation "m ;; k" := (bind m (fun _ => k))
  (at level 61, right associativity) : py_scope.
Local Open Scope py_scope.

(** [return b] for a Boolean, and [return v] for the value of a call. *)
Definition return_value {A} (v : option bool) : M A := fun s => mkRun (Returned v) [] s.
Definition return_ {A} (b : bool) : M A := return_value (Some b).
(** [raise e] *)
Definition raise {A} (e : exn) : M A := fun s => mkRun (Raised e) [] s.
Definition emit (e : event) : M unit := fun s => mkRun (Normal tt) [e] s.
Definition get : M st := fun s => mkRun (Normal s) [] s.
Definition put (s' : st) : M unit := fun _ => mkRun (Normal tt) [] s'.

(** An operation of the host that may raise: issue it, then fail or go on. *)
Definition attempt (e : event) (answer : option exn) : M unit :=
  emit e ;; match answer with Some x => raise x | None => ret tt end.

(** [try: m  except <class>: h] for the exceptions [catches] selects. *)
Definition try_except {A} (catches : exn -> bool) (m : M A) (h : exn -> M A) : M A :=
  fun s =>
  let r := m s in
  match res r with
  | Raised e =>
      if catches e
      then let r' := h e (fin r) in mkRun (res r') (out r ++ out r') (fin r')
      else r
  | _ => r
  end.

(** [except Exception] and the bare [except:] catch every exception of the
    model ([KeyboardInterrupt] and [SystemExit] are not modelled). *)
Definition any_exception (e : exn) : bool := true.

(** [try: m  finally: f]: [f] runs however [m] ends; if [f] itself returns
    or raises, that replaces the way [m] ended. *)
Definition try_finally {A} (m : M A) (f : M unit) : M A := fun s =>
  let r := m s in
  let r' := f (fin r) in
  mkRun (match res r' with
         | Normal _ => res r
         | Returned b => Returned b
         | Raised e => Raised e
         end) (out r ++ out r') (fin r').

(** [for x in xs: body x] *)
Fixpoint for_each {X} (xs : list X) (body : X -> M unit) : M unit :=
  match xs with
  | [] => ret tt
  | x :: xs' => body x ;; for_each xs' body
  end.

(** A loop that updates a local variable ([copied_files], [processed]). *)
Fixpoint for_fold {X S} (xs : list X) (acc : S) (body : S -> X -> M S) : M S :=
  match xs with
  | [] => ret acc
  | x :: xs' => acc' <- body acc x ;; for_fold xs' acc' body
  end.

(** Calling a method whose body is [m]: the value of the call is the
    returned value, and [None] when the body runs off its end; an exception
    goes on to the caller. *)
Definition call (m : M unit) : M (option bool) := fun s =>
  let r := m s in
  mkRun (match res r with
         | Normal _ => Normal None
         | Returned v => Normal v
         | Raised e => Raised e
         end) (out r) (fin r).

(** Truth value of the result of a call: [None] and [False] are false. *)
Definition truth (v : option bool) : bool :=
  match v with Some b => b | None => false end.

(** One read of the stop flag. *)
Definition poll (w : world) : M bool := fun s =>
  let b := stop_flag w (polls s) in
  mkRun (Normal b) [EPoll b] (mkSt (S (polls s)) (fs s) (drive_letter s)).

(** [os.path.exists] *)
Definition exists_ (path : string) : M bool := fun s => mkRun (Normal (fs s path)) [] s.

Definition set_path (path : string) (present : bool) : M unit := fun s =>
  mkRun (Normal tt) []
    (mkSt (polls s) (fun p => if String.eqb p path then present else fs s p) (drive_letter s)).

Definition set_drive_letter (d : option string) : M unit := fun s =>
  mkRun (Normal tt) [] (mkSt (polls s) (fs s) d).

Definition get_drive_letter : M (option string) := fun s =>
  mkRun (Normal (drive_letter s)) [] s.

(* ================================================================== *)
(** * [class ISOBuilder] (src/iso_building_utils.py) *)

Module ISOBuilder.
Local Open Scope string_scope.

(** The double quote inside the PowerShell command lines. *)
Definition dq : string := String (ascii_of_nat 34) EmptyString.

Definition mount_cmd (iso_path : string) : string :=
  "powershell -command " ++ dq ++ "Mount-DiskImage -ImagePath '" ++ iso_path
  ++ "' -PassThru | Get-Volume | Select-Object -ExpandProperty DriveLetter" ++ dq.

Definition unmount_cmd (iso_path : string) : string :=
  "powershell -command " ++ dq ++ "Dismount-DiskImage -ImagePath '" ++ iso_path ++ "'" ++ dq.

Definition check_cmd : string :=
  "powershell -command " ++ dq ++ "Get-Command New-IsoFile -ErrorAction SilentlyContinue" ++ dq.

Definition import_cmd (script_path : string) : string :=
  "powershell -command " ++ dq ++ ". " ++ script_path ++ dq.

Definition create_cmd (script_path source_dir output_iso volume_label boot_args : string) : string :=
  "powershell -command " ++ dq ++ ". " ++ script_path ++ "; New-IsoFile -Source '" ++ source_dir
  ++ "' -Destination '" ++ output_iso ++ "' -VolumeName '" ++ volume_label ++ "' " ++ boot_args ++ dq.

(** [sum([len(files) for _, _, files in os.walk(..)])] *)
Definition count_files (tree : list (string * list string * list string)) : nat :=
  list_sum (map (fun entry => length (snd entry)) tree).

(** [int((done / total) * 100) if total > 0 else 0] *)
Definition percent_done (done total : nat) : Z :=
  if (0 <? total)%nat
  then int_of_float (PrimFloat.mul (truediv (Z.of_nat done) (Z.of_nat total)) (float_of_Z 100))
  else 0%Z.

(** [n % 100 == 0 or n == total] *)
Definition at_cadence (n total : nat) : bool :=
  ((n mod 100 =? 0) || (n =? total))%nat.

(** The native masterer's command line. *)
Definition oscdimg_cmd (oscdimg_path source_dir output_iso volume_label : string)
    (boot_args : list string) : list string :=
  ([oscdimg_path; "-m"; "-o"; "-u2"; ("-l" ++ volume_label)%string]
     ++ boot_args ++ [source_dir; output_iso])%list.

Section Methods.

Variable w : world.

Definition log (message : string) (progress : option Z) : M unit :=
  emit (ELog message progress).

Definition env_get (name default : string) : string :=
  match environ w name with Some v => v | None => default end.

(** [subprocess.run(cmd, ...)] and [subprocess.run(cmd, ..., check=True)] *)
Definition run_cmd (cmd : string) : M completed :=
  emit (ERun cmd) ;;
  match subprocess_run w cmd with
  | inl e => raise e
  | inr c => ret c
  end.

Definition run_checked (cmd : string) : M completed :=
  c <- run_cmd cmd ;;
  if (run_returncode c =? 0)%Z then ret c
  else raise (mkExn SubprocessError
                ("Command '" ++ cmd ++ "' returned non-zero exit status "
                 ++ str_of_Z (run_returncode c) ++ ".")).

Definition relpath (path start : string) : M string :=
  match os_path_relpath w path start with
  | inl e => raise e
  | inr p => ret p
  end.

Definition _find_7zip : M (option string) :=
  let possible_paths :=
    [ os_path_join w [env_get "ProgramFiles" "C:\Program Files"; "7-Zip"; "7z.exe"];
      os_path_join w [env_get "ProgramFiles(x86)" "C:\Program Files (x86)"; "7-Zip"; "7z.exe"] ] in
  s <- get ;;
  ret (find (fs s) possible_paths).

(** The loop [for line in process.stdout] of the three subprocess
    strategies; they differ in the test for a progress line and in the text
    of the progress message. *)
Definition read_output (is_progress : string -> bool) (what : string) (p : process) : M unit :=
  for_each (stdout_lines p) (fun line =>
    stop <- poll w ;;
    if stop then emit ETerminate ;; return_ false
    else if truthy (strip line) then
      if is_progress line then
        try_except any_exception
          (match int_of_str (strip (split_head "%" line)) with
           | Some percent => log (what ++ str_of_Z percent ++ "%") (Some percent)
           | None => raise (mkExn ValueError "invalid literal for int()")
           end)
          (fun _ => log (strip line) None)
      else log (strip line) None
    else ret tt) ;;
  match stdout_error p with Some e => raise e | None => ret tt end.

Definition spawn (cmd : cmdline) : M process :=
  emit (EPopen cmd) ;;
  match subprocess_Popen w cmd with
  | inl e => raise e
  | inr p => ret p
  end.

Definition _extract_with_7zip_body (seven_zip_path iso_path extract_dir : string) : M unit :=
  log "Extracting ISO with 7-Zip..." None ;;
  attempt (EMakedirs extract_dir) (os_makedirs w extract_dir) ;;
  let cmd := [seven_zip_path; "x"; "-o" ++ extract_dir; "-y"; iso_path] in
  process <- spawn (Argv cmd) ;;
  read_output (contains "%") "Extraction progress: " process ;;
  emit EWait ;;
  if (returncode process =? 0)%Z then
    log "ISO extraction completed successfully" None ;;
    return_ true
  else
    log ("7-Zip extraction failed: " ++ stderr_text process) (Some 0%Z) ;;
    return_ false.

Definition _extract_with_7zip (seven_zip_path iso_path extract_dir : string) : M (option bool) :=
  call (try_except any_exception
          (_extract_with_7zip_body seven_zip_path iso_path extract_dir)
          (fun e => log ("Error extracting with 7-Zip: " ++ exn_msg e) (Some 0%Z) ;;
                    return_ false)).

(** One iteration of [for file in files] in the mount-and-copy strategy. *)
Definition copy_file (total_files : nat) (root target_dir : string)
    (copied_files : nat) (file : string) : M nat :=
  stop <- poll w ;;
  if stop then return_ false
  else
    let source_file := os_path_join w [root; file] in
    let target_file := os_path_join w [target_dir; file] in
    try_except any_exception
      (attempt (ECopy2 source_file target_file) (shutil_copy2 w source_file target_file) ;;
       let copied_files := S copied_files in
       let progress := percent_done copied_files total_files in
       (if at_cadence copied_files total_files
        then log ("Copying files: " ++ str_of_nat copied_files ++ "/" ++ str_of_nat total_files
                  ++ " (" ++ str_of_Z progress ++ "%)") (Some progress)
        else ret tt) ;;
       ret copied_files)
      (fun e => log ("Error copying " ++ source_file ++ ": " ++ exn_msg e) None ;;
                ret copied_files).

(** One iteration of [for root, dirs, files in os.walk(source_path)]. *)
Definition copy_dir (total_files : nat) (source_path extract_dir : string)
    (copied_files : nat) (entry : string * list string * list string) : M nat :=
  let root := fst (fst entry) in
  let files := snd entry in
  stop <- poll w ;;
  if stop then return_ false
  else
    rel_path <- relpath root source_path ;;
    let target_dir :=
      if negb (rel_path =? ".") then os_path_join w [extract_dir; rel_path] else extract_dir in
    attempt (EMakedirs target_dir) (os_makedirs w target_dir) ;;
    for_fold files copied_files (copy_file total_files root target_dir).

(** [f"{drive_letter}"] *)
Definition str_of_drive (d : option string) : string :=
  match d with Some l => l | None => "None" end.

Definition mount_image (iso_path : string) : M unit :=
  try_except is_subprocess_error
    (result <- run_checked (mount_cmd iso_path) ;;
     let drive := strip (run_stdout result) in
     set_drive_letter (Some drive) ;;
     (if negb (truthy drive)
      then raise (mkExn Exception "Failed to get drive letter for mounted ISO")
      else ret tt) ;;
     log ("ISO mounted at drive " ++ drive ++ ":") None)
    (fun e => log ("Failed to mount ISO using PowerShell: " ++ exn_msg e) (Some 0%Z) ;;
              return_ false).

Definition copy_tree (extract_dir : string) : M unit :=
  d <- get_drive_letter ;;
  let source_path := str_of_drive d ++ ":\" in
  let total_files := count_files (os_walk w source_path) in
  _ <- for_fold (os_walk w source_path) 0%nat (copy_dir total_files source_path extract_dir) ;;
  log "ISO extraction completed successfully" None ;;
  return_ true.

(** The [try] block of [_extract_with_windows_mount]. *)
Definition _extract_with_windows_mount_body (iso_path extract_dir : string) : M unit :=
  log "Mounting ISO using Windows built-in functionality..." None ;;
  attempt (EMakedirs extract_dir) (os_makedirs w extract_dir) ;;
  mount_image iso_path ;;
  copy_tree extract_dir.

(** Its [finally] block. *)
Definition unmount_image (iso_path : string) : M unit :=
  d <- get_drive_letter ;;
  if truthy (match d with Some l => l | None => EmptyString end) then
    try_except any_exception
      (log ("Unmounting ISO from drive " ++ str_of_drive d ++ ":") None ;;
       _ <- run_checked (unmount_cmd iso_path) ;;
       log "ISO unmounted successfully" None)
      (fun e => log ("Error unmounting ISO: " ++ exn_msg e) None)
  else ret tt.

Definition _extract_with_windows_mount (iso_path extract_dir : string) : M (option bool) :=
  call (set_drive_letter None ;;
        try_finally
          (try_except any_exception
             (_extract_with_windows_mount_body iso_path extract_dir)
             (fun e => log ("Error extracting with Windows mount: " ++ exn_msg e) (Some 0%Z) ;;
                       return_ false))
          (unmount_image iso_path)).

Definition extract_iso (iso_path extract_dir : string) : M (option bool) :=
  call (log ("Extracting ISO: " ++ iso_path ++ " to " ++ extract_dir) None ;;
        seven_zip_path <- _find_7zip ;;
        match seven_zip_path with
        | Some path =>
            if truthy path
            then v <- _extract_with_7zip path iso_path extract_dir ;; return_value v
            else v <- _extract_with_windows_mount iso_path extract_dir ;; return_value v
        | None => v <- _extract_with_windows_mount iso_path extract_dir ;; return_value v
        end).

Definition _find_oscdimg : M (option string) :=
  let kit := ["Windows Kits"; "10"; "Assessment and Deployment Kit"; "Deployment Tools";
              "amd64"; "Oscdimg"; "oscdimg.exe"] in
  let possible_paths :=
    [ os_path_join w (env_get "ProgramFiles" "C:\Program Files" :: kit);
      os_path_join w (env_get "ProgramFiles(x86)" "C:\Program Files (x86)" :: kit) ] in
  s <- get ;;
  match find (fs s) possible_paths with
  | Some path => ret (Some path)
  | None =>
      let local_oscdimg := os_path_join w [module_dir w; "tools"; "oscdimg.exe"] in
      if fs s local_oscdimg then ret (Some local_oscdimg)
      else
        log "oscdimg.exe not found on system. Using PowerShell fallback method." None ;;
        ret None
  end.

(** [for boot_file in [...]]: the first boot file that exists decides, then
    [break]. *)
Fixpoint oscdimg_boot_args (present : string -> bool) (source_dir : string)
    (boot_files : list string) : list string :=
  match boot_files with
  | [] => []
  | boot_file :: rest =>
      let boot_path := os_path_join w [source_dir; "boot"; boot_file] in
      if present boot_path
      then (["-b"; boot_path]
            ++ (if contains "efi" (lower boot_file) then ["-e"; "-u1"] else []))%list
      else oscdimg_boot_args present source_dir rest
  end.

Definition _create_iso_with_oscdimg_body
    (oscdimg_path source_dir output_iso volume_label : string) : M unit :=
  log "Creating ISO with oscdimg.exe..." None ;;
  s <- get ;;
  let boot_args := oscdimg_boot_args (fs s) source_dir ["etfsboot.com"; "efisys.bin"] in
  let cmd := oscdimg_cmd oscdimg_path source_dir output_iso volume_label boot_args in
  log ("Running: " ++ String.concat " " cmd) None ;;
  process <- spawn (Argv cmd) ;;
  read_output (contains "%") "ISO creation progress: " process ;;
  emit EWait ;;
  if (returncode process =? 0)%Z then
    log "ISO created successfully" None ;;
    return_ true
  else
    log ("oscdimg failed: " ++ stderr_text process) (Some 0%Z) ;;
    return_ false.

Definition _create_iso_with_oscdimg
    (oscdimg_path source_dir output_iso volume_label : string) : M (option bool) :=
  call (try_except any_exception
          (_create_iso_with_oscdimg_body oscdimg_path source_dir output_iso volume_label)
          (fun e => log ("Error creating ISO with oscdimg: " ++ exn_msg e) (Some 0%Z) ;;
                    return_ false)).

(** One iteration of the inner loop of [_create_basic_iso]. *)
Definition archive_file (file_count : nat) (source_dir root : string)
    (processed : nat) (file : string) : M nat :=
  stop <- poll w ;;
  if stop then return_ false
  else
    let full_path := os_path_join w [root; file] in
    rel_path <- relpath full_path source_dir ;;
    attempt (EZipWrite full_path rel_path) (zip_write w full_path rel_path) ;;
    let processed := S processed in
    (if at_cadence processed file_count
     then
       let progress := percent_done processed file_count in
       log ("Archiving: " ++ str_of_nat processed ++ "/" ++ str_of_nat file_count
            ++ " files (" ++ str_of_Z progress ++ "%)") (Some progress)
     else ret tt) ;;
    ret processed.

Definition archive_tree (source_dir : string) : M nat :=
  let file_count := count_files (os_walk w source_dir) in
  for_fold (os_walk w source_dir) 0%nat
    (fun processed entry =>
       for_fold (snd entry) processed (archive_file file_count source_dir (fst (fst entry)))).

Definition _create_basic_iso_body (source_dir output_iso volume_label : string) : M unit :=
  log "Creating archive of files..." None ;;
  let zip_path := output_iso ++ ".zip" in
  attempt (EZipOpen zip_path) (zip_open w zip_path) ;;
  set_path zip_path true ;;
  (* [with zipfile.ZipFile(..) as zipf]: closed however the block ends *)
  _ <- try_finally (archive_tree source_dir) (emit EZipClose) ;;
  present <- exists_ output_iso ;;
  (if present
   then attempt (EUnlink output_iso) (os_unlink w output_iso) ;; set_path output_iso false
   else ret tt) ;;
  attempt (ERename zip_path output_iso) (os_rename w zip_path output_iso) ;;
  set_path zip_path false ;;
  set_path output_iso true ;;
  log "Basic ISO archive created (note: this is not a proper bootable ISO)" None ;;
  return_ true.

Definition _create_basic_iso (source_dir output_iso volume_label : string) : M (option bool) :=
  call (log "Attempting basic ISO creation (note: may not be bootable)..." None ;;
        try_except any_exception
          (_create_basic_iso_body source_dir output_iso volume_label)
          (fun e => log ("Error creating basic ISO archive: " ++ exn_msg e) (Some 0%Z) ;;
                    return_ false)).

Fixpoint powershell_boot_args (present : string -> bool) (source_dir : string)
    (boot_files : list string) : string :=
  match boot_files with
  | [] => EmptyString
  | boot_file :: rest =>
      let boot_path := os_path_join w [source_dir; "boot"; boot_file] in
      if present boot_path
      then "-Bootable -BootFile " ++ dq ++ boot_path ++ dq
      else powershell_boot_args present source_dir rest
  end.

(** The helper script is written and loaded only when the probe does not
    list [New-IsoFile]; [script_path] is bound only on that branch. *)
Definition ensure_script : M (option string) :=
  result <- run_cmd check_cmd ;;
  if negb (contains "New-IsoFile" (run_stdout result)) then
    log "New-IsoFile command not available, importing IMAPI module..." None ;;
    let script_path := os_path_join w [gettempdir w; "New-IsoFile.ps1"] in
    attempt (EWriteFile script_path) (open_write w script_path) ;;
    _ <- run_checked (import_cmd script_path) ;;
    ret (Some script_path)
  else ret None.

Definition _create_iso_with_powershell_body
    (source_dir output_iso volume_label : string) : M unit :=
  log "Creating ISO with PowerShell..." None ;;
  script_path <- ensure_script ;;
  s <- get ;;
  let boot_args := powershell_boot_args (fs s) source_dir ["etfsboot.com"; "efisys.bin"] in
  match script_path with
  | None =>
      raise (mkExn NameError
               "cannot access local variable 'script_path' where it is not associated with a value")
  | Some script_path =>
      let cmd := create_cmd script_path source_dir output_iso volume_label boot_args in
      log "Running PowerShell ISO creation..." None ;;
      process <- spawn (Line cmd) ;;
      read_output (fun line => contains "%" line && contains "complete" (lower line))
        "ISO creation progress: " process ;;
      emit EWait ;;
      if (returncode process =? 0)%Z then
        log "ISO created successfully with PowerShell" None ;;
        return_ true
      else
        log ("PowerShell ISO creation failed: " ++ stderr_text process) (Some 0%Z) ;;
        v <- _create_basic_iso source_dir output_iso volume_label ;;
        return_value v
  end.

Definition _create_iso_with_powershell
    (source_dir output_iso volume_label : string) : M (option bool) :=
  call (try_except any_exception
          (_create_iso_with_powershell_body source_dir output_iso volume_label)
          (fun e => log ("Error creating ISO with PowerShell: " ++ exn_msg e) (Some 0%Z) ;;
                    v <- _create_basic_iso source_dir output_iso volume_label ;;
                    return_value v)).

Definition create_iso (source_dir output_iso volume_label : string) : M (option bool) :=
  call (try_except any_exception
          (log ("Creating ISO from " ++ source_dir ++ " to " ++ output_iso) None ;;
           oscdimg_path <- _find_oscdimg ;;
           match oscdimg_path with
           | Some path =>
               if negb (truthy path)
               then v <- _create_iso_with_powershell source_dir output_iso volume_label ;;
                    return_value v
               else v <- _create_iso_with_oscdimg path source_dir output_iso volume_label ;;
                    return_value v
           | None => v <- _create_iso_with_powershell source_dir output_iso volume_label ;;
                     return_value v
           end)
          (fun e => log ("Error creating ISO: " ++ exn_msg e) (Some 0%Z) ;;
                    return_ false)).

(** The report hook that [download_file] hands to [urlretrieve]. *)
Definition report_progress (has_callback : bool) (count block_size total_size : Z) : M unit :=
  stop <- poll w ;;
  if stop then raise (mkExn Exception "Download canceled by user")
  else if (0 <? total_size)%Z then
    let ratio := truediv (count * block_size * 100) total_size in
    (* [min(ratio, 100)] *)
    let percent := if PrimFloat.ltb (float_of_Z 100) ratio then float_of_Z 100 else ratio in
    log ("Downloaded "
         ++ format_1f w (PrimFloat.div (truediv (count * block_size) 1024) (float_of_Z 1024))
         ++ " MB of "
         ++ format_1f w (PrimFloat.div (truediv total_size 1024) (float_of_Z 1024))
         ++ " MB (" ++ format_1f w percent ++ "%)")
        (Some (int_of_float percent)) ;;
    (if has_callback then emit (ECallback (int_of_float percent)) else ret tt)
  else ret tt.

(** [urllib.request.urlretrieve(url, destination, report_progress)] *)
Definition retrieve (has_callback : bool) (url destination : string) : M unit :=
  emit (EUrlRetrieve url destination) ;;
  let t := urlretrieve w url destination in
  match open_error t with
  | Some e => raise e
  | None =>
      set_path destination true ;;
      for_each (hook_calls t)
        (fun c => report_progress has_callback (fst (fst c)) (snd (fst c)) (snd c)) ;;
      match transfer_error t with Some e => raise e | None => ret tt end
  end.

(** The [except] block of [download_file]. *)
Definition remove_partial (destination : string) (e : exn) : M unit :=
  log ("Error downloading file: " ++ exn_msg e) (Some 0%Z) ;;
  present <- exists_ destination ;;
  (if present
   then try_except any_exception
          (attempt (EUnlink destination) (os_unlink w destination) ;;
           set_path destination false)
          (fun _ => ret tt)
   else ret tt) ;;
  return_ false.

Definition download_file (url destination : string) (has_callback : bool) : M (option bool) :=
  call (log ("Downloading " ++ url ++ " to " ++ destination) None ;;
        try_except any_exception
          (let dir := os_path_dirname w destination in
           attempt (EMakedirs dir) (os_makedirs w dir) ;;
           retrieve has_callback url destination ;;
           log ("Download completed to " ++ destination) None ;;
           return_ true)
          (remove_partial destination)).


(** [convert_to_vhd] and [convert_to_ami] are placeholders in the source:
    five simulated steps, each after a read of the stop flag, then a dummy
    file is written. *)
Definition convert_to_vhd (iso_path vhd_path : string) : M (option bool) :=
  call (log ("Converting " ++ iso_path ++ " to VHD format at " ++ vhd_path) None ;;
        let total_steps := 5%nat in
        for_each (seq 0 total_steps) (fun i =>
          stop <- poll w ;;
          if stop then return_ false
          else
            log ("VHD conversion step " ++ str_of_nat (i + 1) ++ "/"
                 ++ str_of_nat total_steps ++ "...")
                (Some (int_of_float
                         (PrimFloat.mul (truediv (Z.of_nat i) (Z.of_nat total_steps))
                            (float_of_Z 100)))) ;;
            emit ESleep) ;;
        attempt (EWriteFile vhd_path) (open_write w vhd_path) ;;
        log ("VHD conversion completed to " ++ vhd_path) None ;;
        return_ true).

Definition convert_to_ami (iso_path ami_path : string) : M (option bool) :=
  call (log ("Converting " ++ iso_path ++ " to AMI format at " ++ ami_path) None ;;
        let total_steps := 5%nat in
        for_each (seq 0 total_steps) (fun i =>
          stop <- poll w ;;
          if stop then return_ false
          else
            log ("AMI conversion step " ++ str_of_nat (i + 1) ++ "/"
                 ++ str_of_nat total_steps ++ "...")
                (Some (int_of_float
                         (PrimFloat.mul (truediv (Z.of_nat i) (Z.of_nat total_steps))
                            (float_of_Z 100)))) ;;
            emit ESleep) ;;
        attempt (EWriteFile ami_path) (open_write w ami_path) ;;
        log ("AMI conversion completed to " ++ ami_path) None ;;
        return_ true).

End Methods.
End ISOBuilder.

(** ** The module-level helpers of iso_building_utils.py *)

(** [chr(letter)] *)
Definition chr (letter : nat) : string := String (ascii_of_nat letter) EmptyString.

(** One pass of the loop of [get_mounted_drives]: the letter is appended
    when the lowest bit is set, then the mask is shifted. *)
Definition scan_letter (acc : list string * Z) (letter : nat) : list string * Z :=
  let (drives, bitmask) := acc in
  ((if (Z.land bitmask 1 =? 0)%Z then drives else drives ++ [chr letter])%list,
   Z.shiftr bitmask 1).

(** [get_mounted_drives()]; the argument is what
    [win32api.GetLogicalDrives()] answers. *)
Definition get_mounted_drives (GetLogicalDrives : Z) : list string :=
  fst (fold_left scan_letter (seq 65 26) ([], GetLogicalDrives)).

(** [d not in original_drives] *)
Definition not_in (original_drives : list string) (d : string) : bool :=
  negb (existsb (String.eqb d) original_drives).

(** [find_new_drive(original_drives)] *)
Definition find_new_drive (GetLogicalDrives : Z) (original_drives : list string)
    : option string :=
  let current_drives := get_mounted_drives GetLogicalDrives in
  let new_drives := filter (not_in original_drives) current_drives in
  match new_drives with
  | d :: _ => Some d
  | [] => None
  end.

(* ================================================================== *)
(** * [class RTABuilderApp]: the build worker (rta_builder_app.py) *)

Module RTABuilderApp.
Local Open Scope string_scope.

(** The names bound at module level by the import block of
    rta_builder_app.py (lines 1-16).  The module never imports [time]. *)
Definition module_imports : list string :=
  ["os"; "sys"; "logging"; "threading"; "subprocess"; "shutil"; "urllib"; "tempfile";
   "tk"; "ttk"; "filedialog"; "scrolledtext"; "messagebox"; "ctypes"; "Path"; "json";
   "re"; "datetime"].

(** What the worker reads from the widgets, and the clock. *)
Record job := mkJob {
  iso_path : string;
  output_folder : string;
  tool_vars : list (string * bool);   (* tool name, ticked? *)
  hostname : string;
  enable_branding : bool;
  vhd_format : bool;
  ami_format : bool;
  timestamp : string     (* [datetime.now().strftime("%Y%m%d_%H%M%S")] *)
}.

(** The dictionary [steps] of [_build_thread]. *)
Definition steps : list (string * Z) :=
  [("extract_iso", 20%Z); ("copy_tools", 10%Z); ("customize", 10%Z);
   ("rebuild_iso", 50%Z); ("cleanup", 10%Z)].

Fixpoint lookup (key : string) (d : list (string * Z)) : option Z :=
  match d with
  | [] => None
  | (k, v) :: d' => if String.eqb k key then Some v else lookup key d'
  end.

Section Methods.

Variable w : world.
(** The names the module's global scope binds. *)
Variable globals : list string.
Variable j : job.

Definition update_progress (value : Z) : M unit := emit (EProgress value).

(** [self.log(message)], level INFO. *)
Definition log (message : string) : M unit := emit (ELogger "INFO" message).

(** [steps[key]] *)
Definition step_weight (key : string) : M Z :=
  match lookup key steps with
  | Some v => ret v
  | None => raise (mkExn OtherError key)
  end.

(** [time.sleep(..)]: the global name [time] is looked up first. *)
Definition time_sleep : M unit :=
  if existsb (String.eqb "time") globals then emit ESleep
  else raise (mkExn NameError "name 'time' is not defined").

Definition makedirs (path : string) : M unit :=
  attempt (EMakedirs path) (os_makedirs w path).

Definition write_file (path : string) : M unit :=
  attempt (EWriteFile path) (open_write w path).

Definition _extract_iso (iso extract_dir : string) : M (option bool) :=
  call (log "Mounting ISO image..." ;;
        for_each (seq 0 5) (fun i =>
          stop <- poll w ;;
          if stop then return_ false
          else
            log ("Extracting files (step " ++ str_of_nat (i + 1) ++ "/5)...") ;;
            time_sleep) ;;
        makedirs (os_path_join w [extract_dir; "live"]) ;;
        makedirs (os_path_join w [extract_dir; "boot"]) ;;
        makedirs (os_path_join w [extract_dir; "EFI"]) ;;
        return_ true).

Definition _rebuild_iso (source_dir output_iso : string) : M (option bool) :=
  call (log "Preparing to rebuild ISO..." ;;
        let total_steps := 10%nat in
        for_each (seq 0 total_steps) (fun i =>
          stop <- poll w ;;
          if stop then return_ false
          else
            log ("Rebuilding ISO (step " ++ str_of_nat (i + 1) ++ "/"
                 ++ str_of_nat total_steps ++ ")...") ;;
            update_progress (50 + Z.of_nat i * 5)%Z ;;
            time_sleep) ;;
        write_file output_iso ;;
        return_ true).

(** [if self.stop_build: raise Exception("Build process stopped by user")] *)
Definition check_stop : M unit :=
  stop <- poll w ;;
  if stop then raise (mkExn Exception "Build process stopped by user") else ret tt.

(** The [try] block of [_build_thread] up to the last [update_progress];
    its value is the local [output_iso]. *)
Definition build_stages : M string :=
  log "Starting build process..." ;;
  update_progress 0%Z ;;
  let output_name := "kali-rta-custom_" ++ timestamp j in
  let workspace := os_path_join w [output_folder j; "build_" ++ timestamp j] in
  makedirs workspace ;;
  log ("Created workspace at " ++ workspace) ;;
  let completed_weight := 0%Z in
  (* 1. Extract ISO *)
  let extract_dir := os_path_join w [workspace; "iso_contents"] in
  makedirs extract_dir ;;
  log "Extracting ISO contents..." ;;
  extracted <- _extract_iso (iso_path j) extract_dir ;;
  (if negb (truth extracted) then raise (mkExn Exception "Failed to extract ISO") else ret tt) ;;
  check_stop ;;
  weight <- step_weight "extract_iso" ;;
  let completed_weight := (completed_weight + weight)%Z in
  update_progress completed_weight ;;
  (* 2. Copy selected tools *)
  let tools_dir := os_path_join w [extract_dir; "tools"] in
  makedirs tools_dir ;;
  log "Copying selected tools..." ;;
  let selected_tools := map fst (filter snd (tool_vars j)) in
  for_each selected_tools (fun tool =>
    log ("Adding tool: " ++ tool) ;;
    let tool_dir := os_path_join w [tools_dir; replace_char " " "_" (lower tool)] in
    makedirs tool_dir ;;
    write_file (os_path_join w [tool_dir; "info.txt"])) ;;
  check_stop ;;
  weight <- step_weight "copy_tools" ;;
  let completed_weight := (completed_weight + weight)%Z in
  update_progress completed_weight ;;
  (* 3. Customize ISO *)
  log "Customizing ISO settings..." ;;
  let hostname_file := os_path_join w [extract_dir; "etc"; "hostname"] in
  makedirs (os_path_dirname w hostname_file) ;;
  write_file hostname_file ;;
  (if enable_branding j then log "Adding Richey May branding..." else ret tt) ;;
  check_stop ;;
  weight <- step_weight "customize" ;;
  let completed_weight := (completed_weight + weight)%Z in
  update_progress completed_weight ;;
  (* 4. Rebuild ISO *)
  let output_iso := os_path_join w [output_folder j; output_name ++ ".iso"] in
  log ("Rebuilding ISO as " ++ output_iso ++ "...") ;;
  rebuilt <- _rebuild_iso extract_dir output_iso ;;
  (if negb (truth rebuilt) then raise (mkExn Exception "Failed to rebuild ISO") else ret tt) ;;
  weight <- step_weight "rebuild_iso" ;;
  let completed_weight := (completed_weight + weight)%Z in
  update_progress completed_weight ;;
  (* 5. Additional formats *)
  (if vhd_format j then log "Creating VHD format (not implemented in this version)" else ret tt) ;;
  (if ami_format j then log "Creating AMI format (not implemented in this version)" else ret tt) ;;
  (* 6. Cleanup *)
  log "Cleaning up temporary files..." ;;
  weight <- step_weight "cleanup" ;;
  let completed_weight := (completed_weight + weight)%Z in
  update_progress 100%Z ;;
  ret output_iso.

(** The [try] block of [_build_thread]: the stages, then the report of
    success. *)
Definition _build_thread_body : M unit :=
  output_iso <- build_stages ;;
  log ("Build completed successfully! Output saved to " ++ output_iso) ;;
  emit (EShowInfo "Build Complete"
          ("Custom Kali ISO created successfully at:" ++ String (ascii_of_nat 10) output_iso)).

(** The [except Exception as e] block: every exception of the [try] block,
    a stop raised by [check_stop] included, ends here. *)
Definition build_failed (e : exn) : M unit :=
  emit (ELogger "ERROR" ("Build failed: " ++ exn_msg e)) ;;
  emit (EShowError "Build Failed" ("Failed to build custom ISO: " ++ exn_msg e)).

Definition _build_thread : M (option bool) :=
  call (try_finally
          (try_except any_exception _build_thread_body build_failed)
          (emit (EButton "build_button" "normal") ;;
           emit (EButton "stop_button" "disabled"))).


(** [validate_inputs]; [askyesno] is the user's answer to the question
    asked when no tool is ticked. *)
Definition validate_inputs (askyesno : bool) : M (option bool) :=
  call (present <- exists_ (iso_path j) ;;
        (if negb (truthy (iso_path j)) || negb present
         then emit (EShowError "Error" "Please select a valid Kali ISO file") ;;
              return_ false
         else ret tt) ;;
        try_except any_exception
          (makedirs (output_folder j))
          (fun _ => emit (EShowError "Error" "Cannot create output folder") ;;
                    return_ false) ;;
        (if negb (existsb snd (tool_vars j))
         then if negb askyesno then return_ false else ret tt
         else ret tt) ;;
        return_ true).

End Methods.

(** The values handed to [update_progress] during a run, in order. *)
Definition progress_reports (evs : list event) : list Z :=
  flat_map (fun e => match e with EProgress v => [v] | _ => [] end) evs.

(** The dialogs a run shows. *)
Definition error_dialogs (evs : list event) : list (string * string) :=
  flat_map (fun e => match e with EShowError t m => [(t, m)] | _ => [] end) evs.

Definition info_dialogs (evs : list event) : list (string * string) :=
  flat_map (fun e => match e with EShowInfo t m => [(t, m)] | _ => [] end) evs.

End RTABuilderApp.

(* ================================================================== *)
(** * rta_builder_launcher.py *)

Module rta_builder_launcher.
Local Open Scope string_scope.

Definition REQUIRED_PACKAGES : list string :=
  ["tkinter"; "win32api"; "win32con"; "win32file"; "winioctlcon"; "pywin32"].

(** How a probe of the import system ends. *)
Inductive probe :=
| Loaded                     (* a module, or a spec that is not [None] *)
| NoSpec                     (* [find_spec] returned [None] *)
| ImportError                (* [ImportError] or a subclass was raised *)
| OtherFailure (e : exn).    (* anything else was raised *)

Section Probes.

Variable import_module : string -> probe.   (* [importlib.import_module] *)
Variable find_spec : string -> probe.       (* [importlib.util.find_spec] *)

(** The loop of [check_dependencies], from [missing_packages] on. *)
Fixpoint check_packages (packages missing_packages : list string) : exn + list string :=
  match packages with
  | [] => inr missing_packages
  | package :: rest =>
      if package =? "tkinter" then
        match import_module package with
        | ImportError => check_packages rest (missing_packages ++ [package])
        | OtherFailure e => inl e
        | _ => check_packages rest missing_packages
        end
      else
        match find_spec package with
        | NoSpec | ImportError => check_packages rest (missing_packages ++ [package])
        | OtherFailure e => inl e
        | Loaded => check_packages rest missing_packages
        end
  end.

Definition check_dependencies : exn + list string :=
  check_packages REQUIRED_PACKAGES [].

End Probes.
End rta_builder_launcher.

(* ================================================================== *)
(** * Vocabulary of the statements *)

(** ** Reading a trace *)

(** The messages sent with a progress value, in order. *)
Definition progress_logs (evs : list event) : list (string * Z) :=
  flat_map (fun e => match e with ELog m (Some p) => [(m, p)] | _ => [] end) evs.

(** The copies attempted, in order. *)
Definition copies (evs : list event) : list (string * string) :=
  flat_map (fun e => match e with ECopy2 a b => [(a, b)] | _ => [] end) evs.

Definition copy_succeeds (w : world) (e : event) : bool :=
  match e with
  | ECopy2 a b => match shutil_copy2 w a b with None => true | Some _ => false end
  | _ => false
  end.

(** How many of the attempted copies succeeded. *)
Definition successes (w : world) (evs : list event) : nat :=
  length (filter (copy_succeeds w) evs).

Definition is_unmount (iso_path : string) (e : event) : bool :=
  match e with
  | ERun c => String.eqb c (ISOBuilder.unmount_cmd iso_path)
  | _ => false
  end.

(** How many times the unmount command was issued. *)
Definition unmounts (iso_path : string) (evs : list event) : nat :=
  length (filter (is_unmount iso_path) evs).

(** A run that comes after the events [evs]. *)
Definition prefix {A} (evs : list event) (r : run A) : run A :=
  mkRun (res r) (evs ++ out r) (fin r).

(** ** Classes of events *)

(** Anything but a read of the stop flag that found it set. *)
Definition calm (e : event) : Prop := e <> EPoll true.

(** What the mount-and-copy strategy does before its cleanup. *)
Definition before_unmount (iso_path : string) (e : event) : Prop :=
  e <> EPoll true /\ is_unmount iso_path e = false.

(** What the native masterer tier does: it logs, spawns one process from an
    argument vector, reads the stop flag, terminates and waits. *)
Definition native_only (e : event) : Prop :=
  match e with
  | ELog _ _ | EPoll _ | EPopen (Argv _) | ETerminate | EWait => True
  | _ => False
  end.

(** What the native masterer tier does once its process is spawned. *)
Definition after_spawn (e : event) : Prop :=
  match e with
  | ELog _ _ | EPoll _ | ETerminate | EWait => True
  | _ => False
  end.

(** Output monitoring: logs and reads of a clear flag. *)
Definition monitoring (e : event) : Prop :=
  match e with
  | ELog _ _ | EPoll false => True
  | _ => False
  end.

(** Copying a mounted volume: logs, reads of a clear flag, directories
    and copies. *)
Definition copying (e : event) : Prop :=
  match e with
  | ELog _ _ | EPoll false | EMakedirs _ | ECopy2 _ _ => True
  | _ => False
  end.

(** Filling the archive of the last tier. *)
Definition archiving (e : event) : Prop :=
  match e with
  | ELog _ _ | EPoll false | EZipWrite _ _ => True
  | _ => False
  end.

(** Anything but seeing the flag set and terminating a subprocess. *)
Definition unstopped (e : event) : Prop :=
  match e with
  | EPoll true | ETerminate => False
  | _ => True
  end.

Definition is_zip_event (e : event) : bool :=
  match e with
  | EZipOpen _ | EZipWrite _ _ | EZipClose => true
  | _ => false
  end.

(** What a build does before it reports its end: no dialog, no read of a
    set flag, and progress values within the bar. *)
Definition building (e : event) : Prop :=
  match e with
  | EPoll true | EShowInfo _ _ | EShowError _ _ => False
  | EProgress v => (0 <= v <= 100)%Z
  | _ => True
  end.

(** ** How a block reacts to the stop flag *)

Section Halting.

Variable Q : event -> Prop.      (* the events allowed while the flag is clear *)
Variable tail : list event.      (* what is still issued after the flag was seen set *)
Variable by_raise : bool.        (* the block stops by [raise] rather than [return False] *)

Definition stopped {A} (o : outcome A) : Prop :=
  if by_raise then exists e, o = Raised e else o = Returned (Some false).

(** A block that never sees the flag set: it issues events of [Q] only,
    contains no [return], and leaves [drive_letter] alone. *)
Definition plain {A} (m : M A) : Prop :=
  forall s,
    drive_letter (fin (m s)) = drive_letter s /\
    Forall Q (out (m s)) /\
    (forall v, res (m s) <> Returned v).

(** A block that polls the flag: either it behaves like a plain block, or
    some read finds the flag set, after which it issues [tail] and stops. *)
Definition halting {A} (m : M A) : Prop :=
  forall s,
    drive_letter (fin (m s)) = drive_letter s /\
    ((Forall Q (out (m s)) /\ forall v, res (m s) <> Returned v)
     \/ (exists pre, out (m s) = pre ++ EPoll true :: tail /\ Forall Q pre
                     /\ stopped (res (m s)))).

End Halting.

(** The stop flag is never set. *)
Definition never_stopped (w : world) : Prop := forall n, stop_flag w n = false.

(** ** The mount-and-copy strategy *)

(** The mount command answers with a drive letter [d]. *)
Definition mount_answers (w : world) (iso_path d : string) : Prop :=
  exists c, subprocess_run w (ISOBuilder.mount_cmd iso_path) = inr c /\
            run_returncode c = 0%Z /\ d = strip (run_stdout c) /\ truthy d = true.

(** The strategy gets as far as mounting, and the mount succeeds. *)
Definition mounts (w : world) (iso_path extract_dir d : string) : Prop :=
  os_makedirs w extract_dir = None /\ mount_answers w iso_path d.

(** What the [finally] block issues once a drive letter is held. *)
Definition unmount_events (w : world) (iso_path d : string) : list event :=
  [ ELog ("Unmounting ISO from drive " ++ d ++ ":")%string None;
    ERun (ISOBuilder.unmount_cmd iso_path);
    ELog (match subprocess_run w (ISOBuilder.unmount_cmd iso_path) with
          | inl e => "Error unmounting ISO: " ++ exn_msg e
          | inr c =>
              if (run_returncode c =? 0)%Z then "ISO unmounted successfully"
              else "Error unmounting ISO: Command '" ++ ISOBuilder.unmount_cmd iso_path
                   ++ "' returned non-zero exit status " ++ str_of_Z (run_returncode c) ++ "."
          end)%string None ].



(** The message logged for a copy that failed. *)
Definition copy_error (src : string) (e : exn) : event :=
  ELog ("Error copying " ++ src ++ ": " ++ exn_msg e)%string None.


(** A block that never raises. *)
Definition never_raises {A} (m : M A) : Prop := forall s e, res (m s) <> Raised e.


(** What follows the copy loop, by the way the loop ended. *)
Definition after_copy (o : outcome nat) : list event :=
  match o with
  | Normal _ => [ELog "ISO extraction completed successfully" None]
  | Returned _ => []
  | Raised e => [ELog ("Error extracting with Windows mount: " ++ exn_msg e)%string (Some 0%Z)]
  end.

(** No directory of the mounted volume fails to be recreated. *)
Definition directories_ok (w : world) : Prop :=
  (forall p, os_makedirs w p = None) /\
  (forall a b, exists r, os_path_relpath w a b = inr r).


(** ** The creation cascade *)

Definition oscdimg_paths (w : world) : list string :=
  let kit := ["Windows Kits"; "10"; "Assessment and Deployment Kit"; "Deployment Tools";
              "amd64"; "Oscdimg"; "oscdimg.exe"] in
  [ os_path_join w (ISOBuilder.env_get w "ProgramFiles" "C:\Program Files" :: kit);
    os_path_join w (ISOBuilder.env_get w "ProgramFiles(x86)" "C:\Program Files (x86)" :: kit);
    os_path_join w [module_dir w; "tools"; "oscdimg.exe"] ].

Definition seven_zip_paths (w : world) : list string :=
  [ os_path_join w [ISOBuilder.env_get w "ProgramFiles" "C:\Program Files"; "7-Zip"; "7z.exe"];
    os_path_join w [ISOBuilder.env_get w "ProgramFiles(x86)" "C:\Program Files (x86)";
                    "7-Zip"; "7z.exe"] ].

(** The masterer is installed at one of the places looked at, and these
    places have names. *)
Definition masterer_present (w : world) (s : st) : Prop :=
  (exists p, In p (oscdimg_paths w) /\ fs s p = true) /\
  (forall p, In p (oscdimg_paths w) -> truthy p = true).

(** The boot arguments of the native masterer, spelled out. *)
Definition expected_boot_args (w : world) (s : st) (source_dir : string) : list string :=
  let etfsboot := os_path_join w [source_dir; "boot"; "etfsboot.com"] in
  let efisys := os_path_join w [source_dir; "boot"; "efisys.bin"] in
  if fs s etfsboot then ["-b"; etfsboot]
  else if fs s efisys then ["-b"; efisys; "-e"; "-u1"]
  else [].

(** Neither the archiver nor the masterer is installed. *)
Definition no_tools (w : world) (s : st) : Prop :=
  (forall p, In p (seven_zip_paths w) -> fs s p = false) /\
  (forall p, In p (oscdimg_paths w) -> fs s p = false).

(** The archive of the last tier can be written and renamed. *)
Definition archive_ok (w : world) : Prop :=
  (forall p, zip_open w p = None) /\
  (forall a b, zip_write w a b = None) /\
  (forall a b, exists r, os_path_relpath w a b = inr r) /\
  (forall p, os_unlink w p = None) /\
  (forall a b, os_rename w a b = None).

(** The scripted tier runs to a zero exit code. *)
Definition scripted_succeeds (w : world) (source_dir output_iso volume_label : string)
    (s : st) : Prop :=
  exists probe p,
    subprocess_run w ISOBuilder.check_cmd = inr probe /\
    contains "New-IsoFile" (run_stdout probe) = false /\
    let script_path := os_path_join w [gettempdir w; "New-IsoFile.ps1"] in
    open_write w script_path = None /\
    (exists c, subprocess_run w (ISOBuilder.import_cmd script_path) = inr c
               /\ run_returncode c = 0%Z) /\
    subprocess_Popen w
      (Line (ISOBuilder.create_cmd script_path source_dir output_iso volume_label
               (ISOBuilder.powershell_boot_args w (fs s) source_dir
                  ["etfsboot.com"; "efisys.bin"]))) = inr p /\
    stdout_error p = None /\ returncode p = 0%Z.

(* ================================================================== *)
(** * Hosts used in the examples *)

Module Hosts.
Local Open Scope string_scope.

(** A join that puts one backslash between parts. *)
Fixpoint ends_with_sep (s : string) : bool :=
  match s with
  | EmptyString => false
  | String c EmptyString => Ascii.eqb c "\"
  | String _ s' => ends_with_sep s'
  end.

Fixpoint join (parts : list string) : string :=
  match parts with
  | [] => EmptyString
  | [p] => p
  | p :: rest => if ends_with_sep p then p ++ join rest else p ++ "\" ++ join rest
  end.

Definition newline : string := String (ascii_of_nat 10) EmptyString.

(** A volume with [n] files in its root directory. *)
Definition file_names (n : nat) : list string :=
  map (fun i => "f" ++ str_of_nat i) (seq 1 n).

(** A host on which every operation succeeds: the image mounts as [E:] and
    holds three files, subprocesses print a progress line and exit with 0,
    no optional tool is installed, and nobody asks to stop. *)
Definition quiet_host : world := {|
  environ := fun _ => None;
  os_path_join := join;
  os_path_dirname := fun _ => "D:\out";
  os_path_relpath := fun path start =>
    inr (if String.eqb path start then "." else "boot");
  module_dir := "C:\app";
  gettempdir := "C:\Temp";
  os_makedirs := fun _ => None;
  os_walk := fun root => [(root, ["boot"], ["a.txt"; "b.txt"]); (root ++ "boot", [], ["c.bin"])];
  shutil_copy2 := fun _ _ => None;
  subprocess_Popen := fun _ => inr (mkProcess ["10% complete" ++ newline] None 0 "");
  subprocess_run := fun _ => inr (mkCompleted 0 ("E" ++ newline));
  open_write := fun _ => None;
  zip_open := fun _ => None;
  zip_write := fun _ _ => None;
  os_unlink := fun _ => None;
  os_rename := fun _ _ => None;
  urlretrieve := fun _ _ =>
    mkTransfer None [(0, 8192, 16384); (1, 8192, 16384); (2, 8192, 16384)]%Z None;
  format_1f := fun _ => "?";
  stop_flag := fun _ => false
|}.

Definition with_Popen (w : world) (f : cmdline -> exn + process) : world :=
  mkWorld (environ w) (os_path_join w) (os_path_dirname w) (os_path_relpath w) (module_dir w)
    (gettempdir w) (os_makedirs w) (os_walk w) (shutil_copy2 w) f (subprocess_run w)
    (open_write w) (zip_open w) (zip_write w) (os_unlink w) (os_rename w) (urlretrieve w)
    (format_1f w) (stop_flag w).

Definition with_stop (w : world) (f : nat -> bool) : world :=
  mkWorld (environ w) (os_path_join w) (os_path_dirname w) (os_path_relpath w) (module_dir w)
    (gettempdir w) (os_makedirs w) (os_walk w) (shutil_copy2 w) (subprocess_Popen w)
    (subprocess_run w) (open_write w) (zip_open w) (zip_write w) (os_unlink w) (os_rename w)
    (urlretrieve w) (format_1f w) f.

Definition with_walk (w : world)
    (f : string -> list (string * list string * list string)) : world :=
  mkWorld (environ w) (os_path_join w) (os_path_dirname w) (os_path_relpath w) (module_dir w)
    (gettempdir w) (os_makedirs w) f (shutil_copy2 w) (subprocess_Popen w)
    (subprocess_run w) (open_write w) (zip_open w) (zip_write w) (os_unlink w) (os_rename w)
    (urlretrieve w) (format_1f w) (stop_flag w).

Definition with_copy2 (w : world) (f : string -> string -> option exn) : world :=
  mkWorld (environ w) (os_path_join w) (os_path_dirname w) (os_path_relpath w) (module_dir w)
    (gettempdir w) (os_makedirs w) (os_walk w) f (subprocess_Popen w)
    (subprocess_run w) (open_write w) (zip_open w) (zip_write w) (os_unlink w) (os_rename w)
    (urlretrieve w) (format_1f w) (stop_flag w).



(** Nothing exists yet, the flag was never read. *)
Definition fresh : st := mkSt 0 (fun _ => false) None.

(** The same with the masterer of the Windows ADK installed. *)
Definition oscdimg_exe : string :=
  "C:\Program Files\Windows Kits\10\Assessment and Deployment Kit\Deployment Tools\amd64\Oscdimg\oscdimg.exe".

Definition with_oscdimg : st := mkSt 0 (String.eqb oscdimg_exe) None.

(** The same with 7-Zip installed. *)
Definition seven_zip_exe : string := "C:\Program Files\7-Zip\7z.exe".

Definition with_7zip : st := mkSt 0 (String.eqb seven_zip_exe) None.

(** The masterer is killed: exit code 137. *)
Definition killed_masterer : world :=
  with_Popen quiet_host (fun _ => inr (mkProcess [] None 137 "Killed")).





(** The transfer is cancelled inside the report hook. *)
Definition cancelled_transfer : world := with_stop quiet_host (fun n => (1 <=? n)%nat).

(** A volume of 250 files of which the copy of [f7] fails. *)
Definition volume_250 : world :=
  with_copy2 (with_walk quiet_host (fun root => [(root, [], file_names 250)]))
    (fun src _ => if String.eqb src "E:\f7" then Some (mkExn OSError "read error") else None).

Definition job0 : RTABuilderApp.job :=
  RTABuilderApp.mkJob "kali.iso" "D:\out" [("Nmap", true); ("Burp Suite", false)]
    "rta" true false false "20250101_000000".

End Hosts.

(** ** The build worker *)

(** A method body that polls the flag and ends by [return True]: it
    returns [True] or raises without having seen the flag set, or it
    returns [False] right after the read that finds the flag set. *)
Definition ends_true (Q : event -> Prop) (m : M unit) : Prop :=
  forall s,
    drive_letter (fin (m s)) = drive_letter s /\
    ((Forall Q (out (m s))
      /\ (res (m s) = Returned (Some true) \/ exists e, res (m s) = Raised e))
     \/ (exists pre, out (m s) = pre ++ [EPoll true] /\ Forall Q pre
                     /\ res (m s) = Returned (Some false))).

(** A block of the worker that polls the flag: it never returns; either it
    issues events of [Q] only, or some read finds the flag set and the block
    raises at once, with an exception of [P]. *)
Definition stops_by_raise (Q : event -> Prop) (P : exn -> Prop) {A} (m : M A) : Prop :=
  forall s,
    drive_letter (fin (m s)) = drive_letter s /\
    ((Forall Q (out (m s)) /\ forall v, res (m s) <> Returned v)
     \/ (exists pre e, out (m s) = pre ++ [EPoll true] /\ Forall Q pre
                       /\ res (m s) = Raised e /\ P e)).

(** What the worker issues after its stages: the report of the outcome,
    then the two buttons are reset. *)
Definition build_report (o : outcome string) : list event :=
  match o with
  | Normal output_iso =>
      [ELogger "INFO" ("Build completed successfully! Output saved to " ++ output_iso)%string;
       EShowInfo "Build Complete"
         ("Custom Kali ISO created successfully at:"
          ++ String (ascii_of_nat 10) output_iso)%string]
  | Raised e =>
      [ELogger "ERROR" ("Build failed: " ++ exn_msg e)%string;
       EShowError "Build Failed" ("Failed to build custom ISO: " ++ exn_msg e)%string]
  | Returned _ => []
  end
  ++ [EButton "build_button" "normal"; EButton "stop_button" "disabled"].

(** The three exceptions with which a build that saw the flag set ends. *)
Definition stop_messages : list string :=
  ["Failed to extract ISO"; "Build process stopped by user"; "Failed to rebuild ISO"]%string.

Definition stop_exception (e : exn) : Prop := In (exn_msg e) stop_messages.

(** No event of an archive. *)
Definition not_zip (e : event) : Prop := is_zip_event e = false.

(** ** Drive letters *)

(** The bit of the drive mask that stands for a letter (65 is [A]). *)
Definition drive_bit (mask : Z) (letter : nat) : bool :=
  Z.testbit mask (Z.of_nat (letter - 65)).

(** The codes of the letters [A] to [Z]. *)
Definition letters : list nat := seq 65 26.

(** ** The launcher's dependency check *)

(** The probe made for a package: [tkinter] is imported, the others are
    looked up. *)
Definition probe_of (import_module find_spec : string -> rta_builder_launcher.probe)
    (package : string) : rta_builder_launcher.probe :=
  if (package =? "tkinter")%string then import_module package else find_spec package.

(** A package counts as missing when its import raises [ImportError], or
    when its lookup raises [ImportError] or finds no spec. *)
Definition is_missing (import_module find_spec : string -> rta_builder_launcher.probe)
    (package : string) : bool :=
  match probe_of import_module find_spec package with
  | rta_builder_launcher.ImportError => true
  | rta_builder_launcher.NoSpec => negb (package =? "tkinter")%string
  | _ => false
  end.

(** The first probe that raises something else. *)
Fixpoint first_failure (import_module find_spec : string -> rta_builder_launcher.probe)
    (packages : list string) : option exn :=
  match packages with
  | [] => None
  | package :: rest =>
      match probe_of import_module find_spec package with
      | rta_builder_launcher.OtherFailure e => Some e
      | _ => first_failure import_module find_spec rest
      end
  end.

(** ** The placeholder conversions *)

(** What a conversion issues for its first [n] steps. *)
Definition conversion_steps (kind : string) (n : nat) : list event :=
  flat_map (fun i =>
    [EPoll false;
     ELog (kind ++ " conversion step " ++ str_of_nat (i + 1) ++ "/5...")%string
          (Some (Z.of_nat i * 20)%Z);
     ESleep]) (seq 0 n).

(** The run of a conversion to [path]: [n] steps; then the flag is seen
    set, or after the fifth step the file is written. *)
Definition conversion_run (w : world) (kind iso_path path : string) (n : nat)
    (r : run (option bool)) : Prop :=
  let start := ELog ("Converting " ++ iso_path ++ " to " ++ kind ++ " format at " ++ path)%string
                 None in
  ((n < 5)%nat /\ res r = Normal (Some false)
   /\ out r = (start :: conversion_steps kind n ++ [EPoll true])%list)
  \/ (n = 5%nat /\
      match open_write w path with
      | None =>
          res r = Normal (Some true)
          /\ out r = (start :: conversion_steps kind 5
                        ++ [EWriteFile path;
                            ELog (kind ++ " conversion completed to " ++ path)%string None])%list
      | Some e =>
          res r = Raised e
          /\ out r = (start :: conversion_steps kind 5 ++ [EWriteFile path])%list
      end).

(** ** What a method may do to the host *)

(** Every event a block issues, from whatever state, is one of [Q]. *)
Definition emits (Q : event -> Prop) {A} (m : M A) : Prop :=
  forall s, Forall Q (out (m s)).

(** What extracting [iso_path] may do: log, read the flag, make
    directories, spawn from an argument vector, terminate, wait, run the
    mount or the unmount command of the image, copy. *)
Definition extraction_event (iso_path : string) (e : event) : Prop :=
  match e with
  | ELog _ _ | EPoll _ | EMakedirs _ | EPopen (Argv _) | ETerminate | EWait | ECopy2 _ _ => True
  | ERun cmd => cmd = ISOBuilder.mount_cmd iso_path \/ cmd = ISOBuilder.unmount_cmd iso_path
  | _ => False
  end.

(** What the archiver strategy may do. *)
Definition archiver_event (e : event) : Prop :=
  match e with
  | ELog _ _ | EPoll _ | EMakedirs _ | EPopen (Argv _) | ETerminate | EWait => True
  | _ => False
  end.

(** What creating [output_iso] may do: log, read the flag, spawn, terminate,
    wait, run commands, write the helper script, fill and close the archive
    beside the output, remove the output and rename the archive to it. *)
Definition creation_event (w : world) (output_iso : string) (e : event) : Prop :=
  match e with
  | ELog _ _ | EPoll _ | EPopen _ | ETerminate | EWait | ERun _
  | EZipWrite _ _ | EZipClose => True
  | EWriteFile p => p = os_path_join w [gettempdir w; "New-IsoFile.ps1"%string]
  | EZipOpen p => p = (output_iso ++ ".zip")%string
  | EUnlink p => p = output_iso
  | ERename a b => a = (output_iso ++ ".zip")%string /\ b = output_iso
  | _ => False
  end.

(** What downloading [url] to [destination] may do. *)
Definition download_event (w : world) (url destination : string) (e : event) : Prop :=
  match e with
  | ELog _ _ | EPoll _ | ECallback _ => True
  | EMakedirs p => p = os_path_dirname w destination
  | EUrlRetrieve u d => u = url /\ d = destination
  | EUnlink p => p = destination
  | _ => False
  end.

(** ** Looking for a tool *)

(** [p] is the first of the [candidates] that exists. *)
Definition first_existing (present : string -> bool) (candidates : list string)
    (p : string) : Prop :=
  exists before after,
    candidates = (before ++ p :: after)%list /\ present p = true
    /\ forall q, In q before -> present q = false.

(** A host like [w] whose [subprocess.run] answers [f]. *)
Definition with_run (w : world) (f : string -> exn + completed) : world :=
  mkWorld (environ w) (os_path_join w) (os_path_dirname w) (os_path_relpath w) (module_dir w)
    (gettempdir w) (os_makedirs w) (os_walk w) (shutil_copy2 w) (subprocess_Popen w) f
    (open_write w) (zip_open w) (zip_write w) (os_unlink w) (os_rename w) (urlretrieve w)
    (format_1f w) (stop_flag w).

(** The mount command exits with 1. *)
Definition unmountable_host : world :=
  with_run Hosts.quiet_host (fun _ => inr (mkCompleted 1 ""%string)).

(** The probe of the scripted tier lists [New-IsoFile]. *)
Definition scripted_host : world :=
  with_run Hosts.quiet_host (fun _ => inr (mkCompleted 0 "Function New-IsoFile"%string)).

(** What the raw-archive tier may do. *)
Definition archive_tier_event (e : event) : Prop :=
  match e with
  | ELog _ _ | EPoll _ | EZipOpen _ | EZipWrite _ _ | EZipClose | EUnlink _ | ERename _ _ => True
  | _ => False
  end.

Definition is_spawn (e : event) : bool :=
  match e with EPopen _ => true | _ => false end.

(** ** Booleans *)



(** ** The archive of the last tier *)

Definition is_zip_close (e : event) : bool :=
  match e with EZipClose => true | _ => false end.

(** How often an archive was closed. *)
Definition zip_closes (evs : list event) : nat := length (filter is_zip_close evs).

(** Anything but closing an archive. *)
Definition not_zip_close (e : event) : Prop := is_zip_close e = false.

(** ** Downloads *)

(** A block that leaves the file system as it found it. *)
Definition keeps_fs {A} (m : M A) : Prop := forall s, fs (fin (m s)) = fs s.

(** The exception with which the report hook cancels a download. *)
Definition cancelled (e : exn) : Prop := e = mkExn Exception "Download canceled by user".

(** The transfer to [destination] meets no obstacle. *)
Definition transfer_ok (w : world) (url destination : string) : Prop :=
  os_makedirs w (os_path_dirname w destination) = None /\
  open_error (urlretrieve w url destination) = None /\
  transfer_error (urlretrieve w url destination) = None.

(* ================================================================== *)
(** * Running blocks: equations and the stop discipline *)

Local Open Scope py_scope.

Lemma res_bind A B (m : M A) (k : A -> M B) s :
  res (bind m k s) =
  match res (m s) with
  | Normal a => res (k a (fin (m s)))
  | Returned v => Returned v
  | Raised e => Raised e
  end.
Proof. unfold bind. destruct (res (m s)); reflexivity. Qed.

Lemma out_bind A B (m : M A) (k : A -> M B) s :
  out (bind m k s) =
  match res (m s) with
  | Normal a => out (m s) ++ out (k a (fin (m s)))
  | _ => out (m s)
  end.
Proof. unfold bind. destruct (res (m s)); reflexivity. Qed.

Lemma fin_bind A B (m : M A) (k : A -> M B) s :
  fin (bind m k s) =
  match res (m s) with
  | Normal a => fin (k a (fin (m s)))
  | _ => fin (m s)
  end.
Proof. unfold bind. destruct (res (m s)); reflexivity. Qed.

Lemma res_try_except A c (m : M A) h s :
  res (try_except c m h s) =
  match res (m s) with
  | Raised e => if c e then res (h e (fin (m s))) else Raised e
  | o => o
  end.
Proof.
  unfold try_except. destruct (res (m s)) as [a|v|e] eqn:E; try exact E.
  destruct (c e); [reflexivity | exact E].
Qed.

Lemma out_try_except A c (m : M A) h s :
  out (try_except c m h s) =
  match res (m s) with
  | Raised e => if c e then out (m s) ++ out (h e (fin (m s))) else out (m s)
  | _ => out (m s)
  end.
Proof.
  unfold try_except. destruct (res (m s)) as [a|v|e] eqn:E; try reflexivity.
  destruct (c e); reflexivity.
Qed.

Lemma fin_try_except A c (m : M A) h s :
  fin (try_except c m h s) =
  match res (m s) with
  | Raised e => if c e then fin (h e (fin (m s))) else fin (m s)
  | _ => fin (m s)
  end.
Proof.
  unfold try_except. destruct (res (m s)) as [a|v|e] eqn:E; try reflexivity.
  destruct (c e); reflexivity.
Qed.

(** ** Stepping through a block, one statement at a time *)

Lemma prefix_nil A (r : run A) : prefix [] r = r.
Proof. destruct r. reflexivity. Qed.

Lemma prefix_prefix A xs ys (r : run A) : prefix xs (prefix ys r) = prefix (xs ++ ys) r.
Proof. unfold prefix. simpl. rewrite app_assoc. reflexivity. Qed.

Lemma bind_run A B (m : M A) (k : A -> M B) s :
  bind m k s =
  match res (m s) with
  | Normal a => prefix (out (m s)) (k a (fin (m s)))
  | Returned v => mkRun (Returned v) (out (m s)) (fin (m s))
  | Raised e => mkRun (Raised e) (out (m s)) (fin (m s))
  end.
Proof. unfold bind, prefix. destruct (res (m s)); reflexivity. Qed.

Lemma bind_ret A B (a : A) (k : A -> M B) s : bind (ret a) k s = k a s.
Proof. rewrite bind_run. simpl. apply prefix_nil. Qed.

Lemma bind_emit B e (k : unit -> M B) s : bind (emit e) k s = prefix [e] (k tt s).
Proof. rewrite bind_run. reflexivity. Qed.

Lemma bind_raise A B e (k : A -> M B) s : bind (raise e) k s = mkRun (Raised e) [] s.
Proof. rewrite bind_run. reflexivity. Qed.

Lemma bind_return A B v (k : A -> M B) s : bind (return_value v) k s = mkRun (Returned v) [] s.
Proof. rewrite bind_run. reflexivity. Qed.

Lemma bind_return_ A B b (k : A -> M B) s : bind (return_ b) k s = mkRun (Returned (Some b)) [] s.
Proof. rewrite bind_run. reflexivity. Qed.

Lemma bind_attempt_ok B e (k : unit -> M B) s : bind (attempt e None) k s = prefix [e] (k tt s).
Proof. rewrite bind_run. reflexivity. Qed.

Lemma bind_attempt_fail B e x (k : unit -> M B) s :
  bind (attempt e (Some x)) k s = mkRun (Raised x) [e] s.
Proof. rewrite bind_run. reflexivity. Qed.

Lemma bind_get B (k : st -> M B) s : bind get k s = k s s.
Proof. rewrite bind_run. simpl. apply prefix_nil. Qed.

Lemma bind_exists B p (k : bool -> M B) s : bind (exists_ p) k s = k (fs s p) s.
Proof. rewrite bind_run. simpl. apply prefix_nil. Qed.

Lemma bind_get_drive_letter B (k : option string -> M B) s :
  bind get_drive_letter k s = k (drive_letter s) s.
Proof. rewrite bind_run. simpl. apply prefix_nil. Qed.

Lemma bind_set_drive_letter B d (k : unit -> M B) s :
  bind (set_drive_letter d) k s = k tt (mkSt (polls s) (fs s) d).
Proof. rewrite bind_run. simpl. apply prefix_nil. Qed.

Lemma bind_set_path B p b (k : unit -> M B) s :
  bind (set_path p b) k s =
  k tt (mkSt (polls s) (fun q => if String.eqb q p then b else fs s q) (drive_letter s)).
Proof. rewrite bind_run. simpl. apply prefix_nil. Qed.

Lemma bind_poll B w (k : bool -> M B) s :
  bind (poll w) k s =
  prefix [EPoll (stop_flag w (polls s))]
    (k (stop_flag w (polls s)) (mkSt (S (polls s)) (fs s) (drive_letter s))).
Proof. rewrite bind_run. reflexivity. Qed.

Lemma bind_bind A B C (m : M A) (k : A -> M B) (k' : B -> M C) s :
  bind (bind m k) k' s = bind m (fun a => bind (k a) k') s.
Proof.
  unfold bind. simpl.
  destruct (res (m s)) as [a|v|e]; simpl; try reflexivity.
  destruct (res (k a (fin (m s)))) as [b|v|e]; simpl; rewrite ?app_assoc; reflexivity.
Qed.

Lemma try_except_run A c (m : M A) h s :
  try_except c m h s =
  match res (m s) with
  | Raised e => if c e then prefix (out (m s)) (h e (fin (m s))) else m s
  | _ => m s
  end.
Proof.
  unfold try_except, prefix. destruct (res (m s)) as [a|v|e]; try reflexivity.
Qed.

Lemma call_run (m : M unit) s :
  call m s =
  mkRun (match res (m s) with
         | Normal _ => Normal None
         | Returned v => Normal v
         | Raised e => Raised e
         end) (out (m s)) (fin (m s)).
Proof. reflexivity. Qed.



Lemma stopped_not_normal by_raise A (a : A) : ~ stopped by_raise (Normal a).
Proof.
  unfold stopped. destruct by_raise.
  - intros (e & He). discriminate.
  - discriminate.
Qed.

(** A block that stopped stays stopped through what follows it. *)
Lemma stopped_transfer by_raise A B (o : outcome A) (o' : outcome B) :
  stopped by_raise o ->
  match o with
  | Normal _ => True
  | Returned v => o' = Returned v
  | Raised e => o' = Raised e
  end ->
  stopped by_raise o'.
Proof.
  unfold stopped. destruct by_raise.
  - intros (e & ->) ->. eauto.
  - intros -> ->. reflexivity.
Qed.

Section HaltingLaws.

Variable Q : event -> Prop.
Variable tail : list event.
Variable by_raise : bool.

Lemma plain_ret A (a : A) : plain Q (ret a).
Proof. intro s. simpl. repeat split; auto; discriminate. Qed.

Lemma plain_raise A (e : exn) : plain Q (@raise A e).
Proof. intro s. simpl. repeat split; auto; discriminate. Qed.

Lemma plain_emit e : Q e -> plain Q (emit e).
Proof. intros H s. simpl. repeat split; auto; discriminate. Qed.

Lemma plain_get : plain Q get.
Proof. intro s. simpl. repeat split; auto; discriminate. Qed.

Lemma plain_exists p : plain Q (exists_ p).
Proof. intro s. simpl. repeat split; auto; discriminate. Qed.

Lemma plain_get_drive_letter : plain Q get_drive_letter.
Proof. intro s. simpl. repeat split; auto; discriminate. Qed.

Lemma plain_set_path p b : plain Q (set_path p b).
Proof. intro s. simpl. repeat split; auto; discriminate. Qed.

Lemma plain_bind A B (m : M A) (k : A -> M B) :
  plain Q m -> (forall a, plain Q (k a)) -> plain Q (bind m k).
Proof.
  intros Hm Hk s. destruct (Hm s) as (Hd & Ho & Hr).
  rewrite res_bind, out_bind, fin_bind.
  destruct (res (m s)) as [a|v|e] eqn:E.
  - destruct (Hk a (fin (m s))) as (Hd' & Ho' & Hr').
    repeat split; [congruence | apply Forall_app; auto | exact Hr'].
  - exfalso. exact (Hr v eq_refl).
  - repeat split; auto; discriminate.
Qed.

Lemma plain_attempt e (answer : option exn) : Q e -> plain Q (attempt e answer).
Proof.
  intro H. unfold attempt. apply plain_bind; [apply plain_emit; exact H|].
  intros _. destruct answer; [apply plain_raise | apply plain_ret].
Qed.

Lemma plain_try_except A c (m : M A) h :
  plain Q m -> (forall e, plain Q (h e)) -> plain Q (try_except c m h).
Proof.
  intros Hm Hh s. destruct (Hm s) as (Hd & Ho & Hr).
  rewrite res_try_except, out_try_except, fin_try_except.
  destruct (res (m s)) as [a|v|e] eqn:E.
  - repeat split; auto; discriminate.
  - exfalso. exact (Hr v eq_refl).
  - destruct (c e).
    + destruct (Hh e (fin (m s))) as (Hd' & Ho' & Hr').
      repeat split; [congruence | apply Forall_app; auto | exact Hr'].
    + repeat split; auto; discriminate.
Qed.

Lemma plain_for_each X (xs : list X) (body : X -> M unit) :
  (forall x, In x xs -> plain Q (body x)) -> plain Q (for_each xs body).
Proof.
  induction xs as [|x xs IH]; intro H; simpl.
  - apply plain_ret.
  - apply plain_bind; [apply H; left; reflexivity|].
    intros _. apply IH. intros y Hy. apply H. right. exact Hy.
Qed.

Lemma plain_for_fold X S (xs : list X) (body : S -> X -> M S) :
  (forall acc x, In x xs -> plain Q (body acc x)) -> forall acc, plain Q (for_fold xs acc body).
Proof.
  induction xs as [|x xs IH]; intros H acc; simpl.
  - apply plain_ret.
  - apply plain_bind; [apply H; left; reflexivity|].
    intros acc'. apply IH. intros a y Hy. apply H. right. exact Hy.
Qed.

Lemma halting_of_plain A (m : M A) : plain Q m -> halting Q tail by_raise m.
Proof. intros H s. destruct (H s) as (Hd & Ho & Hr). split; [exact Hd | left; auto]. Qed.

Lemma halting_bind A B (m : M A) (k : A -> M B) :
  halting Q tail by_raise m -> (forall a, halting Q tail by_raise (k a)) -> halting Q tail by_raise (bind m k).
Proof.
  intros Hm Hk s. destruct (Hm s) as (Hd & Hc).
  rewrite res_bind, out_bind, fin_bind.
  destruct Hc as [(Ho & Hr) | (pre & Ho & Hpre & Hst)].
  - destruct (res (m s)) as [a|v|e] eqn:E.
    + destruct (Hk a (fin (m s))) as (Hd' & Hc'). split; [congruence|].
      destruct Hc' as [(Ho' & Hr') | (pre' & Ho' & Hpre' & Hst')].
      * left. split; [apply Forall_app; auto | exact Hr'].
      * right. exists (out (m s) ++ pre'). rewrite Ho', app_assoc.
        repeat split; [apply Forall_app; auto | exact Hst'].
    + exfalso. exact (Hr v eq_refl).
    + split; [exact Hd|]. left. split; [exact Ho | discriminate].
  - assert (Hsame : match res (m s) with
                     | Normal a => fin (k a (fin (m s)))
                     | _ => fin (m s)
                     end = fin (m s)
                     /\ match res (m s) with
                        | Normal a => out (m s) ++ out (k a (fin (m s)))
                        | _ => out (m s)
                        end = out (m s)
                     /\ stopped by_raise
                          match res (m s) with
                          | Normal a => res (k a (fin (m s)))
                          | Returned v => Returned v
                          | Raised e => Raised e
                          end).
    { destruct (res (m s)) as [a|v|e] eqn:E.
      - exfalso. eapply stopped_not_normal; exact Hst.
      - repeat split. eapply stopped_transfer; [exact Hst | reflexivity].
      - repeat split. eapply stopped_transfer; [exact Hst | reflexivity]. }
    destruct Hsame as (-> & -> & Hs).
    split; [exact Hd|]. right. exists pre. auto.
Qed.

Lemma halting_for_each X (xs : list X) (body : X -> M unit) :
  (forall x, In x xs -> halting Q tail by_raise (body x)) -> halting Q tail by_raise (for_each xs body).
Proof.
  induction xs as [|x xs IH]; intro H; simpl.
  - apply halting_of_plain, plain_ret.
  - apply halting_bind; [apply H; left; reflexivity|].
    intros _. apply IH. intros y Hy. apply H. right. exact Hy.
Qed.

Lemma halting_for_fold X S (xs : list X) (body : S -> X -> M S) :
  (forall acc x, In x xs -> halting Q tail by_raise (body acc x)) ->
  forall acc, halting Q tail by_raise (for_fold xs acc body).
Proof.
  induction xs as [|x xs IH]; intros H acc; simpl.
  - apply halting_of_plain, plain_ret.
  - apply halting_bind; [apply H; left; reflexivity|].
    intros acc'. apply IH. intros a y Hy. apply H. right. exact Hy.
Qed.

(** The poll that guards a unit of work. *)
Lemma halting_poll A (w : world) (on_stop k : M A) :
  Q (EPoll false) ->
  (forall s, out (on_stop s) = tail /\ stopped by_raise (res (on_stop s))
             /\ drive_letter (fin (on_stop s)) = drive_letter s) ->
  halting Q tail by_raise k ->
  halting Q tail by_raise (stop <- poll w ;; if stop then on_stop else k).
Proof.
  intros HQ Hstop Hk s.
  rewrite res_bind, out_bind, fin_bind. simpl.
  destruct (stop_flag w (polls s)).
  - destruct (Hstop (mkSt (S (polls s)) (fs s) (drive_letter s))) as (Ho & Hr & Hd).
    split; [exact Hd|]. right. exists []. rewrite Ho. simpl. auto.
  - destruct (Hk (mkSt (S (polls s)) (fs s) (drive_letter s))) as (Hd & Hc).
    split; [exact Hd|].
    destruct Hc as [(Ho & Hr) | (pre & Ho & Hpre & Hst)].
    + left. split; [constructor; auto | exact Hr].
    + right. exists (EPoll false :: pre). rewrite Ho. repeat split; auto.
Qed.

(** While nobody asks to stop, a guarded unit of work is a plain block. *)
Lemma plain_poll A (w : world) (on_stop k : M A) :
  never_stopped w -> Q (EPoll false) -> plain Q k ->
  plain Q (stop <- poll w ;; if stop then on_stop else k).
Proof.
  intros Hn HQ Hk s.
  rewrite res_bind, out_bind, fin_bind. simpl. rewrite Hn.
  destruct (Hk (mkSt (S (polls s)) (fs s) (drive_letter s))) as (Hd & Ho & Hr).
  repeat split; [exact Hd | constructor; auto | exact Hr].
Qed.

End HaltingLaws.

(** A block that only issues events of [Q] also only issues events of any
    weaker class. *)
Lemma halting_weaken (Q Q' : event -> Prop) tail by_raise A (m : M A) :
  (forall e, Q e -> Q' e) -> halting Q tail by_raise m -> halting Q' tail by_raise m.
Proof.
  intros HQ H s. destruct (H s) as (Hd & Hc). split; [exact Hd|].
  destruct Hc as [(Ho & Hr) | (pre & Ho & Hpre & Hst)].
  - left. split; [eapply Forall_impl; eauto | exact Hr].
  - right. exists pre. repeat split; auto. eapply Forall_impl; eauto.
Qed.

Lemma plain_weaken (Q Q' : event -> Prop) A (m : M A) :
  (forall e, Q e -> Q' e) -> plain Q m -> plain Q' m.
Proof.
  intros HQ H s. destruct (H s) as (Hd & Ho & Hr).
  repeat split; auto. eapply Forall_impl; eauto.
Qed.

(** A loop whose body always runs to its end runs to its end. *)
Lemma for_fold_completes X S (xs : list X) (body : S -> X -> M S) :
  (forall acc x s, In x xs -> exists acc', res (body acc x s) = Normal acc') ->
  forall acc s, exists acc', res (for_fold xs acc body s) = Normal acc'.
Proof.
  induction xs as [|x xs IH]; intros H acc s; simpl.
  - eexists. reflexivity.
  - rewrite res_bind. destruct (H acc x s (or_introl eq_refl)) as (acc' & E). rewrite E.
    apply IH. intros a y s' Hy. apply H. right. exact Hy.
Qed.

Lemma for_each_completes X (xs : list X) (body : X -> M unit) :
  (forall x s, In x xs -> res (body x s) = Normal tt) ->
  forall s, res (for_each xs body s) = Normal tt.
Proof.
  induction xs as [|x xs IH]; intros H s; simpl.
  - reflexivity.
  - rewrite res_bind, (H x s (or_introl eq_refl)).
    apply IH. intros y s' Hy. apply H. right. exact Hy.
Qed.

Ltac step :=
  first
    [ rewrite bind_bind
    | rewrite bind_emit
    | rewrite bind_ret
    | rewrite bind_raise
    | rewrite bind_return_
    | rewrite bind_return
    | rewrite bind_attempt_ok
    | rewrite bind_attempt_fail
    | rewrite bind_get_drive_letter
    | rewrite bind_set_drive_letter
    | rewrite bind_set_path
    | rewrite bind_exists
    | rewrite bind_get
    | rewrite bind_poll
    | rewrite prefix_prefix ];
  cbv beta.

Ltac steps := repeat step.

(** Texts play no part in how a block runs: name them, so that the terms
    stepped through stay small. *)
Ltac hide_strings :=
  repeat match goal with
         | |- context [String ?c ?s] =>
             let x := fresh "text" in set (x := String c s) in *
         end.

(* ================================================================== *)
(** * The loops of [ISOBuilder] *)

Ltac plain_step :=
  match goal with
  | |- plain _ (bind _ _) => apply plain_bind; [|intro]
  | |- plain _ (ret _) => apply plain_ret
  | |- plain _ (raise _) => apply plain_raise
  | |- plain _ (emit _) => apply plain_emit
  | |- plain _ (attempt _ _) => apply plain_attempt
  | |- plain _ (try_except _ _ _) => apply plain_try_except; [|intro]
  | |- plain _ get => apply plain_get
  | |- plain _ get_drive_letter => apply plain_get_drive_letter
  | |- plain _ (exists_ _) => apply plain_exists
  | |- plain _ (set_path _ _) => apply plain_set_path
  | |- plain _ (ISOBuilder.log _ _) => unfold ISOBuilder.log
  | |- plain _ (ISOBuilder.relpath _ _ _) => unfold ISOBuilder.relpath
  | |- plain _ (if ?b then _ else _) => destruct b
  | |- plain _ (match ?x with _ => _ end) => destruct x
  end.

Ltac plain_auto := repeat plain_step; try exact I.

(** Reading the output of a subprocess: until the flag is seen set only
    logs are issued; then the process is terminated and the strategy
    returns [False]. *)
Lemma read_output_halting w is_progress what p :
  halting monitoring [ETerminate] false (ISOBuilder.read_output w is_progress what p).
Proof.
  unfold ISOBuilder.read_output. apply halting_bind.
  - apply halting_for_each. intros line _. apply halting_poll.
    + exact I.
    + intro s. repeat split.
    + apply halting_of_plain. plain_auto.
  - intros _. apply halting_of_plain. plain_auto.
Qed.

Lemma read_output_plain w is_progress what p :
  never_stopped w -> plain monitoring (ISOBuilder.read_output w is_progress what p).
Proof.
  intro Hn. unfold ISOBuilder.read_output. apply plain_bind.
  - apply plain_for_each. intros line _. apply plain_poll; [exact Hn | exact I |].
    plain_auto.
  - intros _. plain_auto.
Qed.

Lemma copy_file_halting w total root target_dir copied file :
  halting copying [] false (ISOBuilder.copy_file w total root target_dir copied file).
Proof.
  unfold ISOBuilder.copy_file. apply halting_poll.
  - exact I.
  - intro s. repeat split.
  - apply halting_of_plain. plain_auto.
Qed.

Lemma copy_dir_halting w total source_path extract_dir copied entry :
  halting copying [] false (ISOBuilder.copy_dir w total source_path extract_dir copied entry).
Proof.
  unfold ISOBuilder.copy_dir. apply halting_poll.
  - exact I.
  - intro s. repeat split.
  - apply halting_bind; [apply halting_of_plain; plain_auto|].
    intro rel. apply halting_bind; [apply halting_of_plain; plain_auto|].
    intros _. apply halting_for_fold. intros acc x _. apply copy_file_halting.
Qed.

Lemma archive_file_halting w count source_dir root processed file :
  halting archiving [] false (ISOBuilder.archive_file w count source_dir root processed file).
Proof.
  unfold ISOBuilder.archive_file. apply halting_poll.
  - exact I.
  - intro s. repeat split.
  - apply halting_of_plain. plain_auto.
Qed.

Lemma archive_tree_halting w source_dir :
  halting archiving [] false (ISOBuilder.archive_tree w source_dir).
Proof.
  unfold ISOBuilder.archive_tree. apply halting_for_fold. intros acc entry _.
  apply halting_for_fold. intros acc' file _. apply archive_file_halting.
Qed.

(* ================================================================== *)
(** * The extraction strategies *)

Ltac finish :=
  cbn [prefix res out fin app return_ return_value emit ret raise negb
       is_subprocess_error exn_cls exn_msg any_exception];
  rewrite ?app_nil_r; rewrite <- ?app_assoc; cbn [app].

(** Lists built with [::] and [++] are equal once brought to one shape. *)
Ltac list_eq := rewrite <- ?app_assoc; cbn [app]; rewrite <- ?app_assoc; reflexivity.

(** Every event of a list built from known pieces is in a class. *)
Ltac all_in solve_one :=
  repeat first
    [ apply Forall_nil
    | assumption
    | apply Forall_cons; [solve [solve_one] |]
    | apply Forall_app; split ].

(** Give the run of the output loop a name and recall what it guarantees. *)
Ltac name_read_output H lem :=
  match goal with
  | |- context [ISOBuilder.read_output ?w ?f ?m ?p ?s] =>
      pose proof (lem w f m p s) as H;
      destruct (ISOBuilder.read_output w f m p s) as [lres lout lfin];
      cbn [res out fin] in H
  end.

(** A method of the shape
    [try: body  except Exception as e: self.log(msg(e), 0); return False]. *)
Lemma guarded_call (body : M unit) (msg : exn -> string) s :
  let r := call (try_except any_exception body
                   (fun e => emit (ELog (msg e) (Some 0%Z)) ;; return_ false)) s in
  match res (body s) with
  | Normal _ => res r = Normal None /\ out r = out (body s)
  | Returned v => res r = Normal v /\ out r = out (body s)
  | Raised e => res r = Normal (Some false) /\ out r = out (body s) ++ [ELog (msg e) (Some 0%Z)]
  end.
Proof.
  cbv zeta. rewrite call_run, try_except_run.
  destruct (res (body s)) as [a|v|e] eqn:E; cbn [any_exception res out fin].
  - rewrite E. split; reflexivity.
  - rewrite E. split; reflexivity.
  - steps. finish. split; reflexivity.
Qed.

Lemma monitoring_unstopped e : monitoring e -> unstopped e.
Proof. destruct e as [| [] | | | | | | | | | | | | | | | | | | | |]; simpl; auto. Qed.


#[local] Arguments String.append : simpl never.

(** The [try] block of the archiver strategy ends in one of four ways. *)
Lemma seven_zip_body_summary w zip iso dir s :
  let r := ISOBuilder._extract_with_7zip_body w zip iso dir s in
  exists pre,
    Forall unstopped pre /\
    ( (res r = Returned (Some false) /\ out r = pre ++ [EPoll true; ETerminate])
      \/ (res r = Returned (Some false) /\ exists msg, out r = pre ++ [ELog msg (Some 0%Z)])
      \/ (exists e, res r = Raised e /\ out r = pre)
      \/ (res r = Returned (Some true) /\ out r = pre /\ os_makedirs w dir = None /\
          exists p, subprocess_Popen w (Argv [zip; "x"; ("-o" ++ dir)%string; "-y"; iso]) = inr p
                    /\ returncode p = 0%Z) ).
Proof.
  cbv zeta.
  unfold ISOBuilder._extract_with_7zip_body, ISOBuilder.log, ISOBuilder.spawn.
  steps.
  destruct (os_makedirs w dir) as [e|] eqn:Emk; steps.
  { finish. eexists. split; [|right; right; left; eexists; split; reflexivity].
    repeat constructor. }
  destruct (subprocess_Popen w _) as [e|p] eqn:Epo; steps.
  { finish. eexists. split; [|right; right; left; eexists; split; reflexivity].
    repeat constructor. }
  rewrite bind_run. name_read_output H read_output_halting.
  destruct H as (_ & [(Ho & Hr) | (pre & Ho & Hpre & Hst)]).
  - assert (Hu : Forall unstopped lout)
      by (eapply Forall_impl; [exact monitoring_unstopped | exact Ho]).
    destruct lres as [[]|v|e]; cbn [res out fin].
    + steps. destruct (Z.eqb_spec (returncode p) 0) as [Hrc|Hrc]; steps; finish.
      * eexists. split; [|right; right; right].
        2:{ split; [reflexivity|]. split; [reflexivity|]. split; [reflexivity|].
            exists p. auto. }
        all_in ltac:(exact I).
      * exists ([ELog "Extracting ISO with 7-Zip..." None; EMakedirs dir;
                 EPopen (Argv [zip; "x"; ("-o" ++ dir)%string; "-y"; iso])]
                ++ lout ++ [EWait]).
        split; [|right; left; split; [reflexivity|]].
        2:{ eexists. list_eq. }
        all_in ltac:(exact I).
    + exfalso. exact (Hr v eq_refl).
    + finish. eexists. split; [|right; right; left; eexists; split; reflexivity].
      all_in ltac:(exact I).
  - unfold stopped in Hst. subst lres lout. finish.
    assert (Hu : Forall unstopped pre)
      by (eapply Forall_impl; [exact monitoring_unstopped | exact Hpre]).
    exists ([ELog "Extracting ISO with 7-Zip..." None; EMakedirs dir;
             EPopen (Argv [zip; "x"; ("-o" ++ dir)%string; "-y"; iso])] ++ pre).
    split; [|left; split; [reflexivity | list_eq]].
    all_in ltac:(exact I).
Qed.

(** Every run of the archiver strategy returns a Boolean and ends in one
    of three ways: stopped (the flag was seen set and the subprocess was
    terminated at once), failed (the last thing done is a log with progress
    0), or succeeded (the subprocess was spawned and exited with 0). *)
Lemma seven_zip_summary w zip iso dir s :
  let r := ISOBuilder._extract_with_7zip w zip iso dir s in
  exists b pre,
    res r = Normal (Some b) /\ Forall unstopped pre /\
    ( (b = false /\ out r = pre ++ [EPoll true; ETerminate])
      \/ (b = false /\ exists msg, out r = pre ++ [ELog msg (Some 0%Z)])
      \/ (b = true /\ out r = pre /\ os_makedirs w dir = None /\
          exists p, subprocess_Popen w (Argv [zip; "x"; ("-o" ++ dir)%string; "-y"; iso]) = inr p
                    /\ returncode p = 0%Z) ).
Proof.
  cbv zeta.
  pose proof (guarded_call (ISOBuilder._extract_with_7zip_body w zip iso dir)
                (fun e => ("Error extracting with 7-Zip: " ++ exn_msg e)%string) s) as G.
  cbv zeta in G.
  change (call _) with (ISOBuilder._extract_with_7zip w zip iso dir) in G.
  destruct (seven_zip_body_summary w zip iso dir s)
    as (pre & Hpre & [(Hr & Ho) | [(Hr & msg & Ho) | [(e & Hr & Ho) | (Hr & Ho & Hok)]]]);
    rewrite Hr in G; destruct G as (Gr & Go); rewrite Gr, Go, Ho.
  - exists false, pre. auto.
  - exists false, pre. split; [reflexivity|]. split; [exact Hpre|]. right. left. eauto.
  - exists false, pre. split; [reflexivity|]. split; [exact Hpre|]. right. left. eauto.
  - exists true, pre. split; [reflexivity|]. split; [exact Hpre|]. right. right. auto.
Qed.

Lemma mount_is_not_unmount iso :
  is_unmount iso (ERun (ISOBuilder.mount_cmd iso)) = false.
Proof. reflexivity. Qed.

#[local] Arguments ISOBuilder.unmount_cmd : simpl never.
#[local] Arguments ISOBuilder.mount_cmd : simpl never.

Lemma copying_before_unmount iso e : copying e -> before_unmount iso e.
Proof.
  destruct e as [| [] | | | | | | | | | | | | | | | | | | | |]; simpl;
    intro H; try contradiction; split; try discriminate; reflexivity.
Qed.


Lemma unmounts_app iso xs ys : unmounts iso (xs ++ ys) = (unmounts iso xs + unmounts iso ys)%nat.
Proof. unfold unmounts. rewrite filter_app, length_app. reflexivity. Qed.

Lemma unmounts_before iso evs : Forall (before_unmount iso) evs -> unmounts iso evs = 0%nat.
Proof.
  unfold unmounts. induction 1 as [|e evs [_ He] _ IH]; simpl.
  - reflexivity.
  - rewrite He. exact IH.
Qed.



(** The [finally] block: once a drive letter is held it logs, issues the
    unmount command once and logs how that went; it never raises. *)
Lemma unmount_image_spec w iso s :
  let r := ISOBuilder.unmount_image w iso s in
  res r = Normal tt /\
  out r = match drive_letter s with
          | Some d => if truthy d then unmount_events w iso d else []
          | None => []
          end.
Proof.
  cbv zeta.
  unfold ISOBuilder.unmount_image, ISOBuilder.log, ISOBuilder.run_checked,
    ISOBuilder.run_cmd, unmount_events.
  steps.
  destruct (drive_letter s) as [d|]; cbn [truthy ISOBuilder.str_of_drive];
    [|split; reflexivity].
  destruct (truthy d); [|split; reflexivity].
  rewrite try_except_run. steps.
  destruct (subprocess_run w (ISOBuilder.unmount_cmd iso)) as [e|c]; steps; finish.
  { steps. finish. split; reflexivity. }
  destruct (run_returncode c =? 0)%Z; steps; finish.
  - split; reflexivity.
  - steps. finish. split; reflexivity.
Qed.

(** ** The mount-and-copy strategy *)

Ltac before_unmount_one := first [exact I | split; [discriminate | reflexivity]].

(** Mounting: either the command answers with a drive letter, which is
    then held, or the attempt ends the strategy and no usable letter is
    held. *)
Lemma mount_image_spec w iso s :
  drive_letter s = None ->
  let r := ISOBuilder.mount_image w iso s in
  Forall (before_unmount iso) (out r) /\
  ( (exists d, mount_answers w iso d /\ res r = Normal tt /\ drive_letter (fin r) = Some d)
    \/ ((forall d, ~ mount_answers w iso d) /\
        (forall d, drive_letter (fin r) = Some d -> truthy d = false) /\
        ((res r = Returned (Some false) /\ exists pre msg, out r = pre ++ [ELog msg (Some 0%Z)])
         \/ exists e, res r = Raised e)) ).
Proof.
  intros Hd. cbv zeta.
  unfold ISOBuilder.mount_image, ISOBuilder.log, ISOBuilder.run_checked,
    ISOBuilder.run_cmd.
  rewrite try_except_run. steps.
  destruct (subprocess_run w (ISOBuilder.mount_cmd iso)) as [e|c] eqn:Erun.
  { steps. finish.
    assert (Hno : forall d, ~ mount_answers w iso d).
    { intros d (c & Hc & _). congruence. }
    destruct (is_subprocess_error e).
    - steps. finish. split.
      + all_in before_unmount_one.
      + right. split; [exact Hno|]. split; [intros d Hs; congruence|].
        left. split; [reflexivity|]. exists [ERun (ISOBuilder.mount_cmd iso)]. eexists. reflexivity.
    - finish. split.
      + all_in before_unmount_one.
      + right. split; [exact Hno|]. split; [intros d Hs; congruence|]. right. eauto. }
  steps.
  destruct (Z.eqb_spec (run_returncode c) 0) as [Hrc|Hrc].
  2:{ steps. finish. steps. finish.
      assert (Hno : forall d, ~ mount_answers w iso d).
      { intros d (c' & Hc & Hz & _). congruence. }
      split.
      + all_in before_unmount_one.
      + right. split; [exact Hno|]. split; [intros d Hs; congruence|].
        left. split; [reflexivity|]. exists [ERun (ISOBuilder.mount_cmd iso)]. eexists. reflexivity. }
  steps.
  destruct (truthy (strip (run_stdout c))) eqn:Etr; cbn [negb].
  2:{ steps. finish.
      assert (Hno : forall d, ~ mount_answers w iso d).
      { intros d (c' & Hc & Hz & Hdd & Ht). congruence. }
      split.
      + all_in before_unmount_one.
      + right. split; [exact Hno|].
        split; [intros d Hs; injection Hs as <-; exact Etr|]. right. eauto. }
  steps. finish.
  split.
  + all_in before_unmount_one.
  + left. exists (strip (run_stdout c)). split; [|split; reflexivity].
    exists c. auto.
Qed.

Lemma copy_loop_halting w total source_path extract_dir entries acc :
  halting copying [] false
    (for_fold entries acc (ISOBuilder.copy_dir w total source_path extract_dir)).
Proof. apply halting_for_fold. intros a x _. apply copy_dir_halting. Qed.

(** Copying the tree: it ends by [return True], by an exception, or at the
    read that finds the flag set, by [return False]. *)
Lemma copy_tree_spec w dir s :
  let r := ISOBuilder.copy_tree w dir s in
  drive_letter (fin r) = drive_letter s /\
  ( (Forall copying (out r) /\ (res r = Returned (Some true) \/ exists e, res r = Raised e))
    \/ (exists pre, out r = pre ++ [EPoll true] /\ Forall copying pre
                    /\ res r = Returned (Some false)) ).
Proof.
  cbv zeta. unfold ISOBuilder.copy_tree, ISOBuilder.log. steps. rewrite bind_run.
  match goal with
  | |- context [for_fold ?xs ?acc (ISOBuilder.copy_dir ?w' ?t ?sp ?d) ?s'] =>
      pose proof (copy_loop_halting w' t sp d xs acc s') as H;
      destruct (for_fold xs acc (ISOBuilder.copy_dir w' t sp d) s') as [lres lout lfin];
      cbn [res out fin] in H
  end.
  destruct H as (Hd & [(Ho & Hr) | (pre & Ho & Hpre & Hst)]).
  - destruct lres as [n|v|e]; cbn [res out fin].
    + steps. finish. split; [exact Hd|]. left. split; [|left; reflexivity].
      all_in ltac:(exact I).
    + exfalso. exact (Hr v eq_refl).
    + split; [exact Hd|]. left. split; [exact Ho | right; eauto].
  - unfold stopped in Hst. subst lres lout. cbn [res out fin].
    split; [exact Hd|]. right. exists pre. auto.
Qed.

Lemma try_finally_run A (m : M A) (f : M unit) s :
  try_finally m f s =
  mkRun (match res (f (fin (m s))) with
         | Normal _ => res (m s)
         | Returned b => Returned b
         | Raised e => Raised e
         end) (out (m s) ++ out (f (fin (m s)))) (fin (f (fin (m s)))).
Proof. reflexivity. Qed.

(** The [try] block of the mount-and-copy strategy. *)
Lemma mount_body_summary w iso dir s :
  drive_letter s = None ->
  let r := ISOBuilder._extract_with_windows_mount_body w iso dir s in
  exists pre,
    Forall (before_unmount iso) pre /\
    ( ((forall d, ~ mounts w iso dir d) /\
       (forall d, drive_letter (fin r) = Some d -> truthy d = false) /\
       ((res r = Returned (Some false) /\ exists msg, out r = pre ++ [ELog msg (Some 0%Z)])
        \/ (exists e, res r = Raised e /\ out r = pre)))
      \/ (exists d, mounts w iso dir d /\ drive_letter (fin r) = Some d /\
            ( (res r = Returned (Some false) /\ out r = pre ++ [EPoll true])
              \/ (exists e, res r = Raised e /\ out r = pre)
              \/ (res r = Returned (Some true) /\ out r = pre) )) ).
Proof.
  intros Hd. cbv zeta.
  unfold ISOBuilder._extract_with_windows_mount_body, ISOBuilder.log. steps.
  destruct (os_makedirs w dir) as [e|] eqn:Emk; steps.
  { finish. eexists. split; [|left].
    2:{ split; [intros d (Hm & _); congruence|].
        split; [intros d Hs; congruence|]. right. eexists. split; reflexivity. }
    all_in before_unmount_one. }
  rewrite bind_run.
  pose proof (mount_image_spec w iso s Hd) as Hm. cbv zeta in Hm.
  destruct (ISOBuilder.mount_image w iso s) as [mres mout mfin]. cbn [res out fin] in Hm |- *.
  destruct Hm as (Hq & [(d & Hans & -> & Hheld) | (Hno & Hheld & Hend)]).
  - pose proof (copy_tree_spec w dir mfin) as Hc. cbv zeta in Hc.
    destruct (ISOBuilder.copy_tree w dir mfin) as [cres cout cfin]. cbn [res out fin] in Hc |- *.
    destruct Hc as (Hkeep & Hc). finish.
    assert (Hmounts : mounts w iso dir d) by (split; assumption).
    assert (Hd' : drive_letter cfin = Some d) by congruence.
    destruct Hc as [(Ho & [-> | (e & ->)]) | (pre & -> & Hpre & ->)].
    + eexists. split; [|right; exists d; split; [exact Hmounts|]; split; [exact Hd'|]].
      2:{ right. right. split; reflexivity. }
      all_in before_unmount_one.
      eapply Forall_impl; [apply copying_before_unmount | exact Ho].
    + eexists. split; [|right; exists d; split; [exact Hmounts|]; split; [exact Hd'|]].
      2:{ right. left. eexists. split; reflexivity. }
      all_in before_unmount_one.
      eapply Forall_impl; [apply copying_before_unmount | exact Ho].
    + exists ([ELog "Mounting ISO using Windows built-in functionality..." None;
               EMakedirs dir] ++ mout ++ pre).
      split; [|right; exists d; split; [exact Hmounts|]; split; [exact Hd'|]].
      2:{ left. split; [reflexivity | list_eq]. }
      all_in before_unmount_one.
      eapply Forall_impl; [apply copying_before_unmount | exact Hpre].
  - assert (Hno' : forall d, ~ mounts w iso dir d) by (intros d (_ & Hans); exact (Hno d Hans)).
    destruct Hend as [(-> & pre & msg & ->) | (e & ->)]; finish.
    + exists ([ELog "Mounting ISO using Windows built-in functionality..." None;
               EMakedirs dir] ++ pre).
      split; [|left; split; [exact Hno'|]; split; [exact Hheld|]].
      2:{ left. split; [reflexivity|]. exists msg. list_eq. }
      apply Forall_app in Hq as (Hq & _).
      all_in before_unmount_one.
    + eexists. split; [|left; split; [exact Hno'|]; split; [exact Hheld|]].
      2:{ right. eexists. split; reflexivity. }
      all_in before_unmount_one.
Qed.

(** Every run of the mount-and-copy strategy returns a Boolean.  If no
    drive letter was obtained it returns [False] after a log with progress
    0 and unmounts nothing.  If one was obtained it ends with the unmount
    sequence, which follows the read that saw the flag set, the log of the
    failure, or the work done. *)
Lemma mount_summary w iso dir s :
  let r := ISOBuilder._extract_with_windows_mount w iso dir s in
  exists b pre,
    res r = Normal (Some b) /\ Forall (before_unmount iso) pre /\
    ( (b = false /\ (forall d, ~ mounts w iso dir d) /\
       exists msg, out r = pre ++ [ELog msg (Some 0%Z)])
      \/ exists d, mounts w iso dir d /\
           ( (b = false /\ out r = pre ++ EPoll true :: unmount_events w iso d)
             \/ (b = false /\ exists msg,
                   out r = pre ++ ELog msg (Some 0%Z) :: unmount_events w iso d)
             \/ (b = true /\ out r = pre ++ unmount_events w iso d) ) ).
Proof.
  cbv zeta. unfold ISOBuilder._extract_with_windows_mount, ISOBuilder.log.
  rewrite call_run. steps. rewrite try_finally_run, try_except_run.
  pose proof (@mount_body_summary w iso dir (mkSt (polls s) (fs s) None) eq_refl) as Hb.
  cbv zeta in Hb.
  destruct (ISOBuilder._extract_with_windows_mount_body w iso dir (mkSt (polls s) (fs s) None))
    as [bres bout bfin].
  cbn [res out fin] in Hb |- *.
  pose proof (unmount_image_spec w iso bfin) as Hu. cbv zeta in Hu.
  destruct Hb as (pre & Hpre & [(Hno & Hheld & Hend) | (d & Hm & Hheld & Hend)]).
  - assert (Hnone : out (ISOBuilder.unmount_image w iso bfin) = []).
    { destruct Hu as (_ & ->). destruct (drive_letter bfin) as [d|]; [|reflexivity].
      rewrite (Hheld d eq_refl). reflexivity. }
    destruct Hu as (Hur & _).
    destruct Hend as [(-> & msg & ->) | (e & -> & ->)];
      finish; steps; finish; rewrite ?Hur, ?Hnone; finish.
    + exists false, pre. split; [reflexivity|]. split; [exact Hpre|]. left.
      split; [reflexivity|]. split; [exact Hno|]. exists msg. reflexivity.
    + exists false, pre. split; [reflexivity|]. split; [exact Hpre|]. left.
      split; [reflexivity|]. split; [exact Hno|]. eexists. reflexivity.
  - assert (Hsome : out (ISOBuilder.unmount_image w iso bfin) = unmount_events w iso d).
    { destruct Hu as (_ & ->). rewrite Hheld.
      destruct Hm as (_ & c & _ & _ & _ & ->). reflexivity. }
    destruct Hu as (Hur & _).
    destruct Hend as [(-> & ->) | [(e & -> & ->) | (-> & ->)]];
      finish; steps; finish; rewrite ?Hur, ?Hsome; finish.
    + exists false, pre. split; [reflexivity|]. split; [exact Hpre|]. right. exists d.
      split; [exact Hm|]. left. split; [reflexivity | list_eq].
    + exists false, pre. split; [reflexivity|]. split; [exact Hpre|]. right. exists d.
      split; [exact Hm|]. right. left. split; [reflexivity|]. eexists. list_eq.
    + exists true, pre. split; [reflexivity|]. split; [exact Hpre|]. right. exists d.
      split; [exact Hm|]. right. right. split; [reflexivity | list_eq].
Qed.

(* ================================================================== *)
(** * Claims about extraction *)




(** Without a drive letter nothing is unmounted. *)
Lemma no_mount_no_unmount w iso dir s :
  (forall d, ~ mounts w iso dir d) ->
  unmounts iso (out (ISOBuilder._extract_with_windows_mount w iso dir s)) = 0%nat.
Proof.
  intros Hno.
  destruct (mount_summary w iso dir s) as (b & pre & Hr & Hpre & Hcases).
  destruct Hcases as [(_ & _ & msg & ->) | (d & Hm & _)].
  - rewrite unmounts_app, (unmounts_before Hpre). reflexivity.
  - exfalso. exact (Hno d Hm).
Qed.





(** ** The copy loop: cadence of the progress reports *)


Lemma copies_app xs ys : copies (xs ++ ys) = copies xs ++ copies ys.
Proof. unfold copies. apply flat_map_app. Qed.














(** ** The copy loop: it goes through every file *)

Lemma copy_file_run w total root target_dir c file s :
  never_stopped w ->
  let r := ISOBuilder.copy_file w total root target_dir c file s in
  (exists c', res r = Normal c') /\
  copies (out r) = [(os_path_join w [root; file], os_path_join w [target_dir; file])].
Proof.
  intros Hn. cbv zeta. unfold ISOBuilder.copy_file, ISOBuilder.log. steps. rewrite Hn.
  rewrite try_except_run. steps.
  destruct (shutil_copy2 w (os_path_join w [root; file]) (os_path_join w [target_dir; file]))
    as [e|] eqn:Ec; steps; finish.
  - steps. finish. split; [eauto | reflexivity].
  - destruct (ISOBuilder.at_cadence (S c) total); steps; finish; steps; finish;
      (split; [eauto | reflexivity]).
Qed.

Lemma copy_files_run w total root target_dir files :
  never_stopped w ->
  forall c s,
    let r := for_fold files c (ISOBuilder.copy_file w total root target_dir) s in
    (exists c', res r = Normal c') /\
    copies (out r)
    = map (fun file => (os_path_join w [root; file], os_path_join w [target_dir; file])) files.
Proof.
  intros Hn. induction files as [|file files IH]; intros c s; cbv zeta; simpl.
  - split; [eauto | reflexivity].
  - rewrite bind_run.
    destruct (copy_file_run total root target_dir c file s Hn) as ((c' & Hr) & Hc).
    rewrite Hr. cbn [prefix res out fin]. rewrite copies_app, Hc.
    destruct (IH c' (fin (ISOBuilder.copy_file w total root target_dir c file s))) as (Hr' & Hc').
    rewrite Hc'. split; [exact Hr' | reflexivity].
Qed.

Lemma copy_dirs_run w total source_path extract_dir entries :
  never_stopped w -> directories_ok w ->
  forall c s,
    let r := for_fold entries c (ISOBuilder.copy_dir w total source_path extract_dir) s in
    (exists c', res r = Normal c') /\
    copies (out r)
    = flat_map (fun entry =>
        let root := fst (fst entry) in
        let target_dir :=
          match os_path_relpath w root source_path with
          | inr rel =>
              if negb (rel =? ".")%string then os_path_join w [extract_dir; rel] else extract_dir
          | inl _ => extract_dir
          end in
        map (fun file => (os_path_join w [root; file], os_path_join w [target_dir; file]))
            (snd entry)) entries.
Proof.
  intros Hn (Hmk & Hrel). induction entries as [|entry entries IH]; intros c s; cbv zeta; simpl.
  - split; [eauto | reflexivity].
  - rewrite bind_run.
    assert (Hdir :
      let r := ISOBuilder.copy_dir w total source_path extract_dir c entry s in
      (exists c', res r = Normal c') /\
      copies (out r)
      = map (fun file =>
               (os_path_join w [fst (fst entry); file],
                os_path_join w
                  [match os_path_relpath w (fst (fst entry)) source_path with
                   | inr rel =>
                       if negb (rel =? ".")%string
                       then os_path_join w [extract_dir; rel] else extract_dir
                   | inl _ => extract_dir
                   end; file])) (snd entry)).
    { cbv zeta. unfold ISOBuilder.copy_dir, ISOBuilder.relpath. steps. rewrite Hn.
      destruct (Hrel (fst (fst entry)) source_path) as (rel & ->). steps.
      rewrite Hmk. steps.
      match goal with
      | |- context [for_fold ?fl ?c0 (ISOBuilder.copy_file ?w' ?t ?rt ?td) ?s'] =>
          destruct (@copy_files_run w' t rt td fl Hn c0 s') as (Hr & Hc)
      end.
      cbv zeta in Hr, Hc. cbn [prefix res out fin]. rewrite copies_app, Hc.
      split; [exact Hr | reflexivity]. }
    cbv zeta in Hdir. destruct Hdir as ((c' & Hr) & Hc).
    rewrite Hr. cbn [prefix res out fin]. rewrite copies_app, Hc.
    destruct (IH c' (fin (ISOBuilder.copy_dir w total source_path extract_dir c entry s)))
      as (Hr' & Hc').
    rewrite Hc'. split; [exact Hr' | reflexivity].
Qed.

(** ** The copy loop never raises when the directories can be made *)

Lemma never_raises_bind A B (m : M A) (k : A -> M B) :
  never_raises m -> (forall a, never_raises (k a)) -> never_raises (bind m k).
Proof.
  intros Hm Hk s e. rewrite res_bind.
  destruct (res (m s)) as [a|v|e'] eqn:E; [apply Hk | discriminate |].
  exfalso. exact (Hm s e' E).
Qed.




(** ** The whole trace of a mount-and-copy run that obtained a drive *)

Lemma mount_image_ok w iso d s :
  mount_answers w iso d ->
  ISOBuilder.mount_image w iso s
  = mkRun (Normal tt)
      [ERun (ISOBuilder.mount_cmd iso); ELog ("ISO mounted at drive " ++ d ++ ":")%string None]
      (mkSt (polls s) (fs s) (Some d)).
Proof.
  intros (c & Erun & Hrc & -> & Htr).
  unfold ISOBuilder.mount_image, ISOBuilder.log, ISOBuilder.run_checked, ISOBuilder.run_cmd.
  rewrite try_except_run. steps. rewrite Erun. steps. rewrite Hrc. cbn [Z.eqb]. steps.
  rewrite Htr. cbn [negb]. steps. finish. reflexivity.
Qed.

Lemma mount_trace w iso dir d s :
  mounts w iso dir d ->
  let source_path := (d ++ ":\")%string in
  let total := ISOBuilder.count_files (os_walk w source_path) in
  let loop := for_fold (os_walk w source_path) 0%nat
                (ISOBuilder.copy_dir w total source_path dir)
                (mkSt (polls s) (fs s) (Some d)) in
  let r := ISOBuilder._extract_with_windows_mount w iso dir s in
  out r = [ELog "Mounting ISO using Windows built-in functionality..." None; EMakedirs dir;
           ERun (ISOBuilder.mount_cmd iso);
           ELog ("ISO mounted at drive " ++ d ++ ":")%string None]
          ++ out loop ++ after_copy (res loop) ++ unmount_events w iso d
  /\ res r = Normal (match res loop with
                     | Normal _ => Some true
                     | Returned v => v
                     | Raised _ => Some false
                     end).
Proof.
  intros (Emk & Hans). cbv zeta.
  pose proof (@copy_loop_halting w (ISOBuilder.count_files (os_walk w (d ++ ":\")%string))
                (d ++ ":\")%string dir (os_walk w (d ++ ":\")%string) 0%nat
                (mkSt (polls s) (fs s) (Some d))) as (Hkeep & _).
  cbn [drive_letter] in Hkeep.
  unfold ISOBuilder._extract_with_windows_mount, ISOBuilder._extract_with_windows_mount_body,
    ISOBuilder.copy_tree, ISOBuilder.log.
  rewrite call_run. steps. rewrite try_finally_run, try_except_run. steps.
  rewrite Emk. steps. rewrite bind_run, (mount_image_ok _ Hans). cbn [res out fin]. steps.
  cbn [ISOBuilder.str_of_drive drive_letter]. rewrite bind_run.
  set (loop := for_fold _ _ _ _) in *.
  destruct (unmount_image_spec w iso (fin loop)) as (Hur & Huo). rewrite Hkeep in Huo.
  assert (Htr : truthy d = true) by (destruct Hans as (c & _ & _ & _ & H); exact H).
  rewrite Htr in Huo.
  destruct (res loop) as [n|v|e] eqn:El; finish; steps; finish; rewrite ?Hur, ?Huo; finish.
  - split; [list_eq | reflexivity].
  - split; [list_eq | reflexivity].
  - split; [list_eq | reflexivity].
Qed.

(* ================================================================== *)
(** * Claims about the copy loop *)






(** On a volume of 250 files of which one cannot be copied, 249 copies
    succeed: progress is reported at 100 and 200 files, and never at 250. *)
Example volume_250_reports :
  let r := ISOBuilder._extract_with_windows_mount Hosts.volume_250 "kali.iso" "D:\x" Hosts.fresh in
  res r = Normal (Some true) /\
  length (copies (out r)) = 250%nat /\ successes Hosts.volume_250 (out r) = 249%nat /\
  progress_logs (out r)
  = [("Copying files: 100/250 (40%)"%string, 40%Z); ("Copying files: 200/250 (80%)"%string, 80%Z)]
  /\ In (copy_error "E:\f7" (mkExn OSError "read error")) (out r).
Proof. vm_compute. repeat split. repeat first [left; reflexivity | right]. Qed.

(** The percentage is the truncation of a binary64 product, which can be
    one less than the integer part of the exact quotient. *)
Remark percent_done_is_float_truncation :
  ISOBuilder.percent_done 250 250 = 100%Z /\
  ISOBuilder.percent_done 100 250 = 40%Z /\
  ISOBuilder.percent_done 2900 10000 = 28%Z /\
  (2900 * 100 / 10000 = 29)%Z.
Proof. vm_compute. repeat split. Qed.

(* ================================================================== *)
(** * The creation strategies *)

Lemma monitoring_after_spawn e : monitoring e -> after_spawn e.
Proof. destruct e as [| [] | | | | | | | | | | | | | | | | | | | |]; simpl; auto. Qed.

Lemma after_spawn_native e : after_spawn e -> native_only e.
Proof. destruct e; simpl; intro H; try contradiction; exact I. Qed.

Lemma oscdimg_boot_args_spelled w s source_dir :
  ISOBuilder.oscdimg_boot_args w (fs s) source_dir ["etfsboot.com"; "efisys.bin"]
  = expected_boot_args w s source_dir.
Proof.
  unfold expected_boot_args. cbn [ISOBuilder.oscdimg_boot_args].
  destruct (fs s (os_path_join w [source_dir; "boot"; "etfsboot.com"])); [reflexivity|].
  destruct (fs s (os_path_join w [source_dir; "boot"; "efisys.bin"])); reflexivity.
Qed.

(** The [try] block of the native masterer strategy: it logs, logs the
    command line, spawns it, and from then on only monitors. *)
Lemma oscdimg_body_summary w path source_dir output_iso label s :
  let cmd := ISOBuilder.oscdimg_cmd path source_dir output_iso label
               (expected_boot_args w s source_dir) in
  let r := ISOBuilder._create_iso_with_oscdimg_body w path source_dir output_iso label s in
  exists rest,
    out r = [ELog "Creating ISO with oscdimg.exe..." None;
             ELog ("Running: " ++ String.concat " " cmd)%string None;
             EPopen (Argv cmd)] ++ rest /\
    Forall after_spawn rest /\
    ( (res r = Returned (Some true) /\
       exists p, subprocess_Popen w (Argv cmd) = inr p /\ returncode p = 0%Z)
      \/ res r = Returned (Some false)
      \/ exists e, res r = Raised e ).
Proof.
  cbv zeta.
  unfold ISOBuilder._create_iso_with_oscdimg_body, ISOBuilder.log, ISOBuilder.spawn.
  steps. rewrite oscdimg_boot_args_spelled.
  set (cmd := ISOBuilder.oscdimg_cmd path source_dir output_iso label
                (expected_boot_args w s source_dir)).
  destruct (subprocess_Popen w (Argv cmd)) as [e|p] eqn:Epo; steps.
  { finish. exists []. split; [reflexivity|]. split; [constructor | right; right; eauto]. }
  rewrite bind_run. name_read_output H read_output_halting.
  destruct H as (_ & [(Ho & Hr) | (pre & Ho & Hpre & Hst)]).
  - assert (Hu : Forall after_spawn lout)
      by (eapply Forall_impl; [exact monitoring_after_spawn | exact Ho]).
    destruct lres as [[]|v|e]; cbn [res out fin].
    + steps. destruct (Z.eqb_spec (returncode p) 0) as [Hrc|Hrc]; steps; finish.
      * eexists. split; [reflexivity|]. split; [all_in ltac:(exact I)|]. left. eauto.
      * eexists. split; [reflexivity|]. split; [all_in ltac:(exact I)|]. right. left. reflexivity.
    + exfalso. exact (Hr v eq_refl).
    + finish. eexists. split; [reflexivity|]. split; [all_in ltac:(exact I)|]. right. right. eauto.
  - unfold stopped in Hst. subst lres lout. finish.
    assert (Hu : Forall after_spawn pre)
      by (eapply Forall_impl; [exact monitoring_after_spawn | exact Hpre]).
    eexists. split; [reflexivity|]. split; [all_in ltac:(exact I)|]. right. left. reflexivity.
Qed.

Lemma oscdimg_summary w path source_dir output_iso label s :
  let cmd := ISOBuilder.oscdimg_cmd path source_dir output_iso label
               (expected_boot_args w s source_dir) in
  let r := ISOBuilder._create_iso_with_oscdimg w path source_dir output_iso label s in
  exists b rest,
    res r = Normal (Some b) /\
    out r = [ELog "Creating ISO with oscdimg.exe..." None;
             ELog ("Running: " ++ String.concat " " cmd)%string None;
             EPopen (Argv cmd)] ++ rest /\
    Forall after_spawn rest /\
    (b = true -> exists p, subprocess_Popen w (Argv cmd) = inr p /\ returncode p = 0%Z).
Proof.
  cbv zeta.
  pose proof (guarded_call
                (ISOBuilder._create_iso_with_oscdimg_body w path source_dir output_iso label)
                (fun e => ("Error creating ISO with oscdimg: " ++ exn_msg e)%string) s) as G.
  cbv zeta in G.
  change (call _) with (ISOBuilder._create_iso_with_oscdimg w path source_dir output_iso label) in G.
  destruct (oscdimg_body_summary w path source_dir output_iso label s)
    as (rest & Ho & Hrest & [(Hr & Hp) | [Hr | (e & Hr)]]);
    cbv zeta in Ho; rewrite Hr in G; destruct G as (Gr & Go); rewrite Gr, Go, Ho.
  - exists true, rest. auto.
  - exists false, rest. repeat split; auto. discriminate.
  - exists false. eexists. split; [reflexivity|]. split; [list_eq|].
    split; [all_in ltac:(exact I) | discriminate].
Qed.

Lemma find_oscdimg_found w s :
  masterer_present w s ->
  exists path,
    In path (oscdimg_paths w) /\ fs s path = true /\ truthy path = true /\
    ISOBuilder._find_oscdimg w s = mkRun (Normal (Some path)) [] s.
Proof.
  intros ((p & Hin & Hp) & Hnamed).
  unfold ISOBuilder._find_oscdimg, ISOBuilder.log. steps. cbn [find].
  unfold oscdimg_paths in Hin, Hnamed. cbv zeta in Hin, Hnamed.
  match goal with |- context [if fs s ?p1 then _ else _] => destruct (fs s p1) eqn:E1 end.
  { eexists. split; [left; reflexivity|]. split; [exact E1|].
    split; [apply Hnamed; left; reflexivity | reflexivity]. }
  match goal with |- context [if fs s ?p2 then _ else _] => destruct (fs s p2) eqn:E2 end.
  { eexists. split; [right; left; reflexivity|]. split; [exact E2|].
    split; [apply Hnamed; right; left; reflexivity | reflexivity]. }
  match goal with |- context [if fs s ?p3 then _ else _] => destruct (fs s p3) eqn:E3 end.
  { eexists. split; [right; right; left; reflexivity|]. split; [exact E3|].
    split; [apply Hnamed; right; right; left; reflexivity | reflexivity]. }
  exfalso. destruct Hin as [<-|[<-|[<-|[]]]]; congruence.
Qed.

Lemma find_oscdimg_absent w s :
  (forall p, In p (oscdimg_paths w) -> fs s p = false) ->
  ISOBuilder._find_oscdimg w s
  = mkRun (Normal None)
      [ELog "oscdimg.exe not found on system. Using PowerShell fallback method." None] s.
Proof.
  intros Habs. unfold ISOBuilder._find_oscdimg, ISOBuilder.log. steps. cbn [find].
  unfold oscdimg_paths in Habs. cbv zeta in Habs.
  rewrite (Habs _ (or_introl eq_refl)), (Habs _ (or_intror (or_introl eq_refl))),
    (Habs _ (or_intror (or_intror (or_introl eq_refl)))).
  steps. finish. reflexivity.
Qed.

(** With the masterer installed, [create_iso] is its log followed by the
    native masterer strategy, whose value it returns. *)
Lemma create_iso_native w source_dir output_iso label s :
  masterer_present w s ->
  exists path,
    In path (oscdimg_paths w) /\ fs s path = true /\
    res (ISOBuilder.create_iso w source_dir output_iso label s)
    = res (ISOBuilder._create_iso_with_oscdimg w path source_dir output_iso label s) /\
    out (ISOBuilder.create_iso w source_dir output_iso label s)
    = ELog ("Creating ISO from " ++ source_dir ++ " to " ++ output_iso)%string None
      :: out (ISOBuilder._create_iso_with_oscdimg w path source_dir output_iso label s).
Proof.
  intros Hp. destruct (find_oscdimg_found Hp) as (path & Hin & Hfs & Htr & Hfind).
  exists path. split; [exact Hin|]. split; [exact Hfs|].
  destruct (oscdimg_summary w path source_dir output_iso label s) as (b & rest & Hr & _).
  cbv zeta in Hr.
  unfold ISOBuilder.create_iso, ISOBuilder.log.
  rewrite call_run, try_except_run. steps. rewrite bind_run, Hfind. cbn [res out fin].
  rewrite Htr. cbn [negb]. rewrite bind_run, Hr. cbn [res out fin]. finish.
  split; reflexivity.
Qed.

(* ================================================================== *)
(** * Claims about the native masterer *)

(** C9.  The native masterer strategy always spawns exactly one process,
    with the command line
    [oscdimg -m -o -u2 -l<label> <boot arguments> <source> <output>]:
    the four flags are always there; the boot arguments are [-b <path>] for
    [boot/etfsboot.com] if it exists, else [-b <path> -e -u1] for
    [boot/efisys.bin] if that exists, else none; in general the first boot
    file that exists decides, and [-e -u1] is added exactly when its name
    contains "efi". *)
Theorem masterer_command_line w path source_dir output_iso label s :
  let etfsboot := os_path_join w [source_dir; "boot"; "etfsboot.com"] in
  let efisys := os_path_join w [source_dir; "boot"; "efisys.bin"] in
  let boot_args :=
    ISOBuilder.oscdimg_boot_args w (fs s) source_dir ["etfsboot.com"; "efisys.bin"] in
  let cmd := [path; "-m"; "-o"; "-u2"; ("-l" ++ label)%string] ++ boot_args
             ++ [source_dir; output_iso] in
  let r := ISOBuilder._create_iso_with_oscdimg w path source_dir output_iso label s in
  (exists b rest,
     res r = Normal (Some b) /\
     out r = [ELog "Creating ISO with oscdimg.exe..." None;
              ELog ("Running: " ++ String.concat " " cmd)%string None;
              EPopen (Argv cmd)] ++ rest /\
     Forall after_spawn rest) /\
  (In "-m" cmd /\ In "-o" cmd /\ In "-u2" cmd /\ In ("-l" ++ label)%string cmd)%string /\
  boot_args = (if fs s etfsboot then ["-b"; etfsboot]
               else if fs s efisys then ["-b"; efisys; "-e"; "-u1"]
               else [])%string /\
  (forall present files,
     ISOBuilder.oscdimg_boot_args w present source_dir files
     = match find (fun f => present (os_path_join w [source_dir; "boot"; f]%string)) files with
       | Some f => ["-b"%string; os_path_join w [source_dir; "boot"; f]%string]
                   ++ (if contains "efi" (lower f) then ["-e"; "-u1"]%string else [])
       | None => []
       end) /\
  contains "efi" (lower "etfsboot.com") = false /\
  contains "efi" (lower "efisys.bin") = true.
Proof.
  cbv zeta. rewrite oscdimg_boot_args_spelled.
  split; [|split; [|split; [|split; [|split]]]].
  - destruct (oscdimg_summary w path source_dir output_iso label s)
      as (b & rest & Hr & Ho & Hrest & _).
    exists b, rest. split; [exact Hr|]. split; [exact Ho | exact Hrest].
  - cbn. repeat split; auto 6.
  - reflexivity.
  - intros present files. induction files as [|f files IH]; [reflexivity|].
    cbn [ISOBuilder.oscdimg_boot_args find].
    destruct (present (os_path_join w [source_dir; "boot"%string; f])); [reflexivity | exact IH].
  - reflexivity.
  - reflexivity.
Qed.

(** C1, as the code has it.  With the native masterer installed,
    [create_iso] runs that tier and no other: everything it does is
    logging, spawning the masterer from an argument vector, reading the
    stop flag, terminating and waiting; it returns a Boolean, and [True]
    only if the masterer's process exited with code 0.  A non-zero exit
    code therefore ends the creation with [False]. *)
Theorem masterer_failure_is_final w source_dir output_iso label s :
  masterer_present w s ->
  let r := ISOBuilder.create_iso w source_dir output_iso label s in
  exists path b,
    In path (oscdimg_paths w) /\ fs s path = true /\
    res r = Normal (Some b) /\
    Forall native_only (out r) /\
    (b = true ->
       exists p,
         subprocess_Popen w
           (Argv (ISOBuilder.oscdimg_cmd path source_dir output_iso label
                    (expected_boot_args w s source_dir))) = inr p
         /\ returncode p = 0%Z).
Proof.
  intros Hp. cbv zeta.
  destruct (create_iso_native source_dir output_iso label Hp) as (path & Hin & Hfs & Hr & Ho).
  destruct (oscdimg_summary w path source_dir output_iso label s)
    as (b & rest & Hr' & Ho' & Hrest & Hb).
  cbv zeta in Hr', Ho', Hb.
  exists path, b. split; [exact Hin|]. split; [exact Hfs|].
  split; [rewrite Hr; exact Hr'|]. split; [|exact Hb].
  rewrite Ho, Ho'. repeat (constructor; [exact I|]).
  eapply Forall_impl; [exact after_spawn_native | exact Hrest].
Qed.

Lemma killed_masterer_present : masterer_present Hosts.killed_masterer Hosts.with_oscdimg.
Proof.
  split.
  - exists Hosts.oscdimg_exe. split; [left; reflexivity | reflexivity].
  - intros p [<-|[<-|[<-|[]]]]; reflexivity.
Qed.

Lemma masterer_failure_is_final_witness :
  masterer_present Hosts.killed_masterer Hosts.with_oscdimg /\
  exists path b,
    In path (oscdimg_paths Hosts.killed_masterer) /\
    res (ISOBuilder.create_iso Hosts.killed_masterer "D:\x" "D:\out.iso" "KALI_RTA"
           Hosts.with_oscdimg) = Normal (Some b) /\
    Forall native_only
      (out (ISOBuilder.create_iso Hosts.killed_masterer "D:\x" "D:\out.iso" "KALI_RTA"
              Hosts.with_oscdimg)).
Proof.
  split; [exact killed_masterer_present|].
  destruct (@masterer_failure_is_final Hosts.killed_masterer "D:\x" "D:\out.iso" "KALI_RTA"
              Hosts.with_oscdimg killed_masterer_present)
    as (path & b & Hin & _ & Hr & Ho & _).
  exists path, b. auto.
Defined.

(** C1 as stated fails: the masterer is installed and its process exits
    with code 137; [create_iso] returns [False] and neither the scripted
    tier nor the raw-archive tier is tried. *)
Lemma killed_masterer_ends_creation :
  let r := ISOBuilder.create_iso Hosts.killed_masterer "D:\x" "D:\out.iso" "KALI_RTA"
             Hosts.with_oscdimg in
  subprocess_Popen Hosts.killed_masterer
    (Argv [Hosts.oscdimg_exe; "-m"; "-o"; "-u2"; "-lKALI_RTA"; "D:\x"; "D:\out.iso"])
  = inr (mkProcess [] None 137%Z "Killed") /\
  res r = Normal (Some false) /\
  out r = [ ELog "Creating ISO from D:\x to D:\out.iso" None;
            ELog "Creating ISO with oscdimg.exe..." None;
            ELog ("Running: " ++ Hosts.oscdimg_exe ++ " -m -o -u2 -lKALI_RTA D:\x D:\out.iso") None;
            EPopen (Argv [Hosts.oscdimg_exe; "-m"; "-o"; "-u2"; "-lKALI_RTA"; "D:\x";
                          "D:\out.iso"]);
            EWait;
            ELog "oscdimg failed: Killed" (Some 0%Z) ].
Proof. cbv zeta. split; [reflexivity|]. split; vm_compute; reflexivity. Qed.

(* ================================================================== *)
(** * The cascade of creation tiers *)


(** ** The raw-archive tier *)

Lemma archive_file_completes w count source_dir root processed file s :
  never_stopped w -> archive_ok w ->
  exists n, res (ISOBuilder.archive_file w count source_dir root processed file s) = Normal n.
Proof.
  intros Hn (_ & Hzw & Hrel & _).
  unfold ISOBuilder.archive_file, ISOBuilder.relpath, ISOBuilder.log. steps. rewrite Hn.
  destruct (Hrel (os_path_join w [root; file]) source_dir) as (rel & ->). steps.
  rewrite Hzw. steps.
  destruct (ISOBuilder.at_cadence (S processed) count); steps; finish; eauto.
Qed.

Lemma archive_tree_completes w source_dir s :
  never_stopped w -> archive_ok w ->
  exists n, res (ISOBuilder.archive_tree w source_dir s) = Normal n.
Proof.
  intros Hn Hok. unfold ISOBuilder.archive_tree.
  apply for_fold_completes. intros acc entry s' _.
  apply for_fold_completes. intros acc' file s'' _.
  apply archive_file_completes; assumption.
Qed.

(** While nobody asks to stop and the archive can be written, the last
    tier returns [True]. *)
Lemma basic_iso_ok w source_dir output_iso label s :
  never_stopped w -> archive_ok w ->
  res (ISOBuilder._create_basic_iso w source_dir output_iso label s) = Normal (Some true).
Proof.
  intros Hn Hok. pose proof Hok as (Hzo & _ & _ & Hul & Hrn).
  unfold ISOBuilder._create_basic_iso, ISOBuilder._create_basic_iso_body, ISOBuilder.log.
  hide_strings. rewrite call_run. steps. cbn [prefix res]. rewrite try_except_run. steps.
  rewrite Hzo. steps. rewrite bind_run, try_finally_run. cbn [emit res out fin].
  match goal with
  | |- context [ISOBuilder.archive_tree ?w' ?sd ?s'] =>
      destruct (@archive_tree_completes w' sd s' Hn Hok) as (n & ->)
  end.
  cbn [res out fin]. steps.
  match goal with |- context [if ?b then _ else _] => destruct b end;
    steps; rewrite ?Hul; steps; rewrite Hrn; steps; finish; reflexivity.
Qed.

(** ** The scripted tier *)

(** Finish a branch of the scripted tier that ends in the last tier. *)
Ltac to_last_tier Hb :=
  finish; steps; finish; rewrite ?bind_run; rewrite ?Hb; cbn [res out fin];
  steps; finish; try reflexivity.

(** While nobody asks to stop and the archive can be written, the scripted
    tier returns [True]: by itself, or through the last tier. *)
Lemma powershell_ok w source_dir output_iso label s :
  never_stopped w -> archive_ok w ->
  res (ISOBuilder._create_iso_with_powershell w source_dir output_iso label s)
  = Normal (Some true).
Proof.
  intros Hn Hok.
  assert (Hb : forall s', res (ISOBuilder._create_basic_iso w source_dir output_iso label s')
                          = Normal (Some true))
    by (intro s'; apply basic_iso_ok; assumption).
  unfold ISOBuilder._create_iso_with_powershell, ISOBuilder._create_iso_with_powershell_body,
    ISOBuilder.ensure_script, ISOBuilder.run_checked, ISOBuilder.run_cmd, ISOBuilder.spawn,
    ISOBuilder.log.
  revert Hb. generalize (ISOBuilder._create_basic_iso w source_dir output_iso label).
  intros last_tier Hb.
  hide_strings.
  rewrite call_run, try_except_run. steps.
  destruct (subprocess_run w ISOBuilder.check_cmd) as [e|probe]; steps;
    [to_last_tier Hb|].
  match goal with |- context [contains ?t (run_stdout probe)] =>
    destruct (contains t (run_stdout probe)) end; cbn [negb]; steps;
    [to_last_tier Hb|].
  match goal with |- context [attempt _ ?a] => destruct a as [e|] end; steps;
    [to_last_tier Hb|].
  match goal with |- context [subprocess_run w ?c] => destruct (subprocess_run w c) as [e|c'] end;
    steps; [to_last_tier Hb|].
  destruct (run_returncode c' =? 0)%Z; steps; [|to_last_tier Hb].
  match goal with |- context [subprocess_Popen w ?c] => destruct (subprocess_Popen w c) as [e|p] end;
    steps; [to_last_tier Hb|].
  rewrite !bind_run.
  match goal with
  | |- context [ISOBuilder.read_output ?w' ?f ?m ?p' ?s'] =>
      destruct (@read_output_plain w' f m p' Hn s') as (_ & _ & Hr);
      destruct (ISOBuilder.read_output w' f m p' s') as [lres lout lfin];
      cbn [res out fin] in Hr |- *
  end.
  destruct lres as [[]|v|e]; [| exfalso; exact (Hr v eq_refl) | to_last_tier Hb].
  cbn [res out fin]. steps.
  destruct (returncode p =? 0)%Z; steps; to_last_tier Hb.
Qed.

(** The scripted tier never raises and always returns a value. *)
Lemma try_except_fallback_res (body : M unit) (h : exn -> M unit) s :
  (forall e s', exists v, res (h e s') = Returned v) ->
  (forall a, res (body s) <> Normal a) ->
  exists v, res (call (try_except any_exception body h) s) = Normal v.
Proof.
  intros Hh Hb. rewrite call_run, try_except_run.
  destruct (res (body s)) as [a|v|e] eqn:E; cbn [any_exception].
  - exfalso. exact (Hb a eq_refl).
  - rewrite E. cbn [res]. eauto.
  - cbn [prefix res]. destruct (Hh e (fin (body s))) as (v & ->). cbn [res]. eauto.
Qed.

Lemma returns_the_call (m : M (option bool)) s :
  (exists v, res (m s) = Normal v) ->
  exists v, res ((v <- m ;; @return_value unit v) s) = Returned v.
Proof. intros (v & Hv). rewrite bind_run, Hv. cbn [prefix res return_value]. eauto. Qed.

(** The [try] block of the last tier ends by [return] or by an exception. *)
Lemma basic_iso_body_exits w source_dir output_iso label s a :
  res (ISOBuilder._create_basic_iso_body w source_dir output_iso label s) <> Normal a.
Proof.
  unfold ISOBuilder._create_basic_iso_body, ISOBuilder.log. hide_strings. steps.
  match goal with |- context [attempt _ ?x] => destruct x end; steps;
    [finish; discriminate|].
  rewrite bind_run, try_finally_run. cbn [emit res out fin].
  match goal with
  | |- context [ISOBuilder.archive_tree ?w' ?sd ?s'] =>
      destruct (res (ISOBuilder.archive_tree w' sd s')) as [n|v|e]
  end; cbn [res out fin]; [|finish; discriminate..].
  steps.
  match goal with |- context [if ?b then _ else _] => destruct b end; steps.
  - match goal with |- context [attempt _ ?x] => destruct x end; steps;
      [finish; discriminate|].
    match goal with |- context [attempt _ ?x] => destruct x end; steps; finish; discriminate.
  - match goal with |- context [attempt _ ?x] => destruct x end; steps; finish; discriminate.
Qed.

(** The last tier always returns a value. *)
Lemma basic_iso_total w source_dir output_iso label s :
  exists v, res (ISOBuilder._create_basic_iso w source_dir output_iso label s) = Normal v.
Proof.
  unfold ISOBuilder._create_basic_iso, ISOBuilder.log. rewrite call_run. steps.
  cbn [prefix res]. rewrite try_except_run.
  match goal with
  | |- context [ISOBuilder._create_basic_iso_body ?w' ?a ?b ?c ?s'] =>
      pose proof (@basic_iso_body_exits w' a b c s') as Hex;
      destruct (ISOBuilder._create_basic_iso_body w' a b c s') as [bres bout bfin]
  end.
  cbn [res out fin] in *. destruct bres as [x|v|e]; cbn [any_exception res].
  - exfalso. exact (Hex x eq_refl).
  - eauto.
  - steps. finish. eauto.
Qed.

(** Finish a branch of the scripted tier: it does not run off its end. *)
Ltac exits Hb :=
  finish; steps; finish; first [discriminate | apply Hb].

Lemma powershell_body_exits w source_dir output_iso label s a :
  res (ISOBuilder._create_iso_with_powershell_body w source_dir output_iso label s) <> Normal a.
Proof.
  assert (Hb : forall s' a',
            res ((v <- ISOBuilder._create_basic_iso w source_dir output_iso label ;;
                  @return_value unit v) s') <> Normal a').
  { intros s' a'.
    destruct (returns_the_call (ISOBuilder._create_basic_iso w source_dir output_iso label) s'
                (basic_iso_total w source_dir output_iso label s')) as (v & ->). discriminate. }
  unfold ISOBuilder._create_iso_with_powershell_body,
    ISOBuilder.ensure_script, ISOBuilder.run_checked, ISOBuilder.run_cmd, ISOBuilder.spawn,
    ISOBuilder.log.
  revert Hb. generalize (ISOBuilder._create_basic_iso w source_dir output_iso label).
  intros last_tier Hb.
  hide_strings. steps.
  destruct (subprocess_run w ISOBuilder.check_cmd) as [e|probe]; steps; [exits Hb|].
  match goal with |- context [contains ?t (run_stdout probe)] =>
    destruct (contains t (run_stdout probe)) end; cbn [negb]; steps; [exits Hb|].
  match goal with |- context [attempt _ ?x] => destruct x as [e|] end; steps; [exits Hb|].
  match goal with |- context [subprocess_run w ?c] => destruct (subprocess_run w c) as [e|c'] end;
    steps; [exits Hb|].
  destruct (run_returncode c' =? 0)%Z; steps; [|exits Hb].
  match goal with |- context [subprocess_Popen w ?c] => destruct (subprocess_Popen w c) as [e|p] end;
    steps; [exits Hb|].
  rewrite bind_run.
  match goal with
  | |- context [ISOBuilder.read_output ?w' ?f ?m ?p' ?s'] =>
      destruct (ISOBuilder.read_output w' f m p' s') as [lres lout lfin]
  end.
  cbn [res out fin]. destruct lres as [[]|v|e]; [|exits Hb..].
  steps. destruct (returncode p =? 0)%Z; steps; exits Hb.
Qed.

(** The scripted tier always returns a value. *)
Lemma powershell_total w source_dir output_iso label s :
  exists v, res (ISOBuilder._create_iso_with_powershell w source_dir output_iso label s)
            = Normal v.
Proof.
  unfold ISOBuilder._create_iso_with_powershell. apply try_except_fallback_res.
  - intros e s'. unfold ISOBuilder.log. steps. cbn [prefix res].
    apply returns_the_call. apply basic_iso_total.
  - intro a. apply powershell_body_exits.
Qed.

(** With no masterer installed, [create_iso] logs, notes the absence, and
    runs the scripted tier, whose value it returns. *)
Lemma create_iso_scripted w source_dir output_iso label s :
  (forall p, In p (oscdimg_paths w) -> fs s p = false) ->
  out (ISOBuilder.create_iso w source_dir output_iso label s)
  = [ELog ("Creating ISO from " ++ source_dir ++ " to " ++ output_iso) None;
     ELog "oscdimg.exe not found on system. Using PowerShell fallback method." None]
    ++ out (ISOBuilder._create_iso_with_powershell w source_dir output_iso label s)
  /\ res (ISOBuilder.create_iso w source_dir output_iso label s)
     = res (ISOBuilder._create_iso_with_powershell w source_dir output_iso label s).
Proof.
  intros Habs.
  destruct (powershell_total w source_dir output_iso label s) as (v & Hv).
  pose proof (@find_oscdimg_absent w s Habs) as Hfind.
  unfold ISOBuilder.create_iso, ISOBuilder.log.
  revert Hv. generalize (ISOBuilder._create_iso_with_powershell w source_dir output_iso label).
  generalize (ISOBuilder._create_iso_with_oscdimg w).
  revert Hfind. generalize (ISOBuilder._find_oscdimg w).
  intros find Hfind native scripted Hv. hide_strings.
  rewrite call_run, try_except_run. steps. rewrite bind_run, Hfind.
  cbn [res out fin]. rewrite bind_run, Hv. finish. split; reflexivity.
Qed.

(** The scripted tier starts by probing for its helper. *)
Lemma powershell_starts_with_probe w source_dir output_iso label s :
  exists rest,
    out (ISOBuilder._create_iso_with_powershell w source_dir output_iso label s)
    = [ELog "Creating ISO with PowerShell..." None; ERun ISOBuilder.check_cmd] ++ rest.
Proof.
  unfold ISOBuilder._create_iso_with_powershell, ISOBuilder._create_iso_with_powershell_body,
    ISOBuilder.ensure_script, ISOBuilder.run_cmd, ISOBuilder.log.
  generalize (ISOBuilder._create_basic_iso w source_dir output_iso label).
  generalize (ISOBuilder.read_output w). generalize (ISOBuilder.run_checked w).
  generalize (ISOBuilder.spawn w).
  intros spawn run_checked read_output last_tier.
  rewrite call_run, try_except_run. steps. cbn [prefix res out fin].
  match goal with
  | |- context [res ?x] => destruct (res x) as [a|v|e]
  end; cbn [any_exception prefix res out fin app]; eexists; reflexivity.
Qed.

(** With no archiver installed, [extract_iso] logs and runs the
    mount-and-copy strategy, whose value it returns. *)
Lemma extract_iso_mounts w iso dir s :
  (forall p, In p (seven_zip_paths w) -> fs s p = false) ->
  out (ISOBuilder.extract_iso w iso dir s)
  = ELog ("Extracting ISO: " ++ iso ++ " to " ++ dir) None
    :: out (ISOBuilder._extract_with_windows_mount w iso dir s)
  /\ res (ISOBuilder.extract_iso w iso dir s)
     = res (ISOBuilder._extract_with_windows_mount w iso dir s).
Proof.
  intros Habs.
  destruct (mount_summary w iso dir s) as (b & pre & Hr & _). cbv zeta in Hr.
  unfold ISOBuilder.extract_iso, ISOBuilder._find_7zip, ISOBuilder.log.
  revert Hr. generalize (ISOBuilder._extract_with_windows_mount w iso dir).
  generalize (ISOBuilder._extract_with_7zip w).
  intros archiver mount Hr.
  rewrite call_run. steps. cbn [find].
  unfold seven_zip_paths in Habs.
  rewrite (Habs _ (or_introl eq_refl)), (Habs _ (or_intror (or_introl eq_refl))).
  steps. cbn [prefix res out fin]. rewrite bind_run, Hr. finish. split; reflexivity.
Qed.

Lemma read_output_no_raise w is_progress what p s e :
  stdout_error p = None ->
  res (ISOBuilder.read_output w is_progress what p s) <> Raised e.
Proof.
  intro Herr. unfold ISOBuilder.read_output. rewrite Herr.
  apply never_raises_bind; [|intros _ s' e'; discriminate].
  generalize (stdout_lines p). intro lines. induction lines as [|line lines IH].
  - intros s' e'. discriminate.
  - simpl. apply never_raises_bind; [|intros _; exact IH].
    intros s' e'. unfold ISOBuilder.log. steps.
    destruct (stop_flag w (polls s')); [steps; finish; discriminate|].
    destruct (truthy (strip line)); [|finish; discriminate].
    destruct (is_progress line); [|finish; discriminate].
    rewrite try_except_run.
    destruct (int_of_str (strip (split_head "%" line))); finish; discriminate.
Qed.

Lemma monitoring_not_zip e : monitoring e -> not_zip e.
Proof. destruct e as [| [] | | | | | | | | | | | | | | | | | | | |]; simpl; intro H;
  try contradiction; reflexivity. Qed.

(** When the scripted tier runs to a zero exit code, nothing is archived;
    and it returns [True] unless it was asked to stop. *)
Lemma scripted_no_archive w source_dir output_iso label s :
  scripted_succeeds w source_dir output_iso label s ->
  Forall not_zip (out (ISOBuilder._create_iso_with_powershell w source_dir output_iso label s))
  /\ (never_stopped w ->
      res (ISOBuilder._create_iso_with_powershell w source_dir output_iso label s)
      = Normal (Some true)).
Proof.
  intros (probe & p & Hprobe & Hnew & Hw & (c & Himp & Hc0) & Hpo & Herr & Hrc).
  unfold ISOBuilder._create_iso_with_powershell, ISOBuilder._create_iso_with_powershell_body,
    ISOBuilder.ensure_script, ISOBuilder.run_checked, ISOBuilder.run_cmd, ISOBuilder.spawn,
    ISOBuilder.log.
  generalize (ISOBuilder._create_basic_iso w source_dir output_iso label). intro last_tier.
  hide_strings.
  rewrite call_run, try_except_run. steps.
  rewrite Hprobe. steps. rewrite Hnew. cbn [negb]. steps. rewrite Hw. steps.
  rewrite Himp. steps. rewrite Hc0. cbn [Z.eqb]. steps. rewrite Hpo. steps.
  rewrite !bind_run.
  match goal with
  | |- context [ISOBuilder.read_output ?w' ?f ?m ?p' ?s'] =>
      pose proof (@read_output_halting w' f m p' s') as (_ & Hh);
      pose proof (fun Hn => @read_output_plain w' f m p' Hn s') as Hpl;
      pose proof (fun e => @read_output_no_raise w' f m p' s' e Herr) as Hnr;
      destruct (ISOBuilder.read_output w' f m p' s') as [lres lout lfin];
      cbn [res out fin] in Hh, Hpl, Hnr |- *
  end.
  destruct lres as [[]|v|e]; [| |exfalso; exact (Hnr e eq_refl)].
  - steps. rewrite Hrc. cbn [Z.eqb]. steps. finish.
    destruct Hh as [(Ho & _) | (pre & _ & _ & Hst)]; [|discriminate Hst].
    split; [|reflexivity].
    assert (Hz : Forall not_zip lout)
      by (eapply Forall_impl; [exact monitoring_not_zip | exact Ho]).
    all_in ltac:(reflexivity).
  - finish. split.
    + destruct Hh as [(Ho & Hr) | (pre & -> & Hpre & _)].
      * exfalso. exact (Hr v eq_refl).
      * assert (Hz : Forall not_zip pre)
          by (eapply Forall_impl; [exact monitoring_not_zip | exact Hpre]).
        all_in ltac:(reflexivity).
    + intro Hn. exfalso. destruct (Hpl Hn) as (_ & _ & Hr). exact (Hr v eq_refl).
Qed.

(** While nobody asks to stop and the directories can be made, a mounted
    image is copied to the end and the strategy returns [True]. *)
Lemma mount_copy_completes w iso dir d s :
  mounts w iso dir d -> directories_ok w -> never_stopped w ->
  res (ISOBuilder._extract_with_windows_mount w iso dir s) = Normal (Some true).
Proof.
  intros Hm Hdirs Hn. destruct (mount_trace s Hm) as (_ & Hr). cbv zeta in Hr. rewrite Hr.
  match goal with
  | |- context [for_fold ?xs ?acc (ISOBuilder.copy_dir ?w' ?t ?sp ?dd) ?s'] =>
      destruct (@copy_dirs_run w' t sp dd xs Hn Hdirs acc s') as ((c' & ->) & _)
  end.
  reflexivity.
Qed.

(* ================================================================== *)
(** * Claims about the cascade with no optional tool installed *)

(** C5, as the code has it.  With neither 7-Zip nor oscdimg installed:
    extraction is the mount-and-copy strategy; creation is the scripted
    (PowerShell) tier, which starts by probing for its helper; the raw
    archive is not written when the scripted tier runs to a zero exit
    code, so it is a fallback of the scripted tier, not the tier selected;
    and while nobody asks to stop, the directories can be made, the image
    mounts and the archive can be written, extraction and creation both
    return [True]. *)
Theorem cascade_without_tools w iso dir source_dir output_iso label s s' :
  no_tools w s -> no_tools w s' ->
  let x := ISOBuilder.extract_iso w iso dir s in
  let c := ISOBuilder.create_iso w source_dir output_iso label s' in
  (out x = ELog ("Extracting ISO: " ++ iso ++ " to " ++ dir) None
           :: out (ISOBuilder._extract_with_windows_mount w iso dir s)
   /\ res x = res (ISOBuilder._extract_with_windows_mount w iso dir s)) /\
  (exists rest,
     out c = [ELog ("Creating ISO from " ++ source_dir ++ " to " ++ output_iso) None;
              ELog "oscdimg.exe not found on system. Using PowerShell fallback method." None;
              ELog "Creating ISO with PowerShell..." None;
              ERun ISOBuilder.check_cmd] ++ rest) /\
  (scripted_succeeds w source_dir output_iso label s' -> Forall not_zip (out c)) /\
  (never_stopped w -> directories_ok w -> (exists d, mount_answers w iso d) ->
     res x = Normal (Some true)) /\
  (never_stopped w -> archive_ok w -> res c = Normal (Some true)).
Proof.
  intros (H7 & _) (_ & Hosc). cbv zeta.
  destruct (@extract_iso_mounts w iso dir s H7) as (Hxo & Hxr).
  destruct (@create_iso_scripted w source_dir output_iso label s' Hosc) as (Hco & Hcr).
  split; [split; assumption|]. split; [|split; [|split]].
  - destruct (powershell_starts_with_probe w source_dir output_iso label s') as (rest & Hp).
    exists rest. rewrite Hco, Hp. reflexivity.
  - intro Hs. rewrite Hco. destruct (scripted_no_archive Hs) as (Hz & _).
    all_in ltac:(reflexivity).
  - intros Hn (Hmk & Hrel) (d & Hd). rewrite Hxr.
    apply (@mount_copy_completes w iso dir d s); [split; [apply Hmk | exact Hd] | split; assumption | exact Hn].
  - intros Hn Hok. rewrite Hcr. apply powershell_ok; assumption.
Qed.

Lemma quiet_host_no_tools : no_tools Hosts.quiet_host Hosts.fresh.
Proof. split; intros p _; reflexivity. Qed.

Lemma cascade_without_tools_witness :
  no_tools Hosts.quiet_host Hosts.fresh /\
  exists rest,
    out (ISOBuilder.create_iso Hosts.quiet_host "D:\x" "D:\out.iso" "KALI_RTA" Hosts.fresh)
    = [ELog "Creating ISO from D:\x to D:\out.iso" None;
       ELog "oscdimg.exe not found on system. Using PowerShell fallback method." None;
       ELog "Creating ISO with PowerShell..." None;
       ERun ISOBuilder.check_cmd] ++ rest.
Proof.
  split; [exact quiet_host_no_tools|].
  exact (proj1 (proj2 (@cascade_without_tools Hosts.quiet_host "kali.iso" "D:\x" "D:\x"
                         "D:\out.iso" "KALI_RTA" Hosts.fresh Hosts.fresh
                         quiet_host_no_tools quiet_host_no_tools))).
Defined.

(** C5 as stated fails: no optional tool is installed, yet creation is
    done by the scripted tier: its PowerShell process is spawned, exits
    with 0, [create_iso] returns [True] and no archive is written. *)
Lemma scripted_tier_creates_without_archive :
  let r := ISOBuilder.create_iso Hosts.quiet_host "D:\x" "D:\out.iso" "KALI_RTA" Hosts.fresh in
  no_tools Hosts.quiet_host Hosts.fresh /\
  res r = Normal (Some true) /\
  existsb is_zip_event (out r) = false /\
  existsb (fun e => match e with EPopen (Line _) => true | _ => false end) (out r) = true /\
  In (ELog "ISO created successfully with PowerShell" None) (out r).
Proof.
  cbv zeta. split; [exact quiet_host_no_tools|]. vm_compute. repeat split.
  repeat first [left; reflexivity | right].
Qed.

(* ================================================================== *)
(** * [download_file] *)

Lemma report_progress_halting w has_callback count block_size total_size :
  halting calm [] true (ISOBuilder.report_progress w has_callback count block_size total_size).
Proof.
  unfold ISOBuilder.report_progress. apply halting_poll.
  - discriminate.
  - intro s. repeat split. simpl. eauto.
  - apply halting_of_plain. plain_auto; discriminate.
Qed.

(** The [try] block of [download_file]: it ends by [return True] after a
    complete transfer during which the flag was never seen set, or by an
    exception. *)
Lemma download_body_cases w url destination has_callback s :
  let body :=
    (attempt (EMakedirs (os_path_dirname w destination))
       (os_makedirs w (os_path_dirname w destination)) ;;
     ISOBuilder.retrieve w has_callback url destination ;;
     ISOBuilder.log ("Download completed to " ++ destination) None ;;
     @return_ unit true) in
  (res (body s) = Returned (Some true) /\ Forall calm (out (body s)) /\
   os_makedirs w (os_path_dirname w destination) = None /\
   open_error (urlretrieve w url destination) = None /\
   transfer_error (urlretrieve w url destination) = None)
  \/ exists e, res (body s) = Raised e.
Proof.
  cbv zeta. unfold ISOBuilder.retrieve, ISOBuilder.log.
  destruct (os_makedirs w (os_path_dirname w destination)) as [e|] eqn:Emk; steps;
    [right; finish; eauto|].
  destruct (open_error (urlretrieve w url destination)) as [e|] eqn:Eop; steps;
    [right; finish; eauto|].
  rewrite bind_run.
  match goal with
  | |- context [for_each ?xs ?body ?s'] =>
      pose proof (@halting_for_each calm [] true _ xs body
                    (fun c _ => report_progress_halting w has_callback
                                  (fst (fst c)) (snd (fst c)) (snd c)) s') as (_ & Hh);
      destruct (for_each xs body s') as [lres lout lfin];
      cbn [res out fin] in Hh |- *
  end.
  destruct Hh as [(Ho & Hr) | (pre & Ho & Hpre & (e & ->))]; [|right; finish; eauto].
  destruct lres as [[]|v|e]; [| exfalso; exact (Hr v eq_refl) | right; finish; eauto].
  cbn [res out fin]. steps.
  destruct (transfer_error (urlretrieve w url destination)) as [e|] eqn:Etr; steps;
    [right; finish; eauto|].
  left. finish. split; [reflexivity|]. split; [|auto].
  all_in ltac:(discriminate).
Qed.

(** The cleanup of [download_file]: it returns [False], and afterwards the
    destination does not exist unless removing it failed. *)
Lemma remove_partial_spec w destination e s :
  let r := ISOBuilder.remove_partial w destination e s in
  res r = Returned (Some false) /\
  (fs (fin r) destination = false
   \/ exists x, os_unlink w destination = Some x /\ In (EUnlink destination) (out r)).
Proof.
  cbv zeta. unfold ISOBuilder.remove_partial, ISOBuilder.log. steps.
  destruct (fs s destination) eqn:Efs.
  - rewrite bind_run, try_except_run. steps.
    destruct (os_unlink w destination) as [x|] eqn:Eul; steps;
      cbn [set_path prefix res out fin app]; steps; finish.
    + split; [reflexivity|]. right. exists x. split; [reflexivity|]. right. left. reflexivity.
    + split; [reflexivity|]. left. cbn [fs]. rewrite String.eqb_refl. reflexivity.
  - steps. finish. split; [reflexivity|]. left. exact Efs.
Qed.

(* ================================================================== *)
(** * Claims about [download_file] *)



(** A stop request seen by the report hook ends the download with [False];
    on a host where the file can be removed, it is removed. *)
Example cancelled_download_is_removed :
  let r := ISOBuilder.download_file Hosts.cancelled_transfer "http://mirror/kali.iso"
             "D:\out\kali.iso" false Hosts.fresh in
  In (EPoll true) (out r) /\ res r = Normal (Some false) /\
  In (ELog "Error downloading file: Download canceled by user" (Some 0%Z)) (out r) /\
  fs (fin r) "D:\out\kali.iso" = false.
Proof.
  cbv zeta. vm_compute. repeat split; repeat first [left; reflexivity | right].
Qed.

(* ================================================================== *)
(** * The build worker of [RTABuilderApp] *)

(** ** Laws of the two predicates *)

Lemma ends_true_return Q : ends_true Q (return_ true).
Proof. intro s. split; [reflexivity|]. left. split; [constructor | left; reflexivity]. Qed.

Lemma ends_true_bind Q A (m : M A) (k : A -> M unit) :
  halting Q [] false m -> (forall a, ends_true Q (k a)) -> ends_true Q (bind m k).
Proof.
  intros Hm Hk s. destruct (Hm s) as (Hd & Hc).
  rewrite res_bind, out_bind, fin_bind.
  destruct Hc as [(Ho & Hr) | (pre & Ho & Hpre & Hst)].
  - destruct (res (m s)) as [a|v|e] eqn:E.
    + destruct (Hk a (fin (m s))) as (Hd' & Hc'). split; [congruence|].
      destruct Hc' as [(Ho' & Hr') | (pre' & Ho' & Hpre' & Hr')].
      * left. split; [apply Forall_app; auto | exact Hr'].
      * right. exists (out (m s) ++ pre'). rewrite Ho', app_assoc.
        repeat split; [apply Forall_app; auto | exact Hr'].
    + exfalso. exact (Hr v eq_refl).
    + split; [exact Hd|]. left. split; [exact Ho | right; eauto].
  - cbn [stopped] in Hst. rewrite Hst. split; [exact Hd|]. right. exists pre. auto.
Qed.

Section StopsByRaise.

Variable Q : event -> Prop.
Variable P : exn -> Prop.

Lemma stops_of_plain A (m : M A) : plain Q m -> stops_by_raise Q P m.
Proof. intros H s. destruct (H s) as (Hd & Ho & Hr). split; [exact Hd | left; auto]. Qed.

Lemma stops_bind A B (m : M A) (k : A -> M B) :
  stops_by_raise Q P m -> (forall a, stops_by_raise Q P (k a)) -> stops_by_raise Q P (bind m k).
Proof.
  intros Hm Hk s. destruct (Hm s) as (Hd & Hc).
  rewrite res_bind, out_bind, fin_bind.
  destruct Hc as [(Ho & Hr) | (pre & e & Ho & Hpre & Hres & HP)].
  - destruct (res (m s)) as [a|v|e] eqn:E.
    + destruct (Hk a (fin (m s))) as (Hd' & Hc'). split; [congruence|].
      destruct Hc' as [(Ho' & Hr') | (pre' & e' & Ho' & Hpre' & Hres' & HP')].
      * left. split; [apply Forall_app; auto | exact Hr'].
      * right. exists (out (m s) ++ pre'), e'. rewrite Ho', app_assoc.
        repeat split; [apply Forall_app; auto | exact Hres' | exact HP'].
    + exfalso. exact (Hr v eq_refl).
    + split; [exact Hd|]. left. split; [exact Ho | discriminate].
  - rewrite Hres. split; [exact Hd|]. right. exists pre, e. auto.
Qed.

Lemma stops_bind_ret A B (a : A) (k : A -> M B) :
  stops_by_raise Q P (k a) -> stops_by_raise Q P (bind (ret a) k).
Proof. intros H s. rewrite bind_ret. apply H. Qed.

(** [if self.stop_build: raise ...] *)
Lemma stops_check_stop w :
  Q (EPoll false) -> P (mkExn Exception "Build process stopped by user") ->
  stops_by_raise Q P (RTABuilderApp.check_stop w).
Proof.
  intros HQ HP s. unfold RTABuilderApp.check_stop.
  rewrite bind_poll. destruct (stop_flag w (polls s)); cbn [prefix res out fin raise ret app].
  - split; [reflexivity|]. right. exists [], (mkExn Exception "Build process stopped by user").
    repeat split; [constructor | exact HP].
  - split; [reflexivity|]. left. split; [repeat constructor; exact HQ | discriminate].
Qed.

(** [if not self.method(..): raise e] *)
Lemma stops_call_check A (m : M unit) e (k : M A) :
  ends_true Q m -> P e -> stops_by_raise Q P k ->
  stops_by_raise Q P
    (v <- call m ;; (if negb (truth v) then raise e else ret tt) ;; k).
Proof.
  intros Hm HP Hk s. rewrite bind_run, call_run. cbn [res out fin].
  destruct (Hm s) as (Hd & [(Ho & [Hr | (e' & Hr)]) | (pre & Ho & Hpre & Hr)]); rewrite Hr.
  - cbn [truth negb]. rewrite bind_ret.
    destruct (Hk (fin (m s))) as (Hd' & Hc'). cbn [prefix res out fin].
    split; [congruence|].
    destruct Hc' as [(Ho' & Hr') | (pre' & e' & Ho' & Hpre' & Hres' & HP')].
    + left. split; [apply Forall_app; auto | exact Hr'].
    + right. exists (out (m s) ++ pre'), e'. rewrite Ho', app_assoc.
      repeat split; [apply Forall_app; auto | exact Hres' | exact HP'].
  - split; [exact Hd|]. left. split; [exact Ho | discriminate].
  - cbn [truth negb]. rewrite bind_raise. cbn [prefix res out fin].
    rewrite app_nil_r. split; [exact Hd|]. right. exists pre, e. auto.
Qed.

End StopsByRaise.

Ltac stops_step :=
  match goal with
  | |- stops_by_raise _ _ (bind (ret _) _) => apply stops_bind_ret
  | |- stops_by_raise _ _ (bind (call _) _) => apply stops_call_check
  | |- stops_by_raise _ _ (bind _ _) => apply stops_bind; [|intro]
  | |- stops_by_raise _ _ (RTABuilderApp.check_stop _) => apply stops_check_stop
  | |- stops_by_raise _ _ (ret _) => apply stops_of_plain, plain_ret
  | |- stops_by_raise _ _ (emit _) => apply stops_of_plain, plain_emit
  | |- stops_by_raise _ _ (attempt _ _) => apply stops_of_plain, plain_attempt
  | |- stops_by_raise _ _ (for_each _ _) =>
      apply stops_of_plain, plain_for_each; intros; plain_auto
  | |- stops_by_raise _ _ (if ?b then _ else _) => destruct b
  end.

(** ** The two simulated stages *)

Lemma time_sleep_plain globals : plain building (RTABuilderApp.time_sleep globals).
Proof.
  unfold RTABuilderApp.time_sleep.
  destruct (existsb (String.eqb "time") globals); [apply plain_emit; exact I | apply plain_raise].
Qed.

Lemma extract_iso_ends_true w globals extract_dir :
  ends_true building
    (RTABuilderApp.log "Mounting ISO image..." ;;
     for_each (seq 0 5) (fun i =>
       stop <- poll w ;;
       if stop then return_ false
       else
         RTABuilderApp.log ("Extracting files (step " ++ str_of_nat (i + 1) ++ "/5)...") ;;
         RTABuilderApp.time_sleep globals) ;;
     RTABuilderApp.makedirs w (os_path_join w [extract_dir; "live"]) ;;
     RTABuilderApp.makedirs w (os_path_join w [extract_dir; "boot"]) ;;
     RTABuilderApp.makedirs w (os_path_join w [extract_dir; "EFI"]) ;;
     return_ true).
Proof.
  unfold RTABuilderApp.log, RTABuilderApp.makedirs.
  apply ends_true_bind; [apply halting_of_plain, plain_emit; exact I | intros _].
  apply ends_true_bind; [|intros _].
  { apply halting_for_each. intros i _. apply halting_poll.
    - exact I.
    - intro s. repeat split.
    - apply halting_of_plain, plain_bind; [apply plain_emit; exact I|].
      intros _. apply time_sleep_plain. }
  repeat (apply ends_true_bind;
          [apply halting_of_plain, plain_attempt; exact I | intros _]).
  apply ends_true_return.
Qed.

Lemma rebuild_iso_ends_true w globals output_iso :
  ends_true building
    (RTABuilderApp.log "Preparing to rebuild ISO..." ;;
     for_each (seq 0 10) (fun i =>
       stop <- poll w ;;
       if stop then return_ false
       else
         RTABuilderApp.log ("Rebuilding ISO (step " ++ str_of_nat (i + 1) ++ "/"
                            ++ str_of_nat 10 ++ ")...") ;;
         RTABuilderApp.update_progress (50 + Z.of_nat i * 5)%Z ;;
         RTABuilderApp.time_sleep globals) ;;
     RTABuilderApp.write_file w output_iso ;;
     return_ true).
Proof.
  unfold RTABuilderApp.log, RTABuilderApp.write_file, RTABuilderApp.update_progress.
  apply ends_true_bind; [apply halting_of_plain, plain_emit; exact I | intros _].
  apply ends_true_bind; [|intros _].
  { apply halting_for_each. intros i Hi. apply in_seq in Hi. apply halting_poll.
    - exact I.
    - intro s. repeat split.
    - apply halting_of_plain, plain_bind; [apply plain_emit; exact I|].
      intros _. apply plain_bind; [apply plain_emit; unfold building; lia|].
      intros _. apply time_sleep_plain. }
  apply ends_true_bind; [apply halting_of_plain, plain_attempt; exact I | intros _].
  apply ends_true_return.
Qed.

(** ** The stages *)

Lemma step_weight_value key v :
  RTABuilderApp.lookup key RTABuilderApp.steps = Some v -> RTABuilderApp.step_weight key = ret v.
Proof. unfold RTABuilderApp.step_weight. intros ->. reflexivity. Qed.

(** The stages of a build never return; they read the flag set at most
    once, and then raise at once one of the three stop exceptions; before
    that no dialog is shown and every progress value is within 0..100. *)
Lemma build_stages_stop w globals j :
  stops_by_raise building stop_exception (RTABuilderApp.build_stages w globals j).
Proof.
  unfold RTABuilderApp.build_stages. cbv zeta.
  rewrite (@step_weight_value "extract_iso" 20 eq_refl),
          (@step_weight_value "copy_tools" 10 eq_refl),
          (@step_weight_value "customize" 10 eq_refl),
          (@step_weight_value "rebuild_iso" 50 eq_refl),
          (@step_weight_value "cleanup" 10 eq_refl).
  unfold RTABuilderApp._extract_iso, RTABuilderApp._rebuild_iso. cbv zeta.
  pose proof (extract_iso_ends_true w globals) as Hx.
  pose proof (rebuild_iso_ends_true w globals) as Hb.
  assert (Hs1 : stop_exception (mkExn Exception "Failed to extract ISO"))
    by (left; reflexivity).
  assert (Hs2 : stop_exception (mkExn Exception "Build process stopped by user"))
    by (right; left; reflexivity).
  assert (Hs3 : stop_exception (mkExn Exception "Failed to rebuild ISO"))
    by (right; right; left; reflexivity).
  unfold RTABuilderApp.log, RTABuilderApp.update_progress, RTABuilderApp.makedirs,
    RTABuilderApp.write_file.
  repeat stops_step;
    try first [ exact I | assumption | apply Hx | apply Hb | unfold building; lia ].
Qed.



(** ** The worker *)

(** The run of the worker: the stages, the report of their outcome, the
    buttons; the worker itself never raises. *)
Lemma build_thread_run w globals j s :
  let b := RTABuilderApp.build_stages w globals j s in
  res (RTABuilderApp._build_thread w globals j s) = Normal None /\
  out (RTABuilderApp._build_thread w globals j s) = out b ++ build_report (res b).
Proof.
  cbv zeta.
  assert (Hnr : forall v, res (RTABuilderApp.build_stages w globals j s) <> Returned v).
  { destruct (build_stages_stop w globals j s)
      as (_ & [(_ & Hr) | (pre & e & _ & _ & Hr & _)]); [exact Hr|].
    rewrite Hr. discriminate. }
  unfold RTABuilderApp._build_thread, RTABuilderApp._build_thread_body,
    RTABuilderApp.build_failed, RTABuilderApp.log, build_report.
  revert Hnr. generalize (RTABuilderApp.build_stages w globals j). intros stages Hnr.
  hide_strings.
  rewrite call_run, try_finally_run, try_except_run, (bind_run stages).
  destruct (res (stages s)) as [iso|v|e] eqn:E; cbv iota beta.
  - steps. finish. split; [reflexivity | list_eq].
  - exfalso. exact (Hnr v eq_refl).
  - steps. finish. split; [reflexivity | list_eq].
Qed.

Lemma building_shows_no_dialog evs :
  Forall building evs ->
  RTABuilderApp.error_dialogs evs = [] /\ RTABuilderApp.info_dialogs evs = []
  /\ ~ In (EPoll true) evs.
Proof.
  induction 1 as [|e evs He _ (IH1 & IH2 & IH3)]; [repeat split; auto|].
  unfold RTABuilderApp.error_dialogs, RTABuilderApp.info_dialogs in *.
  cbn [flat_map]. rewrite IH1, IH2.
  destruct e as [| [] | | | | | | | | | | | | | | | | | | | |];
    try contradiction; repeat split; try reflexivity;
    intros [Hin|Hin]; try discriminate; auto.
Qed.

Lemma building_progress evs :
  Forall building evs ->
  Forall (fun v => (0 <= v <= 100)%Z) (RTABuilderApp.progress_reports evs).
Proof.
  induction 1 as [|e evs He _ IH]; [constructor|].
  unfold RTABuilderApp.progress_reports in *. cbn [flat_map].
  destruct e; cbn [app]; try exact IH. constructor; [exact He | exact IH].
Qed.

Lemma report_has_no_progress A (o : outcome A) (f : outcome A -> outcome string) :
  RTABuilderApp.progress_reports (build_report (f o)) = [].
Proof. destruct (f o); reflexivity. Qed.

(* ================================================================== *)
(** * Claims about the build worker *)





(* ================================================================== *)
(** * The drive letters of a mask: [get_mounted_drives], [find_new_drive] *)

Lemma land_one (m : Z) : Z.land m 1 = Z.b2z (Z.testbit m 0).
Proof.
  change 1%Z with (Z.ones 1). rewrite Z.land_ones by lia.
  rewrite Z.bit0_mod. reflexivity.
Qed.

Lemma scan_letters a n acc m :
  fold_left scan_letter (seq a n) (acc, m)
  = ((acc ++ map chr (filter (fun l => Z.testbit m (Z.of_nat (l - a))) (seq a n)))%list,
     Z.shiftr m (Z.of_nat n)).
Proof.
  revert a acc m. induction n as [|n IH]; intros a acc m.
  - simpl. rewrite app_nil_r, Z.shiftr_0_r. reflexivity.
  - cbn [seq fold_left scan_letter]. rewrite IH, land_one.
    rewrite Z.shiftr_shiftr by lia.
    replace (1 + Z.of_nat n)%Z with (Z.of_nat (S n)) by lia.
    f_equal. cbn [filter]. rewrite Nat.sub_diag. change (Z.of_nat 0) with 0%Z.
    assert (Hf : filter (fun l => Z.testbit (Z.shiftr m 1) (Z.of_nat (l - S a))) (seq (S a) n)
                 = filter (fun l => Z.testbit m (Z.of_nat (l - a))) (seq (S a) n)).
    { apply filter_ext_in. intros l Hl. apply in_seq in Hl.
      rewrite Z.shiftr_spec by lia. f_equal. lia. }
    rewrite Hf. destruct (Z.testbit m 0); cbn [Z.b2z Z.eqb map].
    + rewrite <- app_assoc. reflexivity.
    + reflexivity.
Qed.

(** The loop computes the letters whose bit is set, in alphabetical order. *)
Lemma get_mounted_drives_filter mask :
  get_mounted_drives mask = map chr (filter (drive_bit mask) letters).
Proof.
  unfold get_mounted_drives, letters. rewrite scan_letters. reflexivity.
Qed.

Lemma chr_inj a b : (a < 256)%nat -> (b < 256)%nat -> chr a = chr b -> a = b.
Proof.
  intros Ha Hb H. injection H as H.
  rewrite <- (nat_ascii_embedding a Ha), <- (nat_ascii_embedding b Hb), H. reflexivity.
Qed.

Lemma letters_small l : In l letters -> (65 <= l < 91)%nat.
Proof. unfold letters. intro H. apply in_seq in H. lia. Qed.

Lemma drive_listed mask l :
  In l letters -> (In (chr l) (get_mounted_drives mask) <-> drive_bit mask l = true).
Proof.
  intro Hl. rewrite get_mounted_drives_filter, in_map_iff. split.
  - intros (l' & Hc & Hin). apply filter_In in Hin. destruct Hin as (Hl' & Hb).
    apply letters_small in Hl, Hl'. apply chr_inj in Hc; [subst; exact Hb | lia | lia].
  - intro Hb. exists l. split; [reflexivity|]. apply filter_In. auto.
Qed.

Lemma filter_map_filter A B (f : A -> B) (p : A -> bool) (q : B -> bool) (xs : list A) :
  filter q (map f (filter p xs)) = map f (filter (fun x => p x && q (f x)) xs).
Proof.
  induction xs as [|x xs IH]; [reflexivity|]. cbn [filter].
  destruct (p x); cbn [map filter andb]; [destruct (q (f x)); cbn [map]; rewrite IH|];
    auto.
Qed.

Lemma filter_eqb_seq_later x k b :
  (x < b)%nat -> filter (Nat.eqb x) (seq b k) = [].
Proof.
  revert b. induction k as [|k IH]; intros b Hb; [reflexivity|]. cbn [seq filter].
  destruct (Nat.eqb_spec x b); [lia|]. apply IH. lia.
Qed.

Lemma filter_eqb_seq x a n :
  (a <= x < a + n)%nat -> filter (Nat.eqb x) (seq a n) = [x].
Proof.
  revert a. induction n as [|n IH]; intros a H; [lia|].
  cbn [seq filter]. destruct (Nat.eqb_spec x a) as [->|Hne].
  - f_equal. apply filter_eqb_seq_later. lia.
  - apply IH. lia.
Qed.

Lemma seq_sorted a n : StronglySorted lt (seq a n).
Proof.
  revert a. induction n as [|n IH]; intro a; [constructor|].
  cbn [seq]. constructor; [apply IH|]. apply Forall_forall. intros y Hy.
  apply in_seq in Hy. lia.
Qed.

(** X1.  [get_mounted_drives]: a letter is listed exactly when its bit of
    the mask of logical drives is set (bit 0 is [A], bit 25 is [Z]), and
    nothing but these letters is listed. *)
Theorem mounted_drives_are_the_set_bits mask :
  (forall i, (i < 26)%nat ->
     (In (chr (65 + i)) (get_mounted_drives mask) <-> Z.testbit mask (Z.of_nat i) = true))
  /\ (forall d, In d (get_mounted_drives mask) ->
        exists i, (i < 26)%nat /\ d = chr (65 + i) /\ Z.testbit mask (Z.of_nat i) = true).
Proof.
  split.
  - intros i Hi.
    assert (Hl : In (65 + i)%nat letters) by (apply in_seq; lia).
    rewrite (drive_listed mask Hl). unfold drive_bit.
    replace (65 + i - 65)%nat with i by lia. reflexivity.
  - intros d Hd. rewrite get_mounted_drives_filter in Hd.
    apply in_map_iff in Hd. destruct Hd as (l & <- & Hin).
    apply filter_In in Hin. destruct Hin as (Hl & Hb). apply letters_small in Hl.
    exists (l - 65)%nat. split; [lia|]. split; [f_equal; lia | exact Hb].
Qed.

(** X2.  [get_mounted_drives] lists the drives in alphabetical order and
    each of them once: the list is the image of a strictly increasing list
    of letter codes, so it has no duplicate and at most 26 entries. *)
Theorem mounted_drives_are_ordered mask :
  (exists codes, get_mounted_drives mask = map chr codes
                 /\ StronglySorted lt codes /\ Forall (fun l => (65 <= l < 91)%nat) codes)
  /\ NoDup (get_mounted_drives mask)
  /\ (length (get_mounted_drives mask) <= 26)%nat.
Proof.
  rewrite get_mounted_drives_filter.
  assert (Hs : StronglySorted lt (filter (drive_bit mask) letters)).
  { assert (H : StronglySorted lt letters) by apply seq_sorted.
    induction H as [|a l Hl IH Ha]; [constructor|]. cbn [filter].
    destruct (drive_bit mask a); [|exact IH]. constructor; [exact IH|].
    apply Forall_forall. intros y Hy. apply filter_In in Hy.
    rewrite Forall_forall in Ha. apply Ha. tauto. }
  assert (Hb : Forall (fun l => (65 <= l < 91)%nat) (filter (drive_bit mask) letters)).
  { apply Forall_forall. intros l Hl. apply filter_In in Hl. apply letters_small. tauto. }
  split; [eauto|]. split.
  - revert Hb. induction Hs as [|a l Hl IH Ha]; intro Hb; [constructor|].
    cbn [map]. inversion Hb as [|? ? Hba Hbl]; subst. constructor; [|apply IH; exact Hbl].
    intro Hin. apply in_map_iff in Hin. destruct Hin as (y & Hc & Hy).
    rewrite Forall_forall in Ha, Hbl. specialize (Ha y Hy). specialize (Hbl y Hy).
    apply chr_inj in Hc; lia.
  - rewrite length_map. etransitivity; [apply filter_length_le|]. reflexivity.
Qed.

(** X3.  [find_new_drive] answers [None] exactly when every mounted drive
    was already in the original list; otherwise it answers the first
    mounted drive, in alphabetical order, that was not. *)
Theorem find_new_drive_is_first_new mask original_drives :
  (find_new_drive mask original_drives = None
   <-> forall d, In d (get_mounted_drives mask) -> In d original_drives)
  /\ (forall d, find_new_drive mask original_drives = Some d ->
        exists before after,
          get_mounted_drives mask = (before ++ d :: after)%list
          /\ ~ In d original_drives
          /\ forall d', In d' before -> In d' original_drives).
Proof.
  unfold find_new_drive. cbv zeta.
  assert (Hnot : forall d, not_in original_drives d = false <-> In d original_drives).
  { intro d. unfold not_in. rewrite negb_false_iff, existsb_exists. split.
    - intros (x & Hx & He). apply String.eqb_eq in He. subst. exact Hx.
    - intro H. exists d. split; [exact H | apply String.eqb_refl]. }
  generalize (get_mounted_drives mask). intro current. split.
  - induction current as [|c current IH]; cbn [filter].
    + split; [intros _ d [] | reflexivity].
    + destruct (not_in original_drives c) eqn:E.
      * split; [discriminate|]. intro H. exfalso.
        assert (Hc : In c original_drives) by (apply H; left; reflexivity).
        apply Hnot in Hc. congruence.
      * rewrite IH. apply Hnot in E. split.
        -- intros H d [<-|Hd]; auto.
        -- intros H d Hd. apply H. right. exact Hd.
  - induction current as [|c current IH]; cbn [filter]; intros d Hd; [discriminate|].
    destruct (not_in original_drives c) eqn:E.
    + injection Hd as <-. exists [], current. split; [reflexivity|]. split; [|intros ? []].
      intro Hc. apply Hnot in Hc. congruence.
    + destruct (IH d Hd) as (before & after & -> & Hn & Hb).
      exists (c :: before), after. split; [reflexivity|]. split; [exact Hn|].
      intros d' [<-|Hd']; [apply Hnot; exact E | auto].
Qed.

(** X4.  Detecting a mount: when the drives are listed, one new drive
    appears (a bit of the mask that was clear is set) and nothing else
    changes, [find_new_drive] answers the letter of that drive. *)
Theorem new_drive_is_found mask i :
  (i < 26)%nat -> Z.testbit mask (Z.of_nat i) = false ->
  find_new_drive (Z.lor mask (Z.shiftl 1 (Z.of_nat i))) (get_mounted_drives mask)
  = Some (chr (65 + i)).
Proof.
  intros Hi Hclear. unfold find_new_drive. cbv zeta.
  rewrite (get_mounted_drives_filter (Z.lor _ _)), filter_map_filter.
  assert (Hf : filter (fun l => drive_bit (Z.lor mask (Z.shiftl 1 (Z.of_nat i))) l
                                && not_in (get_mounted_drives mask) (chr l)) letters
               = filter (Nat.eqb (65 + i)) letters).
  { apply filter_ext_in. intros l Hl.
    assert (Hin : not_in (get_mounted_drives mask) (chr l) = negb (drive_bit mask l)).
    { unfold not_in. f_equal. apply eq_true_iff_eq.
      rewrite existsb_exists, <- (drive_listed mask Hl). split.
      - intros (x & Hx & He). apply String.eqb_eq in He. subst. exact Hx.
      - intro H. exists (chr l). split; [exact H | apply String.eqb_refl]. }
    rewrite Hin. apply letters_small in Hl. unfold drive_bit.
    rewrite Z.lor_spec, Z.shiftl_spec by lia.
    destruct (Nat.eqb_spec (65 + i) l) as [<-|Hne].
    - replace (65 + i - 65)%nat with i by lia. rewrite Hclear, Z.sub_diag. reflexivity.
    - destruct (Z.testbit mask (Z.of_nat (l - 65))) eqn:E; [reflexivity|].
      cbn [orb negb andb]. rewrite andb_true_r.
      destruct (Z.ltb_spec (Z.of_nat (l - 65)) (Z.of_nat i)).
      + apply Z.testbit_neg_r. lia.
      + replace (Z.of_nat (l - 65) - Z.of_nat i)%Z with (Z.of_nat (l - 65 - i)) by lia.
        destruct (l - 65 - i)%nat as [|k] eqn:Ek; [lia|].
        change 1%Z with (Z.ones 1). apply Z.ones_spec_high. lia. }
  rewrite Hf. unfold letters. rewrite filter_eqb_seq by lia. reflexivity.
Qed.

Lemma new_drive_is_found_witness :
  find_new_drive (Z.lor 12 (Z.shiftl 1 (Z.of_nat 4))) (get_mounted_drives 12) = Some "E".
Proof. apply (@new_drive_is_found 12 4); [lia | reflexivity]. Defined.

(* ================================================================== *)
(** * The launcher: [check_dependencies] *)

Lemma check_packages_spec import_module find_spec packages missing_packages :
  rta_builder_launcher.check_packages import_module find_spec packages missing_packages
  = match first_failure import_module find_spec packages with
    | Some e => inl e
    | None => inr (missing_packages
                   ++ filter (is_missing import_module find_spec) packages)%list
    end.
Proof.
  revert missing_packages. induction packages as [|package rest IH]; intro missing_packages.
  - simpl. rewrite app_nil_r. reflexivity.
  - cbn [rta_builder_launcher.check_packages first_failure filter].
    unfold is_missing at 1, probe_of at 1 2.
    destruct (package =? "tkinter")%string.
    + destruct (import_module package); rewrite ?IH; try reflexivity.
      destruct (first_failure import_module find_spec rest); [reflexivity|].
      rewrite <- app_assoc. reflexivity.
    + destruct (find_spec package); rewrite ?IH; try reflexivity;
        (destruct (first_failure import_module find_spec rest); [reflexivity|]);
        rewrite <- app_assoc; reflexivity.
Qed.

Lemma filter_none A (f : A -> bool) (l : list A) :
  (forall x, In x l -> f x = false) -> filter f l = [].
Proof.
  induction l as [|x l IH]; intro H; [reflexivity|].
  cbn [filter]. rewrite (H x) by (left; reflexivity).
  apply IH. intros y Hy. apply H. right. exact Hy.
Qed.

(** X5.  [check_dependencies] answers exactly the required packages that
    are missing, each once and in the order of [REQUIRED_PACKAGES]; a probe
    that raises anything but [ImportError] ends the check with that
    exception, the first such probe deciding. *)
Theorem check_dependencies_lists_missing import_module find_spec :
  rta_builder_launcher.check_dependencies import_module find_spec
  = match first_failure import_module find_spec rta_builder_launcher.REQUIRED_PACKAGES with
    | Some e => inl e
    | None => inr (filter (is_missing import_module find_spec)
                     rta_builder_launcher.REQUIRED_PACKAGES)
    end.
Proof.
  unfold rta_builder_launcher.check_dependencies. rewrite check_packages_spec. reflexivity.
Qed.

(** X6.  When no probe raises anything but [ImportError], the check lists
    no package twice, lists only required packages, and lists none exactly
    when every required package is there. *)
Theorem check_dependencies_is_sound import_module find_spec :
  first_failure import_module find_spec rta_builder_launcher.REQUIRED_PACKAGES = None ->
  exists missing,
    rta_builder_launcher.check_dependencies import_module find_spec = inr missing
    /\ NoDup missing
    /\ incl missing rta_builder_launcher.REQUIRED_PACKAGES
    /\ (missing = [] <->
        forall p, In p rta_builder_launcher.REQUIRED_PACKAGES ->
                  is_missing import_module find_spec p = false).
Proof.
  intro Hnone. unfold rta_builder_launcher.check_dependencies.
  rewrite check_packages_spec, Hnone. eexists. split; [reflexivity|]. cbn [app].
  split; [|split].
  - apply NoDup_filter. unfold rta_builder_launcher.REQUIRED_PACKAGES.
    repeat (constructor; [cbn [In]; intuition discriminate|]). constructor.
  - intros p Hp. apply filter_In in Hp. tauto.
  - split.
    + intros Hnil p Hp. destruct (is_missing import_module find_spec p) eqn:E; [|reflexivity].
      exfalso. assert (Hin : In p (filter (is_missing import_module find_spec)
                                     rta_builder_launcher.REQUIRED_PACKAGES))
        by (apply filter_In; auto).
      rewrite Hnil in Hin. exact Hin.
    + apply filter_none.
Qed.

Lemma check_dependencies_is_sound_witness :
  exists missing,
    rta_builder_launcher.check_dependencies
      (fun _ => rta_builder_launcher.Loaded)
      (fun p => if (p =? "pywin32")%string then rta_builder_launcher.NoSpec
                else rta_builder_launcher.Loaded) = inr missing
    /\ NoDup missing.
Proof.
  destruct (@check_dependencies_is_sound
              (fun _ => rta_builder_launcher.Loaded)
              (fun p => if (p =? "pywin32")%string then rta_builder_launcher.NoSpec
                        else rta_builder_launcher.Loaded) eq_refl)
    as (missing & H & Hn & _).
  exists missing. auto.
Defined.

(* ================================================================== *)
(** * The placeholder conversions: [convert_to_vhd], [convert_to_ami] *)

(** [int((i / total_steps) * 100)] for the five steps. *)
Lemma conversion_percent i :
  (i < 5)%nat ->
  int_of_float (PrimFloat.mul (truediv (Z.of_nat i) (Z.of_nat 5)) (float_of_Z 100))
  = (Z.of_nat i * 20)%Z.
Proof.
  intro H. do 5 (destruct i as [|i]; [vm_compute; reflexivity|]). lia.
Qed.

(** A loop of guarded steps: it ends at the first read that finds the flag
    set, or runs through. *)
Lemma guarded_steps_run w (step : nat -> event) xs s :
  let r := for_each xs (fun i =>
             stop <- poll w ;;
             if stop then return_ false else emit (step i) ;; emit ESleep) s in
  let steps_of l := flat_map (fun i => [EPoll false; step i; ESleep]) l in
  exists n,
    ((n < length xs)%nat /\ res r = Returned (Some false)
     /\ out r = (steps_of (firstn n xs) ++ [EPoll true])%list)
    \/ (n = length xs /\ res r = Normal tt /\ out r = steps_of xs).
Proof.
  cbv zeta. revert s. induction xs as [|x xs IH]; intro s.
  - exists 0%nat. right. repeat split.
  - cbn [for_each]. rewrite bind_bind, bind_poll. cbv beta.
    destruct (stop_flag w (polls s)).
    + exists 0%nat. left. rewrite bind_return_.
      cbn [prefix res out fin length firstn flat_map app].
      split; [lia|]. split; reflexivity.
    + rewrite bind_bind, bind_emit. cbv beta. rewrite bind_emit.
      cbn [prefix res out fin app].
      destruct (IH (mkSt (S (polls s)) (fs s) (drive_letter s))) as (n & H).
      destruct H as [(Hn & Hr & Ho) | (-> & Hr & Ho)].
      * exists (S n). left. rewrite Hr, Ho. cbn [res out length firstn flat_map app].
        split; [lia|]. split; reflexivity.
      * exists (S (length xs)). right. rewrite Hr, Ho. cbn [res out length flat_map app].
        repeat split.
Qed.

(** Five guarded steps, then a file is written: the shape both
    conversions have. *)
Lemma five_steps_run w (start : event) (step : nat -> event) (done : event) path s :
  let r := call (emit start ;;
                 for_each (seq 0 5) (fun i =>
                   stop <- poll w ;;
                   if stop then return_ false else emit (step i) ;; emit ESleep) ;;
                 attempt (EWriteFile path) (open_write w path) ;;
                 emit done ;;
                 return_ true) s in
  let steps_of n := flat_map (fun i => [EPoll false; step i; ESleep]) (seq 0 n) in
  exists n,
    ((n < 5)%nat /\ res r = Normal (Some false)
     /\ out r = (start :: steps_of n ++ [EPoll true])%list)
    \/ (n = 5%nat /\
        match open_write w path with
        | None => res r = Normal (Some true)
                  /\ out r = (start :: steps_of 5%nat ++ [EWriteFile path; done])%list
        | Some e => res r = Raised e
                    /\ out r = (start :: steps_of 5%nat ++ [EWriteFile path])%list
        end).
Proof.
  cbv zeta. rewrite call_run, bind_emit, bind_run.
  destruct (guarded_steps_run w step (seq 0 5) s) as (n & H). cbv zeta in H.
  rewrite length_seq in H. exists n.
  destruct H as [(Hn & Hr & Ho) | (-> & Hr & Ho)]; rewrite Hr, Ho.
  - left. cbn [prefix res out fin app]. split; [exact Hn|]. split; [reflexivity|].
    do 2 f_equal. do 5 (destruct n as [|n]; [reflexivity|]). lia.
  - right. split; [reflexivity|].
    destruct (open_write w path); steps; finish; split; reflexivity.
Qed.

Lemma flat_map_agree A B (f g : A -> list B) (l : list A) :
  (forall a, In a l -> f a = g a) -> flat_map f l = flat_map g l.
Proof.
  induction l as [|a l IH]; intro H; [reflexivity|].
  cbn [flat_map]. rewrite (H a) by (left; reflexivity). f_equal.
  apply IH. intros b Hb. apply H. right. exact Hb.
Qed.

Lemma conversion_steps_percent kind n :
  (n <= 5)%nat ->
  flat_map (fun i =>
    [EPoll false;
     ELog (kind ++ " conversion step " ++ str_of_nat (i + 1) ++ "/" ++ str_of_nat 5 ++ "...")
          (Some (int_of_float
                   (PrimFloat.mul (truediv (Z.of_nat i) (Z.of_nat 5)) (float_of_Z 100))));
     ESleep]) (seq 0 n)
  = conversion_steps kind n.
Proof.
  intro Hn. unfold conversion_steps. apply flat_map_agree. intros i Hi. apply in_seq in Hi.
  rewrite conversion_percent by lia. reflexivity.
Qed.

(** X7.  [convert_to_vhd] reads the stop flag before each of its five
    steps.  At the first read that finds the flag set it returns [False]
    and writes no file.  Otherwise it logs the steps with the progress
    values 0, 20, 40, 60 and 80, sleeps after each, writes the file, and
    returns [True]; if the file cannot be opened, the exception of [open]
    reaches the caller. *)
Theorem convert_to_vhd_run w iso_path vhd_path s :
  exists n, conversion_run w "VHD" iso_path vhd_path n
              (ISOBuilder.convert_to_vhd w iso_path vhd_path s).
Proof.
  destruct (five_steps_run w
              (ELog ("Converting " ++ iso_path ++ " to VHD format at " ++ vhd_path) None)
              (fun i => ELog ("VHD conversion step " ++ str_of_nat (i + 1) ++ "/"
                              ++ str_of_nat 5 ++ "...")
                          (Some (int_of_float
                                   (PrimFloat.mul (truediv (Z.of_nat i) (Z.of_nat 5))
                                      (float_of_Z 100)))))
              (ELog ("VHD conversion completed to " ++ vhd_path) None) vhd_path s)
    as (n & H).
  cbv zeta in H. exists n. unfold conversion_run.
  destruct H as [(Hn & Hr & Ho) | (-> & H)].
  - left. rewrite <- conversion_steps_percent by lia. auto.
  - right. split; [reflexivity|]. rewrite <- conversion_steps_percent by lia. exact H.
Qed.

(** X8.  [convert_to_ami] behaves in the same way: a read of the stop
    flag before each of five steps, [False] and no file at the first read
    that finds it set, otherwise the progress values 0, 20, 40, 60, 80,
    the file, and [True] (or the exception of [open]). *)
Theorem convert_to_ami_run w iso_path ami_path s :
  exists n, conversion_run w "AMI" iso_path ami_path n
              (ISOBuilder.convert_to_ami w iso_path ami_path s).
Proof.
  destruct (five_steps_run w
              (ELog ("Converting " ++ iso_path ++ " to AMI format at " ++ ami_path) None)
              (fun i => ELog ("AMI conversion step " ++ str_of_nat (i + 1) ++ "/"
                              ++ str_of_nat 5 ++ "...")
                          (Some (int_of_float
                                   (PrimFloat.mul (truediv (Z.of_nat i) (Z.of_nat 5))
                                      (float_of_Z 100)))))
              (ELog ("AMI conversion completed to " ++ ami_path) None) ami_path s)
    as (n & H).
  cbv zeta in H. exists n. unfold conversion_run.
  destruct H as [(Hn & Hr & Ho) | (-> & H)].
  - left. rewrite <- conversion_steps_percent by lia. auto.
  - right. split; [reflexivity|]. rewrite <- conversion_steps_percent by lia. exact H.
Qed.

(* ================================================================== *)
(** * More about the build worker *)

(** A loop whose body always runs to its end issues what its passes issue. *)
Lemma for_each_trace X (xs : list X) (body : X -> M unit) (f : X -> list event) :
  (forall x s, In x xs -> res (body x s) = Normal tt /\ out (body x s) = f x) ->
  forall s, res (for_each xs body s) = Normal tt /\ out (for_each xs body s) = flat_map f xs.
Proof.
  induction xs as [|x xs IH]; intros H s; cbn [for_each flat_map].
  - split; reflexivity.
  - rewrite res_bind, out_bind. destruct (H x s (or_introl eq_refl)) as (-> & ->).
    destruct (IH (fun y s' Hy => H y s' (or_intror Hy)) (fin (body x s))) as (-> & ->).
    split; reflexivity.
Qed.

(** [if b: self.log(..)] *)
Lemma bind_optional_emit B (b : bool) e (k : unit -> M B) s :
  bind (if b then emit e else ret tt) k s = prefix (if b then [e] else []) (k tt s).
Proof. destruct b; [apply bind_emit | rewrite bind_ret, prefix_nil; reflexivity]. Qed.

Lemma progress_reports_app a b :
  RTABuilderApp.progress_reports (a ++ b)
  = (RTABuilderApp.progress_reports a ++ RTABuilderApp.progress_reports b)%list.
Proof. apply flat_map_app. Qed.

Section TimeBound.

Variable w : world.
Variable globals : list string.
Variable j : RTABuilderApp.job.

Hypothesis time_bound : existsb (String.eqb "time") globals = true.
Hypothesis nobody_stops : never_stopped w.
Hypothesis makedirs_ok : forall p, os_makedirs w p = None.
Hypothesis open_ok : forall p, open_write w p = None.

Lemma extract_iso_straight iso extract_dir s :
  res (RTABuilderApp._extract_iso w globals iso extract_dir s) = Normal (Some true)
  /\ RTABuilderApp.progress_reports
       (out (RTABuilderApp._extract_iso w globals iso extract_dir s)) = [].
Proof.
  unfold RTABuilderApp._extract_iso, RTABuilderApp.log, RTABuilderApp.makedirs,
    RTABuilderApp.time_sleep.
  rewrite time_bound, !makedirs_ok, call_run, bind_emit, bind_run.
  match goal with
  | |- context [for_each ?xs ?body ?s'] =>
      destruct (@for_each_trace _ xs body
                  (fun i => [EPoll false;
                             ELogger "INFO" ("Extracting files (step " ++ str_of_nat (i + 1)
                                             ++ "/5)...");
                             ESleep]) ) with (s := s') as (Hr & Ho)
  end.
  { intros i s' _. rewrite bind_poll, nobody_stops, bind_emit.
    split; reflexivity. }
  rewrite Hr, Ho. steps. finish. split; reflexivity.
Qed.

Lemma rebuild_iso_straight source_dir output_iso s :
  res (RTABuilderApp._rebuild_iso w globals source_dir output_iso s) = Normal (Some true)
  /\ RTABuilderApp.progress_reports
       (out (RTABuilderApp._rebuild_iso w globals source_dir output_iso s))
     = [50; 55; 60; 65; 70; 75; 80; 85; 90; 95]%Z.
Proof.
  unfold RTABuilderApp._rebuild_iso, RTABuilderApp.log, RTABuilderApp.write_file,
    RTABuilderApp.update_progress, RTABuilderApp.time_sleep.
  cbv zeta. rewrite time_bound, open_ok, call_run, bind_emit, bind_run.
  match goal with
  | |- context [for_each ?xs ?body ?s'] =>
      destruct (@for_each_trace _ xs body
                  (fun i => [EPoll false;
                             ELogger "INFO" ("Rebuilding ISO (step " ++ str_of_nat (i + 1) ++ "/"
                                             ++ str_of_nat 10 ++ ")...");
                             EProgress (50 + Z.of_nat i * 5)%Z;
                             ESleep]) ) with (s := s') as (Hr & Ho)
  end.
  { intros i s' _. rewrite bind_poll, nobody_stops. steps. finish.
    split; reflexivity. }
  rewrite Hr, Ho. steps. finish. split; reflexivity.
Qed.

Lemma tools_loop_straight (tools : list string) (body : string -> M unit) s :
  (forall tool s', res (body tool s') = Normal tt
                   /\ RTABuilderApp.progress_reports (out (body tool s')) = []) ->
  res (for_each tools body s) = Normal tt
  /\ RTABuilderApp.progress_reports (out (for_each tools body s)) = [].
Proof.
  intro Hbody. revert s. induction tools as [|t tools IH]; intro s; cbn [for_each].
  - split; reflexivity.
  - rewrite res_bind, out_bind. destruct (Hbody t s) as (Hr & Ho). rewrite Hr.
    destruct (IH (fin (body t s))) as (Hr' & Ho').
    rewrite progress_reports_app, Ho, Ho'. split; [exact Hr' | reflexivity].
Qed.

(** With [time] bound and nothing failing, the stages run to their end;
    the progress falls back from 95 to 90 when the rebuild stage is
    accounted for. *)
Lemma build_stages_straight s :
  let b := RTABuilderApp.build_stages w globals j s in
  (exists output_iso, res b = Normal output_iso) /\
  RTABuilderApp.progress_reports (out b)
  = [0; 20; 30; 40; 50; 55; 60; 65; 70; 75; 80; 85; 90; 95; 90; 100]%Z.
Proof.
  cbv zeta. unfold RTABuilderApp.build_stages. cbv zeta.
  rewrite (@step_weight_value "extract_iso" 20 eq_refl),
          (@step_weight_value "copy_tools" 10 eq_refl),
          (@step_weight_value "customize" 10 eq_refl),
          (@step_weight_value "rebuild_iso" 50 eq_refl),
          (@step_weight_value "cleanup" 10 eq_refl).
  unfold RTABuilderApp.check_stop, RTABuilderApp.log, RTABuilderApp.update_progress,
    RTABuilderApp.makedirs, RTABuilderApp.write_file.
  pose proof (fun iso dir s' => extract_iso_straight iso dir s') as Hx.
  pose proof (fun dir iso s' => rebuild_iso_straight dir iso s') as Hb.
  revert Hx Hb.
  generalize (RTABuilderApp._extract_iso w globals).
  generalize (RTABuilderApp._rebuild_iso w globals).
  intros rebuild extract Hx Hb.
  rewrite !makedirs_ok, !open_ok.
  hide_strings. steps.
  rewrite bind_run.
  match goal with
  | |- context [extract ?a ?b ?s'] => destruct (Hx a b s') as (Hxr & Hxo); rewrite Hxr
  end.
  cbv iota beta. cbn [truth negb]. steps. rewrite nobody_stops. steps.
  rewrite bind_run.
  match goal with
  | |- context [for_each ?xs ?body ?s'] =>
      destruct (@tools_loop_straight xs body s') as (Htr & Hto)
  end.
  { intros tool s'. cbv beta. rewrite makedirs_ok, open_ok. steps. finish.
    split; reflexivity. }
  rewrite Htr. cbv iota beta. steps. rewrite nobody_stops. steps.
  unfold RTABuilderApp.progress_reports in *.
  rewrite bind_optional_emit. steps. rewrite nobody_stops. steps.
  rewrite bind_run.
  match goal with
  | |- context [rebuild ?a ?b ?s'] => destruct (Hb a b s') as (Hbr & Hbo); rewrite Hbr
  end.
  cbv iota beta. cbn [truth negb]. steps.
  rewrite bind_optional_emit. steps. rewrite bind_optional_emit. steps.
  finish. split; [eauto|].
  repeat (cbn [flat_map app]; rewrite ?flat_map_app).
  rewrite ?Hxo, ?Hto, ?Hbo.
  destruct (RTABuilderApp.enable_branding j), (RTABuilderApp.vhd_format j),
    (RTABuilderApp.ami_format j); reflexivity.
Qed.

End TimeBound.

Lemma sorted_adjacent (a : list Z) x y b :
  StronglySorted Z.le (a ++ x :: y :: b) -> (x <= y)%Z.
Proof.
  induction a as [|z a IH]; cbn [app]; intro H; apply StronglySorted_inv in H.
  - destruct H as (_ & H). apply Forall_inv in H. exact H.
  - apply IH. tauto.
Qed.

Lemma stages_show_no_dialog w globals j s :
  RTABuilderApp.error_dialogs (out (RTABuilderApp.build_stages w globals j s)) = []
  /\ RTABuilderApp.info_dialogs (out (RTABuilderApp.build_stages w globals j s)) = []
  /\ Forall (fun v => (0 <= v <= 100)%Z)
       (RTABuilderApp.progress_reports (out (RTABuilderApp.build_stages w globals j s)))
  /\ forall v, res (RTABuilderApp.build_stages w globals j s) <> Returned v.
Proof.
  destruct (build_stages_stop w globals j s)
    as (_ & [(Ho & Hr) | (pre & e & Ho & Hpre & Hr & _)]).
  - destruct (building_shows_no_dialog Ho) as (He & Hi & _).
    repeat split; auto. apply building_progress. exact Ho.
  - destruct (building_shows_no_dialog Hpre) as (He & Hi & _).
    rewrite Ho, Hr. unfold RTABuilderApp.error_dialogs, RTABuilderApp.info_dialogs in *.
    rewrite progress_reports_app, !flat_map_app, He, Hi.
    change (RTABuilderApp.progress_reports [EPoll true]) with (@nil Z).
    rewrite !app_nil_r.
    repeat split; try discriminate. apply building_progress. exact Hpre.
Qed.

(** X9.  Whatever the module binds and whatever the host answers, every
    value the worker hands to the progress bar lies within 0..100. *)
Theorem progress_within_bar w globals j s :
  Forall (fun v => (0 <= v <= 100)%Z)
    (RTABuilderApp.progress_reports (out (RTABuilderApp._build_thread w globals j s))).
Proof.
  destruct (build_thread_run w globals j s) as (_ & ->).
  destruct (stages_show_no_dialog w globals j s) as (_ & _ & Hp & _).
  rewrite progress_reports_app, (report_has_no_progress _ (fun o => o)), app_nil_r.
  exact Hp.
Qed.



(** X12.  Were [time] bound, on a host where nothing fails and nobody asks
    to stop, the build would complete, and the progress values would not be
    monotone: the rebuild stage reports 50, 55, .., 95 and the worker then
    reports the completed weight, 90. *)
Theorem progress_dips_once_time_is_bound w globals j s :
  existsb (String.eqb "time") globals = true ->
  never_stopped w ->
  (forall p, os_makedirs w p = None) ->
  (forall p, open_write w p = None) ->
  let r := RTABuilderApp._build_thread w globals j s in
  RTABuilderApp.progress_reports (out r)
  = [0; 20; 30; 40; 50; 55; 60; 65; 70; 75; 80; 85; 90; 95; 90; 100]%Z /\
  RTABuilderApp.error_dialogs (out r) = [] /\
  length (RTABuilderApp.info_dialogs (out r)) = 1%nat /\
  ~ StronglySorted Z.le (RTABuilderApp.progress_reports (out r)).
Proof.
  intros Ht Hn Hmk Hop. cbv zeta.
  destruct (build_thread_run w globals j s) as (_ & ->).
  destruct (@build_stages_straight w globals j Ht Hn Hmk Hop s) as ((iso & Hr) & Hp). cbv zeta in Hp.
  destruct (stages_show_no_dialog w globals j s) as (He & Hi & _).
  rewrite Hr. unfold RTABuilderApp.error_dialogs, RTABuilderApp.info_dialogs in *.
  rewrite progress_reports_app, !flat_map_app, Hp, He, Hi.
  split; [reflexivity|]. split; [reflexivity|]. split; [reflexivity|].
  cbn [build_report RTABuilderApp.progress_reports flat_map app].
  intro Hs.
  apply (@sorted_adjacent [0; 20; 30; 40; 50; 55; 60; 65; 70; 75; 80; 85; 90]%Z
           95%Z 90%Z [100%Z]) in Hs. lia.
Qed.

Lemma progress_dips_once_time_is_bound_witness :
  let r := RTABuilderApp._build_thread Hosts.quiet_host
             ("time" :: RTABuilderApp.module_imports) Hosts.job0 Hosts.fresh in
  RTABuilderApp.progress_reports (out r)
  = [0; 20; 30; 40; 50; 55; 60; 65; 70; 75; 80; 85; 90; 95; 90; 100]%Z.
Proof.
  exact (proj1 (@progress_dips_once_time_is_bound Hosts.quiet_host
                  ("time" :: RTABuilderApp.module_imports) Hosts.job0 Hosts.fresh
                  eq_refl (fun _ => eq_refl) (fun _ => eq_refl) (fun _ => eq_refl))).
Defined.

(** X13.  [validate_inputs] never raises.  It returns [True] exactly when
    an ISO path is given and exists, the output folder can be made, and a
    tool is ticked or the user chose to go on without one.  It shows an
    error dialog exactly for a bad ISO path or an output folder that
    cannot be made, and does not touch the output folder when the ISO path
    is bad. *)
Theorem validate_inputs_accepts w j askyesno s :
  let r := RTABuilderApp.validate_inputs w j askyesno s in
  let iso_ok := truthy (RTABuilderApp.iso_path j) && fs s (RTABuilderApp.iso_path j) in
  let folder_ok := match os_makedirs w (RTABuilderApp.output_folder j) with
                   | None => true | Some _ => false end in
  let tools_ok := existsb snd (RTABuilderApp.tool_vars j) || askyesno in
  res r = Normal (Some (iso_ok && folder_ok && tools_ok)) /\
  RTABuilderApp.error_dialogs (out r)
  = (if negb iso_ok then [("Error", "Please select a valid Kali ISO file")]
     else if negb folder_ok then [("Error", "Cannot create output folder")]
     else []) /\
  (In (EMakedirs (RTABuilderApp.output_folder j)) (out r) <-> iso_ok = true).
Proof.
  cbv zeta. unfold RTABuilderApp.validate_inputs, RTABuilderApp.makedirs.
  rewrite call_run. steps.
  destruct (truthy (RTABuilderApp.iso_path j)), (fs s (RTABuilderApp.iso_path j));
    cbn [negb orb andb]; steps;
    try (finish; split; [reflexivity|]; split; [reflexivity|];
         split; [intros [H|[]]; discriminate H | discriminate]).
  rewrite bind_run, try_except_run.
  destruct (os_makedirs w (RTABuilderApp.output_folder j)); steps; finish;
    destruct (existsb snd (RTABuilderApp.tool_vars j)), askyesno;
    cbn [negb orb andb]; steps; finish;
    (split; [reflexivity|]; split; [reflexivity|]; split; [reflexivity | left; reflexivity]).
Qed.

(* ================================================================== *)
(** * What the methods never do *)

Section EmitsLaws.

Variable Q : event -> Prop.

Lemma emits_ret A (a : A) : emits Q (ret a).
Proof. intro s. constructor. Qed.

Lemma emits_raise A e : emits Q (@raise A e).
Proof. intro s. constructor. Qed.

Lemma emits_return_value A v : emits Q (@return_value A v).
Proof. intro s. constructor. Qed.

Lemma emits_return_ A b : emits Q (@return_ A b).
Proof. intro s. constructor. Qed.

Lemma emits_emit e : Q e -> emits Q (emit e).
Proof. intros H s. repeat constructor. exact H. Qed.

Lemma emits_get : emits Q get.
Proof. intro s. constructor. Qed.

Lemma emits_exists p : emits Q (exists_ p).
Proof. intro s. constructor. Qed.

Lemma emits_set_path p b : emits Q (set_path p b).
Proof. intro s. constructor. Qed.

Lemma emits_get_drive_letter : emits Q get_drive_letter.
Proof. intro s. constructor. Qed.

Lemma emits_set_drive_letter d : emits Q (set_drive_letter d).
Proof. intro s. constructor. Qed.

Lemma emits_poll w : Q (EPoll true) -> Q (EPoll false) -> emits Q (poll w).
Proof.
  intros Ht Hf s. unfold poll. cbn [out]. constructor; [|constructor].
  destruct (stop_flag w (polls s)); assumption.
Qed.

Lemma emits_bind A B (m : M A) (k : A -> M B) :
  emits Q m -> (forall a, emits Q (k a)) -> emits Q (bind m k).
Proof.
  intros Hm Hk s. rewrite out_bind. destruct (res (m s)) as [a|v|e]; [|apply Hm..].
  apply Forall_app. split; [apply Hm | apply Hk].
Qed.

Lemma emits_attempt e answer : Q e -> emits Q (attempt e answer).
Proof.
  intro H. unfold attempt. apply emits_bind; [apply emits_emit; exact H|].
  intros _. destruct answer; [apply emits_raise | apply emits_ret].
Qed.

Lemma emits_try_except A c (m : M A) h :
  emits Q m -> (forall e, emits Q (h e)) -> emits Q (try_except c m h).
Proof.
  intros Hm Hh s. rewrite out_try_except.
  destruct (res (m s)) as [a|v|e]; [apply Hm..|].
  destruct (c e); [|apply Hm]. apply Forall_app. split; [apply Hm | apply Hh].
Qed.

Lemma emits_try_finally A (m : M A) f :
  emits Q m -> emits Q f -> emits Q (try_finally m f).
Proof.
  intros Hm Hf s. rewrite try_finally_run. cbn [out].
  apply Forall_app. split; [apply Hm | apply Hf].
Qed.

Lemma emits_call m : emits Q m -> emits Q (call m).
Proof. intros Hm s. rewrite call_run. apply Hm. Qed.

Lemma emits_for_each X (xs : list X) (body : X -> M unit) :
  (forall x, emits Q (body x)) -> emits Q (for_each xs body).
Proof.
  intro H. induction xs as [|x xs IH]; cbn [for_each]; [apply emits_ret|].
  apply emits_bind; [apply H | intros _; exact IH].
Qed.

Lemma emits_for_fold X S (xs : list X) (body : S -> X -> M S) acc :
  (forall a x, emits Q (body a x)) -> emits Q (for_fold xs acc body).
Proof.
  intro H. revert acc. induction xs as [|x xs IH]; intro acc; cbn [for_fold];
    [apply emits_ret|].
  apply emits_bind; [apply H | intro a; apply IH].
Qed.

End EmitsLaws.

Lemma emits_weaken (Q Q' : event -> Prop) A (m : M A) :
  (forall e, Q e -> Q' e) -> emits Q m -> emits Q' m.
Proof. intros H Hm s. eapply Forall_impl; [exact H | apply Hm]. Qed.

Ltac emits_step :=
  match goal with
  | |- emits _ (bind _ _) => apply emits_bind; [|intro]
  | |- emits _ (ret _) => apply emits_ret
  | |- emits _ (raise _) => apply emits_raise
  | |- emits _ (return_ _) => apply emits_return_
  | |- emits _ (return_value _) => apply emits_return_value
  | |- emits _ (emit _) => apply emits_emit
  | |- emits _ (attempt _ _) => apply emits_attempt
  | |- emits _ (poll _) => apply emits_poll
  | |- emits _ get => apply emits_get
  | |- emits _ (exists_ _) => apply emits_exists
  | |- emits _ (set_path _ _) => apply emits_set_path
  | |- emits _ get_drive_letter => apply emits_get_drive_letter
  | |- emits _ (set_drive_letter _) => apply emits_set_drive_letter
  | |- emits _ (try_except _ _ _) => apply emits_try_except; [|intro]
  | |- emits _ (try_finally _ _) => apply emits_try_finally
  | |- emits _ (call _) => apply emits_call
  | |- emits _ (for_each _ _) => apply emits_for_each; intro
  | |- emits _ (for_fold _ _ _) => apply emits_for_fold; intros
  | |- emits _ (ISOBuilder.log _ _) => unfold ISOBuilder.log
  | |- emits _ (ISOBuilder.relpath _ _ _) => unfold ISOBuilder.relpath
  | |- emits _ (ISOBuilder.spawn _ _) => unfold ISOBuilder.spawn
  | |- emits _ (ISOBuilder.run_cmd _ _) => unfold ISOBuilder.run_cmd
  | |- emits _ (ISOBuilder.run_checked _ _) => unfold ISOBuilder.run_checked
  | |- emits _ (if ?b then _ else _) => destruct b
  | |- emits _ (match ?x with _ => _ end) => destruct x
  end.

Ltac emits_auto := repeat emits_step; try exact I.

(** ** Extraction *)

Lemma read_output_emits Q w is_progress what p :
  (forall m v, Q (ELog m v)) -> (forall b, Q (EPoll b)) -> Q ETerminate ->
  emits Q (ISOBuilder.read_output w is_progress what p).
Proof.
  intros Hlog Hpoll Hterm. unfold ISOBuilder.read_output. emits_auto; auto.
Qed.

Lemma extract_with_7zip_emits w zip iso dir :
  emits archiver_event (ISOBuilder._extract_with_7zip w zip iso dir).
Proof.
  unfold ISOBuilder._extract_with_7zip, ISOBuilder._extract_with_7zip_body.
  cbv zeta.
  repeat first [ apply read_output_emits; [intros; exact I | intros; exact I | exact I]
               | emits_step ]; exact I.
Qed.

Lemma extract_with_windows_mount_emits w iso dir :
  emits (extraction_event iso) (ISOBuilder._extract_with_windows_mount w iso dir).
Proof.
  unfold ISOBuilder._extract_with_windows_mount, ISOBuilder._extract_with_windows_mount_body,
    ISOBuilder.mount_image, ISOBuilder.copy_tree, ISOBuilder.unmount_image,
    ISOBuilder.copy_dir, ISOBuilder.copy_file.
  cbv zeta. emits_auto; cbn [extraction_event]; auto.
Qed.

Lemma archiver_is_extraction iso e : archiver_event e -> extraction_event iso e.
Proof. destruct e as [| | | [] | | | | | | | | | | | | | | | | | |]; simpl; tauto. Qed.

(** X14.  Extraction never deletes, renames or writes a file other than by
    copying and never fills an archive; the only commands it runs are the
    mount and the unmount command of its image, and it spawns processes
    from an argument vector only. *)
Theorem extraction_leaves_the_host_alone w iso dir s :
  Forall (extraction_event iso) (out (ISOBuilder.extract_iso w iso dir s)).
Proof.
  revert s. change (emits (extraction_event iso) (ISOBuilder.extract_iso w iso dir)).
  unfold ISOBuilder.extract_iso, ISOBuilder._find_7zip. cbv zeta.
  repeat first
    [ apply extract_with_windows_mount_emits
    | eapply emits_weaken; [apply archiver_is_extraction | apply extract_with_7zip_emits]
    | emits_step ]; exact I.
Qed.

(** ** Creation *)

Lemma create_basic_iso_emits w source_dir output_iso label :
  emits (creation_event w output_iso)
    (ISOBuilder._create_basic_iso w source_dir output_iso label).
Proof.
  unfold ISOBuilder._create_basic_iso, ISOBuilder._create_basic_iso_body,
    ISOBuilder.archive_tree, ISOBuilder.archive_file.
  cbv zeta. emits_auto; cbn [creation_event]; auto.
Qed.

Lemma create_iso_with_powershell_emits w source_dir output_iso label :
  emits (creation_event w output_iso)
    (ISOBuilder._create_iso_with_powershell w source_dir output_iso label).
Proof.
  unfold ISOBuilder._create_iso_with_powershell, ISOBuilder._create_iso_with_powershell_body,
    ISOBuilder.ensure_script.
  cbv zeta.
  repeat first
    [ apply create_basic_iso_emits
    | apply read_output_emits; [intros; exact I | intros; exact I | exact I]
    | emits_step ]; cbn [creation_event]; auto.
Qed.

Lemma create_iso_with_oscdimg_emits w path source_dir output_iso label :
  emits (creation_event w output_iso)
    (ISOBuilder._create_iso_with_oscdimg w path source_dir output_iso label).
Proof.
  unfold ISOBuilder._create_iso_with_oscdimg, ISOBuilder._create_iso_with_oscdimg_body.
  cbv zeta.
  repeat first
    [ apply read_output_emits; [intros; exact I | intros; exact I | exact I]
    | emits_step ]; cbn [creation_event]; auto.
Qed.

(** X15.  Whichever tier runs, creating an ISO never removes or renames a
    file other than its own output (the archive beside the output is
    renamed to it), writes no file but the helper script in the temporary
    directory and the archive, and makes no directory, copies nothing and
    downloads nothing. *)
Theorem creation_touches_only_its_output w source_dir output_iso label s :
  Forall (creation_event w output_iso)
    (out (ISOBuilder.create_iso w source_dir output_iso label s)).
Proof.
  revert s.
  change (emits (creation_event w output_iso)
            (ISOBuilder.create_iso w source_dir output_iso label)).
  unfold ISOBuilder.create_iso, ISOBuilder._find_oscdimg. cbv zeta.
  repeat first
    [ apply create_iso_with_powershell_emits
    | apply create_iso_with_oscdimg_emits
    | emits_step ]; exact I.
Qed.

(** ** Download *)

(** X16.  [download_file] makes no directory but the one of its
    destination, retrieves its URL to its destination only, removes no
    file but its destination, and spawns no process. *)
Theorem download_touches_only_its_destination w url destination has_callback s :
  Forall (download_event w url destination)
    (out (ISOBuilder.download_file w url destination has_callback s)).
Proof.
  revert s.
  change (emits (download_event w url destination)
            (ISOBuilder.download_file w url destination has_callback)).
  unfold ISOBuilder.download_file, ISOBuilder.retrieve, ISOBuilder.remove_partial,
    ISOBuilder.report_progress.
  cbv zeta. emits_auto; cbn [download_event]; auto.
Qed.

(* ================================================================== *)
(** * More about [ISOBuilder] *)

(** ** Looking for the tools *)

Lemma find_first (present : string -> bool) candidates :
  match find present candidates with
  | Some p => first_existing present candidates p
  | None => forall q, In q candidates -> present q = false
  end.
Proof.
  induction candidates as [|c candidates IH]; cbn [find]; [intros q []|].
  destruct (present c) eqn:E.
  - exists [], candidates. split; [reflexivity|]. split; [exact E | intros q []].
  - destruct (find present candidates) as [p|].
    + destruct IH as (before & after & -> & Hp & Hb).
      exists (c :: before), after. split; [reflexivity|]. split; [exact Hp|].
      intros q [<-|Hq]; auto.
    + intros q [<-|Hq]; auto.
Qed.

Lemma find_of_first (present : string -> bool) candidates p :
  first_existing present candidates p -> find present candidates = Some p.
Proof.
  intros (before & after & -> & Hp & Hb).
  induction before as [|c before IH]; cbn [app find].
  - rewrite Hp. reflexivity.
  - rewrite (Hb c) by (left; reflexivity). apply IH. intros q Hq. apply Hb. right. exact Hq.
Qed.

(** X17.  [_find_oscdimg] looks at the two places of the Windows ADK and
    then at the [tools] directory beside the module, in this order, and
    answers the first that exists without logging; only when none exists
    it logs that the PowerShell method will be used and answers [None]. *)
Theorem find_oscdimg_first_existing w s :
  exists found,
    ISOBuilder._find_oscdimg w s
    = mkRun (Normal found)
        (match found with
         | Some _ => []
         | None => [ELog "oscdimg.exe not found on system. Using PowerShell fallback method."
                      None]
         end) s /\
    match found with
    | Some p => first_existing (fs s) (oscdimg_paths w) p
    | None => forall q, In q (oscdimg_paths w) -> fs s q = false
    end.
Proof.
  exists (find (fs s) (oscdimg_paths w)). split; [|apply find_first].
  unfold ISOBuilder._find_oscdimg, ISOBuilder.log, oscdimg_paths. cbv zeta.
  rewrite bind_get. cbn [find].
  repeat match goal with
         | |- context [if fs s ?p then _ else _] =>
             destruct (fs s p); [reflexivity|]
         end.
  steps. reflexivity.
Qed.

(** ** The dispatcher [extract_iso] *)

(** X18.  With 7-Zip installed, [extract_iso] runs the archiver strategy
    with the first candidate that exists and gives back its result; the
    image is never mounted: no command is run at all, nothing is copied. *)
Theorem archiver_is_preferred w iso dir s p :
  first_existing (fs s) (seven_zip_paths w) p -> truthy p = true ->
  let x := ISOBuilder.extract_iso w iso dir s in
  res x = res (ISOBuilder._extract_with_7zip w p iso dir s) /\
  out x = ELog ("Extracting ISO: " ++ iso ++ " to " ++ dir) None
          :: out (ISOBuilder._extract_with_7zip w p iso dir s) /\
  Forall archiver_event (out x).
Proof.
  intros Hfirst Hnamed. cbv zeta. apply find_of_first in Hfirst.
  unfold seven_zip_paths in Hfirst.
  destruct (seven_zip_summary w p iso dir s) as (b & pre & Hr & _). cbv zeta in Hr.
  pose proof (extract_with_7zip_emits w p iso dir s) as Hev.
  unfold ISOBuilder.extract_iso, ISOBuilder._find_7zip, ISOBuilder.log. cbv zeta.
  revert Hr Hev. generalize (ISOBuilder._extract_with_7zip w).
  generalize (ISOBuilder._extract_with_windows_mount w iso dir).
  intros mount archiver Hr Hev.
  rewrite call_run. steps. rewrite Hfirst, Hnamed, bind_run, Hr.
  cbn [prefix res out fin return_value]. rewrite app_nil_r.
  split; [reflexivity|]. split; [reflexivity|]. constructor; [exact I | exact Hev].
Qed.

Lemma archiver_is_preferred_witness :
  let x := ISOBuilder.extract_iso Hosts.quiet_host "kali.iso" "D:\x" Hosts.with_7zip in
  first_existing (fs Hosts.with_7zip) (seven_zip_paths Hosts.quiet_host) Hosts.seven_zip_exe /\
  Forall archiver_event (out x).
Proof.
  assert (H : first_existing (fs Hosts.with_7zip) (seven_zip_paths Hosts.quiet_host)
                Hosts.seven_zip_exe).
  { exists [], ["C:\Program Files (x86)\7-Zip\7z.exe"].
    split; [reflexivity|]. split; [reflexivity | intros q []]. }
  split; [exact H|].
  exact (proj2 (proj2 (@archiver_is_preferred Hosts.quiet_host "kali.iso" "D:\x"
                         Hosts.with_7zip Hosts.seven_zip_exe H eq_refl))).
Defined.


(** ** A mount that fails *)

(** X20.  When the image cannot be mounted (the target directory cannot
    be made, the mount command fails, or it answers no drive letter), the
    mount-and-copy strategy returns [False], its last act is a log with
    progress 0, and no unmount command is issued. *)
Theorem failed_mount_is_not_released w iso dir s :
  (forall d, ~ mounts w iso dir d) ->
  let r := ISOBuilder._extract_with_windows_mount w iso dir s in
  res r = Normal (Some false) /\
  (exists pre msg, out r = (pre ++ [ELog msg (Some 0%Z)])%list) /\
  unmounts iso (out r) = 0%nat.
Proof.
  intros Hno. cbv zeta.
  destruct (mount_summary w iso dir s) as (b & pre & Hr & Hpre & Hcases). cbv zeta in Hr, Hcases.
  destruct Hcases as [(-> & _ & msg & Ho) | (d & Hm & _)]; [|exfalso; exact (Hno d Hm)].
  split; [exact Hr|]. split; [eauto|].
  rewrite Ho, unmounts_app, (unmounts_before Hpre). reflexivity.
Qed.

Lemma unmountable_host_mounts_nothing :
  forall d, ~ mounts unmountable_host "kali.iso" "D:\x" d.
Proof. intros d (_ & c & Hc & Hrc & _). injection Hc as <-. discriminate Hrc. Qed.

Lemma failed_mount_is_not_released_witness :
  let r := ISOBuilder._extract_with_windows_mount unmountable_host "kali.iso" "D:\x"
             Hosts.fresh in
  res r = Normal (Some false) /\ unmounts "kali.iso" (out r) = 0%nat.
Proof.
  destruct (@failed_mount_is_not_released unmountable_host "kali.iso" "D:\x" Hosts.fresh
              unmountable_host_mounts_nothing) as (Hr & _ & Hu).
  split; assumption.
Defined.

(** ** The scripted tier when its helper is already loaded *)

Lemma create_basic_iso_archives w source_dir output_iso label :
  emits archive_tier_event (ISOBuilder._create_basic_iso w source_dir output_iso label).
Proof.
  unfold ISOBuilder._create_basic_iso, ISOBuilder._create_basic_iso_body,
    ISOBuilder.archive_tree, ISOBuilder.archive_file.
  cbv zeta. emits_auto.
Qed.

(** X21.  When the probe of the scripted tier already lists [New-IsoFile],
    the helper script is neither written nor loaded and [script_path] stays
    unbound: building the command line raises, the tier logs the error with
    progress 0 and hands over to the raw-archive tier, whose result it
    returns.  PowerShell is never spawned to create the image. *)
Theorem loaded_helper_skips_scripted_creation w source_dir output_iso label s probe :
  subprocess_run w ISOBuilder.check_cmd = inr probe ->
  contains "New-IsoFile" (run_stdout probe) = true ->
  let r := ISOBuilder._create_iso_with_powershell w source_dir output_iso label s in
  let last := ISOBuilder._create_basic_iso w source_dir output_iso label s in
  res r = res last /\
  (exists msg,
     out r = ([ELog "Creating ISO with PowerShell..." None;
               ERun ISOBuilder.check_cmd;
               ELog ("Error creating ISO with PowerShell: " ++ msg) (Some 0%Z)]
              ++ out last)%list) /\
  existsb is_spawn (out r) = false.
Proof.
  intros Hprobe Hlisted. cbv zeta.
  destruct (basic_iso_total w source_dir output_iso label s) as (v & Hv).
  pose proof (create_basic_iso_archives w source_dir output_iso label s) as Hev.
  unfold ISOBuilder._create_iso_with_powershell, ISOBuilder._create_iso_with_powershell_body,
    ISOBuilder.ensure_script, ISOBuilder.run_cmd, ISOBuilder.log.
  revert Hv Hev. generalize (ISOBuilder._create_basic_iso w source_dir output_iso label).
  intros last_tier Hv Hev. hide_strings.
  rewrite call_run, try_except_run. steps. rewrite Hprobe. steps. rewrite Hlisted.
  cbn [negb]. steps. finish. steps.
  rewrite bind_run, Hv. finish.
  split; [reflexivity|]. split; [eexists; reflexivity|].
  cbn [existsb is_spawn orb].
  induction Hev as [|e evs He _ IH]; [reflexivity|].
  cbn [existsb]. rewrite IH. destruct e; try contradiction; reflexivity.
Qed.

Lemma loaded_helper_skips_scripted_creation_witness :
  let r := ISOBuilder._create_iso_with_powershell scripted_host "D:\x" "D:\out.iso" "KALI_RTA"
             Hosts.fresh in
  res r = res (ISOBuilder._create_basic_iso scripted_host "D:\x" "D:\out.iso" "KALI_RTA"
                 Hosts.fresh)
  /\ existsb is_spawn (out r) = false.
Proof.
  destruct (@loaded_helper_skips_scripted_creation scripted_host "D:\x" "D:\out.iso"
              "KALI_RTA" Hosts.fresh (mkCompleted 0 "Function New-IsoFile") eq_refl eq_refl)
    as (Hr & _ & Hs).
  split; assumption.
Defined.

(* ================================================================== *)
(** * Methods that always return a Boolean *)

Section NoNoneLaws.
















End NoNoneLaws.









(* ================================================================== *)
(** * The archive of the raw-archive tier *)

Lemma archive_tree_never_closes w source_dir :
  emits not_zip_close (ISOBuilder.archive_tree w source_dir).
Proof.
  unfold ISOBuilder.archive_tree, ISOBuilder.archive_file. cbv zeta.
  emits_auto; reflexivity.
Qed.

Lemma zip_closes_app a b : zip_closes (a ++ b) = (zip_closes a + zip_closes b)%nat.
Proof. unfold zip_closes. rewrite filter_app, length_app. reflexivity. Qed.

Lemma zip_closes_none evs : Forall not_zip_close evs -> zip_closes evs = 0%nat.
Proof.
  unfold zip_closes. induction 1 as [|e evs He _ IH]; [reflexivity|].
  cbn [filter]. rewrite He. exact IH.
Qed.

Ltac count_closes H :=
  repeat (cbn [filter is_zip_close app length]; rewrite ?filter_app, ?length_app);
  rewrite ?H; reflexivity.

(** X23.  The raw-archive tier closes its archive exactly once when it
    could open it, however the tier ends: after the last file, at a stop
    request, or at an error while a file is added; it closes nothing when
    the archive could not be opened. *)
Theorem archive_is_closed_once w source_dir output_iso label s :
  zip_closes (out (ISOBuilder._create_basic_iso w source_dir output_iso label s))
  = match zip_open w (output_iso ++ ".zip") with None => 1%nat | Some _ => 0%nat end.
Proof.
  pose proof (archive_tree_never_closes w source_dir) as Htree.
  unfold ISOBuilder._create_basic_iso, ISOBuilder._create_basic_iso_body, ISOBuilder.log.
  cbv zeta. revert Htree. generalize (ISOBuilder.archive_tree w source_dir).
  intros tree Htree. hide_strings.
  rewrite call_run. steps. rewrite try_except_run. steps.
  destruct (zip_open w (output_iso ++ text1)); steps; [finish; reflexivity|].
  rewrite bind_run, try_finally_run. cbn [emit res out fin].
  match goal with
  | |- context [tree ?s'] =>
      pose proof (zip_closes_none (Htree s')) as Hnone;
      destruct (tree s') as [tres tout tfin]; cbn [res out fin] in Hnone |- *
  end.
  unfold zip_closes in *.
  destruct tres as [n|v|e]; cbn [res out fin]; steps.
  - destruct (fs tfin output_iso); steps;
      [destruct (os_unlink w output_iso); steps|];
      try (destruct (os_rename w _ output_iso); steps);
      repeat (finish; steps); count_closes Hnone.
  - repeat (finish; steps). count_closes Hnone.
  - repeat (finish; steps). count_closes Hnone.
Qed.

(* ================================================================== *)
(** * More about [download_file] *)

Lemma stops_poll_raise Q (P : exn -> Prop) A w e (k : M A) :
  Q (EPoll false) -> P e -> stops_by_raise Q P k ->
  stops_by_raise Q P (stop <- poll w ;; if stop then raise e else k).
Proof.
  intros HQ HP Hk s. rewrite bind_poll.
  destruct (stop_flag w (polls s)); cbn [prefix res out fin raise app].
  - split; [reflexivity|]. right. exists [], e. repeat split; [constructor | exact HP].
  - destruct (Hk (mkSt (S (polls s)) (fs s) (drive_letter s))) as (Hd & Hc).
    split; [exact Hd|].
    destruct Hc as [(Ho & Hr) | (pre & e' & Ho & Hpre & Hr & HP')].
    + left. split; [constructor; assumption | exact Hr].
    + right. exists (EPoll false :: pre), e'. rewrite Ho.
      repeat split; [constructor; assumption | exact Hr | exact HP'].
Qed.

Lemma stops_for_each Q (P : exn -> Prop) X (xs : list X) (body : X -> M unit) :
  (forall x, stops_by_raise Q P (body x)) -> stops_by_raise Q P (for_each xs body).
Proof.
  intro H. induction xs as [|x xs IH]; cbn [for_each].
  - apply stops_of_plain, plain_ret.
  - apply stops_bind; [apply H | intros _; exact IH].
Qed.

Lemma report_progress_stops w has_callback count block_size total_size :
  stops_by_raise calm cancelled
    (ISOBuilder.report_progress w has_callback count block_size total_size).
Proof.
  unfold ISOBuilder.report_progress. apply stops_poll_raise.
  - discriminate.
  - reflexivity.
  - apply stops_of_plain. plain_auto; discriminate.
Qed.

(** While nobody asks to stop, the report hook runs to its end and leaves
    the file system alone. *)
Lemma report_progress_straight w has_callback count block_size total_size s :
  never_stopped w ->
  res (ISOBuilder.report_progress w has_callback count block_size total_size s) = Normal tt
  /\ fs (fin (ISOBuilder.report_progress w has_callback count block_size total_size s)) = fs s.
Proof.
  intro Hn. unfold ISOBuilder.report_progress, ISOBuilder.log.
  rewrite bind_poll, Hn.
  destruct (0 <? total_size)%Z; [destruct has_callback|]; steps; split; reflexivity.
Qed.

Lemma for_each_straight X (xs : list X) (body : X -> M unit) :
  (forall x s, res (body x s) = Normal tt /\ fs (fin (body x s)) = fs s) ->
  forall s, res (for_each xs body s) = Normal tt /\ fs (fin (for_each xs body s)) = fs s.
Proof.
  intro H. induction xs as [|x xs IH]; intro s; cbn [for_each].
  - split; reflexivity.
  - rewrite res_bind, fin_bind. destruct (H x s) as (Hr & Hf). rewrite Hr.
    destruct (IH (fin (body x s))) as (Hr' & Hf'). split; [exact Hr' | congruence].
Qed.

Lemma ends_with_app A (l : list A) (x : A) : exists pre, (l ++ [x])%list = (pre ++ [x])%list.
Proof. exists l. reflexivity. Qed.

Lemma ends_with_cons A (a : A) (l : list A) (x : A) :
  (exists pre, l = (pre ++ [x])%list) -> exists pre, a :: l = (pre ++ [x])%list.
Proof. intros (pre & ->). exists (a :: pre). reflexivity. Qed.

(** X24.  When nobody asks to stop, the directory can be made and the
    transfer meets no obstacle, [download_file] returns [True], its last
    act is to log the completion, and the destination file exists. *)
Theorem download_succeeds w url destination has_callback s :
  never_stopped w -> transfer_ok w url destination ->
  let r := ISOBuilder.download_file w url destination has_callback s in
  res r = Normal (Some true) /\
  (exists pre, out r = (pre ++ [ELog ("Download completed to " ++ destination) None])%list) /\
  fs (fin r) destination = true.
Proof.
  intros Hn (Hmk & Hop & Htr). cbv zeta.
  unfold ISOBuilder.download_file, ISOBuilder.retrieve, ISOBuilder.log. cbv zeta.
  rewrite Hmk, Hop, Htr.
  pose proof (@for_each_straight _ (hook_calls (urlretrieve w url destination))
                (fun c => ISOBuilder.report_progress w has_callback
                            (fst (fst c)) (snd (fst c)) (snd c))
                (fun c s' => @report_progress_straight w has_callback _ _ _ s' Hn)) as Hloop.
  revert Hloop. generalize (for_each (hook_calls (urlretrieve w url destination))
                (fun c => ISOBuilder.report_progress w has_callback
                            (fst (fst c)) (snd (fst c)) (snd c))).
  intros loop Hloop. hide_strings.
  rewrite call_run. steps. rewrite try_except_run. steps.
  rewrite bind_run.
  match goal with
  | |- context [loop ?s'] => destruct (Hloop s') as (Hr & Hf); rewrite Hr
  end.
  cbv iota beta. steps. finish.
  split; [reflexivity|]. split; [repeat apply ends_with_cons; apply ends_with_app|].
  rewrite Hf. cbn [fs]. rewrite String.eqb_refl. reflexivity.
Qed.

Lemma quiet_transfer_ok : transfer_ok Hosts.quiet_host "http://mirror/kali.iso" "D:\out\kali.iso".
Proof. repeat split. Qed.

Lemma download_succeeds_witness :
  let r := ISOBuilder.download_file Hosts.quiet_host "http://mirror/kali.iso"
             "D:\out\kali.iso" false Hosts.fresh in
  res r = Normal (Some true) /\ fs (fin r) "D:\out\kali.iso" = true.
Proof.
  destruct (@download_succeeds Hosts.quiet_host "http://mirror/kali.iso" "D:\out\kali.iso"
              false Hosts.fresh (fun _ => eq_refl) quiet_transfer_ok) as (Hr & _ & Hf).
  split; assumption.
Defined.

(** A read of the set flag among events that are known: it is in the one
    list that is not. *)
Ltac no_stop_in H :=
  repeat first
    [ assumption
    | destruct H as [H|H]; [discriminate H|]
    | apply in_app_or in H; destruct H as [H|H]
    | destruct H ].

(** The [try] block of [download_file] sees the flag set only inside the
    report hook, which then cancels the download. *)
Lemma download_body_cancel w url destination has_callback s :
  let body :=
    (attempt (EMakedirs (os_path_dirname w destination))
       (os_makedirs w (os_path_dirname w destination)) ;;
     ISOBuilder.retrieve w has_callback url destination ;;
     ISOBuilder.log ("Download completed to " ++ destination) None ;;
     @return_ unit true) in
  In (EPoll true) (out (body s)) ->
  res (body s) = Raised (mkExn Exception "Download canceled by user").
Proof.
  cbv zeta. unfold ISOBuilder.retrieve, ISOBuilder.log.
  pose proof (@stops_for_each calm cancelled _
                (hook_calls (urlretrieve w url destination))
                (fun c => ISOBuilder.report_progress w has_callback
                            (fst (fst c)) (snd (fst c)) (snd c))
                (fun c => report_progress_stops w has_callback _ _ _)) as Hloop.
  revert Hloop. generalize (for_each (hook_calls (urlretrieve w url destination))
                (fun c => ISOBuilder.report_progress w has_callback
                            (fst (fst c)) (snd (fst c)) (snd c))).
  intros loop Hloop. hide_strings.
  assert (Hcalm : forall (l : list event), Forall calm l -> ~ In (EPoll true) l).
  { intros l Hl Hin. rewrite Forall_forall in Hl. exact (Hl _ Hin eq_refl). }
  destruct (os_makedirs w (os_path_dirname w destination)) as [e|]; steps.
  { finish. intros [H|[]]. discriminate H. }
  destruct (open_error (urlretrieve w url destination)) as [e|]; steps.
  { finish. intros [H|[H|[]]]; discriminate H. }
  rewrite bind_run.
  match goal with
  | |- context [loop ?s'] =>
      destruct (Hloop s') as (_ & Hc);
      destruct (loop s') as [lres lout lfin]; cbn [res out fin] in Hc |- *
  end.
  destruct Hc as [(Ho & Hr) | (pre & e & -> & Hpre & -> & ->)].
  - intro Hin. exfalso. apply (Hcalm lout Ho).
    destruct lres as [[]|v|e]; cbn [res out fin] in Hin.
    + revert Hin. steps.
      destruct (transfer_error (urlretrieve w url destination)); steps; finish;
        intro H; no_stop_in H.
    + exfalso. exact (Hr v eq_refl).
    + revert Hin. finish. intro H. no_stop_in H.
  - intros _. reflexivity.
Qed.

Lemma remove_partial_logs w destination e s :
  exists rest,
    out (ISOBuilder.remove_partial w destination e s)
    = ELog ("Error downloading file: " ++ exn_msg e) (Some 0%Z) :: rest
    /\ Forall calm rest.
Proof.
  assert (H : emits calm
                (present <- exists_ destination ;;
                 (if present
                  then try_except any_exception
                         (attempt (EUnlink destination) (os_unlink w destination) ;;
                          set_path destination false)
                         (fun _ => ret tt)
                  else ret tt) ;;
                 @return_ unit false))
    by (emits_auto; discriminate).
  unfold ISOBuilder.remove_partial, ISOBuilder.log. rewrite bind_emit.
  cbn [prefix out app]. eexists. split; [reflexivity | apply H].
Qed.

(** X25.  A stop request seen during a download is seen by the report
    hook, which cancels the transfer: [download_file] logs
    [Error downloading file: Download canceled by user] with progress 0 and
    returns [False]. *)
Theorem cancelled_download_is_logged w url destination has_callback s :
  let r := ISOBuilder.download_file w url destination has_callback s in
  In (EPoll true) (out r) ->
  res r = Normal (Some false) /\
  In (ELog "Error downloading file: Download canceled by user" (Some 0%Z)) (out r).
Proof.
  cbv zeta.
  pose proof (fun s' => download_body_cancel w url destination has_callback s') as Hbody.
  pose proof (fun s' => download_body_cases w url destination has_callback s') as Hcases.
  pose proof (fun e s' => remove_partial_spec w destination e s') as Hspec.
  pose proof (fun e s' => remove_partial_logs w destination e s') as Hlogs.
  cbv zeta in Hbody, Hcases, Hspec.
  unfold ISOBuilder.download_file. cbv zeta.
  set (body := bind (attempt _ _) _) in *. clearbody body.
  set (handler := ISOBuilder.remove_partial w destination) in *. clearbody handler.
  unfold ISOBuilder.log.
  rewrite call_run. steps. cbn [prefix res out fin]. rewrite try_except_run.
  assert (Hcalm : forall (l : list event), Forall calm l -> ~ In (EPoll true) l).
  { intros l Hl Hin. rewrite Forall_forall in Hl. exact (Hl _ Hin eq_refl). }
  destruct (Hcases s) as [(Hr & Hc & _) | (e & Hr)]; rewrite Hr; cbv iota beta.
  - intros [H|H]; [discriminate H|]. exfalso. exact (Hcalm _ Hc H).
  - cbn [any_exception prefix res out fin].
    destruct (Hspec e (fin (body s))) as (Hrr & _). rewrite Hrr.
    destruct (Hlogs e (fin (body s))) as (rest & -> & Hrest).
    intro H. split; [reflexivity|].
    assert (Hb : In (EPoll true) (out (body s)))
      by (repeat first
            [ assumption
            | exfalso; exact (Hcalm _ Hrest H)
            | destruct H as [H|H]; [discriminate H|]
            | apply in_app_or in H; destruct H as [H|H]
            | destruct H ]).
    rewrite (Hbody s Hb) in Hr. injection Hr as <-.
    repeat first [ left; reflexivity | apply in_or_app; right | right ].
Qed.

Lemma cancelled_download_is_logged_witness :
  let r := ISOBuilder.download_file Hosts.cancelled_transfer "http://mirror/kali.iso"
             "D:\out\kali.iso" false Hosts.fresh in
  In (EPoll true) (out r) /\
  res r = Normal (Some false) /\
  In (ELog "Error downloading file: Download canceled by user" (Some 0%Z)) (out r).
Proof.
  assert (H : In (EPoll true)
                (out (ISOBuilder.download_file Hosts.cancelled_transfer
                        "http://mirror/kali.iso" "D:\out\kali.iso" false Hosts.fresh)))
    by (vm_compute; repeat first [left; reflexivity | right]).
  split; [exact H|].
  exact (@cancelled_download_is_logged Hosts.cancelled_transfer "http://mirror/kali.iso"
           "D:\out\kali.iso" false Hosts.fresh H).
Defined.
